(** * Storage gateway of the property-management backend

    A shallow embedding of [src/common/services/upload.service.ts]
    (class [UploadService]) together with the facts its specification
    states about it, and of the methods of the profile and media services
    that hand a stored reference back to it.

    The service stores binary assets either on the local file system
    (through [fs-extra] and [path]) or in a remote blob store (through
    [put] and [del] of the blob client).  Both are collaborators of the
    service: the file system and [path] are modelled concretely (POSIX
    flavour), the blob store and the URL parser are interfaces, so that
    the statements about the service hold whatever they answer, unless a
    statement names what it expects of them.

    Strings are byte strings holding UTF-8; the promise returned by an [async] method is
    modelled by its settlement: fulfilled with a value, or rejected with an
    error.  Calls of [this.log] and of [performance.now] only feed the log
    and are left out. *)

From stdpp Require Import gmap strings list.
From Stdlib Require Import String Ascii.

Open Scope string_scope.
Open Scope list_scope.

(** ** Strings, the way the service uses them *)

Module Str.

(** [s.startsWith(p)] *)
Definition startsWith (s p : string) : bool := String.prefix p s.

(** [s.substring(1)] *)
Definition substring1 (s : string) : string :=
  match s with
  | EmptyString => EmptyString
  | String _ r => r
  end.

(** [s.split(c)]: the pieces between the occurrences of [c]; never
    empty, [''.split(c)] is [['']]. *)
Fixpoint split (c : ascii) (s : string) : list string :=
  match s with
  | EmptyString => [EmptyString]
  | String a r =>
      if Ascii.eqb a c then EmptyString :: split c r
      else match split c r with
           | x :: xs => String a x :: xs
           | [] => [String a EmptyString]
           end
  end.

(** [arr.pop()] on a fresh array: its last element, [undefined] when
    the array is empty. *)
Definition pop (l : list string) : option string := last l.

(** [x || d] for a string-or-undefined [x]: [d] when [x] is undefined
    or empty. *)
Definition orElse (x : option string) (d : string) : string :=
  match x with
  | Some EmptyString | None => d
  | Some s => s
  end.

(** a string of the service is truthy when it is not empty *)
Definition truthy (s : string) : bool :=
  match s with
  | EmptyString => false
  | String _ _ => true
  end.

(** does [c] occur in [s] *)
Fixpoint mem (c : ascii) (s : string) : bool :=
  match s with
  | EmptyString => false
  | String a r => Ascii.eqb a c || mem c r
  end.

(** the last character is [c] *)
Fixpoint endsWithChar (c : ascii) (s : string) : bool :=
  match s with
  | EmptyString => false
  | String a EmptyString => Ascii.eqb a c
  | String _ r => endsWithChar c r
  end.

(** index of the last occurrence of [c] in [s] *)
Fixpoint lastIndexOf (c : ascii) (s : string) : option nat :=
  match s with
  | EmptyString => None
  | String a r =>
      match lastIndexOf c r with
      | Some i => Some (S i)
      | None => if Ascii.eqb a c then Some 0 else None
      end
  end.

(** [s.slice(n)] *)
Fixpoint drop (n : nat) (s : string) : string :=
  match n, s with
  | O, _ => s
  | S k, String _ r => drop k r
  | S _, EmptyString => EmptyString
  end.

(** [s.endsWith(suffix)] *)
Definition endsWith (s suffix : string) : bool :=
  String.eqb (drop (String.length s - String.length suffix) s) suffix.

End Str.

(** ** [path] (POSIX) *)

Module Path.

Definition sep : ascii := "/"%char.

(** One step of [normalizeString]: [acc] holds the segments kept so far,
    the last one first.  Empty segments and [.] are dropped; [..] drops
    the last kept segment, and where there is none (or it is [..]
    itself) it is kept only when the path is relative
    ([allowAboveRoot]). *)
Definition normStep (allowAboveRoot : bool) (acc : list string) (seg : string)
  : list string :=
  if decide (seg = "" ∨ seg = ".") then acc
  else if decide (seg = "..") then
    match acc with
    | top :: rest =>
        if decide (top = "..") then
          (if allowAboveRoot then ".." :: acc else acc)
        else rest
    | [] => if allowAboveRoot then [".."] else []
    end
  else seg :: acc.

Definition normSegs (allowAboveRoot : bool) (acc : list string)
  (segs : list string) : list string :=
  foldl (normStep allowAboveRoot) acc segs.

Definition isAbsolute (p : string) : bool := Str.startsWith p "/".

(** [normalizeString(path, allowAboveRoot, '/')] *)
Definition normalizeString (p : string) (allowAboveRoot : bool) : string :=
  String.concat "/" (rev (normSegs allowAboveRoot [] (Str.split sep p))).

(** [path.normalize] *)
Definition normalize (p : string) : string :=
  if negb (Str.truthy p) then "."
  else
    let isAbs := isAbsolute p in
    let trailingSeparator := Str.endsWithChar sep p in
    let q := normalizeString p (negb isAbs) in
    if negb (Str.truthy q) then
      (if isAbs then "/" else if trailingSeparator then "./" else ".")
    else
      let q' := if trailingSeparator then q +:+ "/" else q in
      if isAbs then "/" +:+ q' else q'.

(** [path.join(...args)]: the non-empty arguments, joined by [/], then
    normalized. *)
Definition join (args : list string) : string :=
  match filter (λ a, Str.truthy a = true) args with
  | [] => "."
  | l => normalize (String.concat "/" l)
  end.

(** the last segment of a path, trailing separators ignored *)
Definition lastPart (p : string) : string :=
  default "" (last (filter (λ s, Str.truthy s = true) (Str.split sep p))).

(** [path.extname]: what follows the last [.] of the last segment,
    that dot included; empty when the segment has no dot, when its only
    dot is its first character, or when the segment is [..]. *)
Definition extname (p : string) : string :=
  let b := lastPart p in
  match Str.lastIndexOf "."%char b with
  | None => ""
  | Some O => ""
  | Some i => if decide (b = "..") then "" else Str.drop i b
  end.

End Path.

(** ** Errors and settlements *)

(** What the service can see thrown or can throw itself. *)
Inductive JsError : Type :=
| Error (message : string)                 (* [new Error(message)] *)
| SystemError (code : string) (path : string)  (* an [fs] failure *)
| TypeError (message : string)             (* [new URL] on a bad input *)
| BlobError (message : string).            (* a failure of the blob client *)

(** How a call ends: it returns (the promise is fulfilled) or it throws
    (the promise is rejected). *)
Inductive outcome (A : Type) : Type :=
| Returned (a : A)
| Thrown (e : JsError).
Arguments Returned {A} a.
Arguments Thrown {A} e.

Definition isReturned {A} (o : outcome A) : bool :=
  match o with
  | Returned _ => true
  | Thrown _ => false
  end.

(** ** The local file system *)

Inductive Node : Type :=
| File (data : list Byte.byte)
| Dir.

Module Fs.

(** A file system maps the segments of an absolute path to what is
    there; the root is always a directory. *)
Abbreviation t := (gmap (list string) Node).

(** The segments a path names.  The service only hands over paths made
    by [Path.join] from the absolute working directory, on which this is
    the list of their segments. *)
Definition resolve (p : string) : list string :=
  rev (Path.normSegs false [] (Str.split Path.sep p)).

Definition node (fs : t) (segs : list string) : option Node :=
  match segs with
  | [] => Some Dir
  | _ => fs !! segs
  end.

(** [stat]: a path with a trailing separator only names a directory;
    the empty path names nothing. *)
Definition stat (fs : t) (p : string) : option Node :=
  if negb (Str.truthy p) then None
  else
    match node fs (resolve p) with
    | Some (File d) =>
        if Str.endsWithChar Path.sep p then None else Some (File d)
    | r => r
    end.

Definition exists_ (fs : t) (p : string) : bool :=
  match stat fs p with
  | Some _ => true
  | None => false
  end.

(** [unlink]: removes a file, refuses a directory or a missing path. *)
Definition unlink (fs : t) (p : string) : outcome unit * t :=
  match stat fs p with
  | Some (File _) => (Returned tt, delete (resolve p) fs)
  | Some Dir => (Thrown (SystemError "EISDIR" p), fs)
  | None => (Thrown (SystemError "ENOENT" p), fs)
  end.

(** [mkdir -p]: walks down from [pre], creating what is missing; it
    stops at the first segment that is a file, keeping what it made.
    That is the one failure the model has: a real [mkdirSync] can also
    be refused for reasons the model holds nothing of (permissions, a
    read-only mount, a name too long), so what is stated of [mkdir] below
    is what it leaves, and what holds once it has returned. *)
Fixpoint mkdirp (fs : t) (pre todo : list string) : bool * t :=
  match todo with
  | [] => (true, fs)
  | s :: rest =>
      let d := pre ++ [s] in
      match fs !! d with
      | Some (File _) => (false, fs)
      | Some Dir => mkdirp fs d rest
      | None => mkdirp (<[d := Dir]> fs) d rest
      end
  end.

Definition mkdir (fs : t) (p : string) : outcome unit * t :=
  match mkdirp fs [] (resolve p) with
  | (true, fs') => (Returned tt, fs')
  | (false, fs') => (Thrown (SystemError "ENOTDIR" p), fs')
  end.

(** Writing a whole buffer through a write stream: the file is created
    or replaced when its parent is a directory and the path does not
    name a directory. *)
Definition write (fs : t) (p : string) (data : list Byte.byte)
  : outcome unit * t :=
  let segs := resolve p in
  if negb (Str.truthy p) then (Thrown (SystemError "ENOENT" p), fs)
  else if Str.endsWithChar Path.sep p then
    (Thrown (SystemError "EISDIR" p), fs)
  else
    match node fs segs, node fs (removelast segs) with
    | Some Dir, _ => (Thrown (SystemError "EISDIR" p), fs)
    | _, Some Dir => (Returned tt, <[segs := File data]> fs)
    | _, Some (File _) => (Thrown (SystemError "ENOTDIR" p), fs)
    | _, None => (Thrown (SystemError "ENOENT" p), fs)
    end.

End Fs.

(** ** The blob store and the URL parser *)

(** The options the service passes to [put]. *)
Record PutOptions : Type := { access : string; contentType : string }.

(** What [put] answers; the service reads [url] only. *)
Record PutBlobResult : Type := { url : string }.

(** The blob client: [put(pathname, body, options)] and
    [del(urlOrPathname)], acting on a store of type [B].  Either may
    throw. *)
Class BlobStore (B : Type) : Type := {
  blobPut : string → list Byte.byte → PutOptions → B → outcome PutBlobResult * B;
  blobDel : string → B → outcome unit * B
}.

(** The calls the service made to the blob client, oldest first. *)
Inductive BlobCall : Type :=
| CallPut (pathname : string) (body : list Byte.byte) (options : PutOptions)
| CallDel (urlOrPathname : string).

(** [new URL(input).pathname]; [None] when the constructor throws. *)
Class UrlParser : Type := { urlPathname : string → option string }.

(** ** The world the service runs in, and computations over it *)

Record World (B : Type) : Type := mkWorld {
  files : gmap (list string) Node;
  store : B;
  calls : list BlobCall
}.
Arguments mkWorld {B} files store calls.
Arguments files {B} w.
Arguments store {B} w.
Arguments calls {B} w.

(** A computation reads and changes the world and then returns or throws;
    what it changed before throwing stays changed. *)
Definition M (B A : Type) : Type := World B → outcome A * World B.

Definition ret {B A} (a : A) : M B A := λ w, (Returned a, w).

Definition throw {B A} (e : JsError) : M B A := λ w, (Thrown e, w).

Definition bind {B A C} (m : M B A) (k : A → M B C) : M B C :=
  λ w, match m w with
       | (Returned a, w') => k a w'
       | (Thrown e, w') => (Thrown e, w')
       end.

(** [try { m } catch (error) { h error }] *)
Definition tryCatch {B A} (m : M B A) (h : JsError → M B A) : M B A :=
  λ w, match m w with
       | (Returned a, w') => (Returned a, w')
       | (Thrown e, w') => h e w'
       end.

Notation "x <- m ;; k" := (bind m (λ x, k))
  (at level 100, m at next level, right associativity).
Notation "m ;;; k" := (bind m (λ _, k))
  (at level 100, right associativity).

Section Primitives.
Context {B : Type} `{BlobStore B}.

Definition liftFs {A} (f : Fs.t → outcome A * Fs.t) : M B A :=
  λ w, let (r, fs') := f (files w) in (r, mkWorld fs' (store w) (calls w)).

Definition existsSync (p : string) : M B bool :=
  λ w, (Returned (Fs.exists_ (files w) p), w).

Definition unlinkSync (p : string) : M B unit :=
  liftFs (λ fs, Fs.unlink fs p).

(** [mkdirSync(p, { recursive: true })] *)
Definition mkdirSync (p : string) : M B unit :=
  liftFs (λ fs, Fs.mkdir fs p).

(** [createWriteStream(p)], [write(buffer)], [end()], then [finish]
    (returns) or [error] (throws). *)
Definition writeStream (p : string) (data : list Byte.byte) : M B unit :=
  liftFs (λ fs, Fs.write fs p data).

Definition put (pathname : string) (body : list Byte.byte)
  (options : PutOptions) : M B PutBlobResult :=
  λ w, let (r, b') := blobPut pathname body options (store w) in
       (r, mkWorld (files w) b' (calls w ++ [CallPut pathname body options])).

Definition del (urlOrPathname : string) : M B unit :=
  λ w, let (r, b') := blobDel urlOrPathname (store w) in
       (r, mkWorld (files w) b' (calls w ++ [CallDel urlOrPathname])).

End Primitives.

(** ** The service *)

(** [process]: the environment variables the constructor reads and the
    working directory. *)
Record Process : Type := {
  env_VERCEL : option string;
  env_BASE_URL : option string;
  cwd : string
}.

(** An uploaded file ([Express.Multer.File]), the fields the service
    reads. *)
Record MulterFile : Type := {
  originalname : string;
  mimetype : string;
  buffer : list Byte.byte
}.

(** The fields of [UploadService]. *)
Record UploadService : Type := {
  isVercel : bool;
  uploadDir : string;
  propertyImagesDir : string;
  profileImagesDir : string;
  baseUrl : string
}.

(** [/\.com\/(.+)$/]: the first [.com/] that is followed, up to the end of
    the string, by at least one character and no line terminator; the
    result is that rest (group 1).  The [.] of a regular expression
    refuses the four line terminators of the language: line feed,
    carriage return, U+2028 (line separator) and U+2029 (paragraph
    separator).  Strings are byte strings holding UTF-8, in which the
    last two are the three bytes [E2 80 A8] and [E2 80 A9]. *)
Definition lineSeparator : string :=
  String "226" (String "128" (String "168" "")).

Definition paragraphSeparator : string :=
  String "226" (String "128" (String "169" "")).

(** a line terminator starts [s] *)
Definition isLineTerminator (s : string) : bool :=
  Str.startsWith s (String "010" "") || Str.startsWith s (String "013" "")
  || Str.startsWith s lineSeparator || Str.startsWith s paragraphSeparator.

Fixpoint noLineTerminator (s : string) : bool :=
  match s with
  | EmptyString => true
  | String _ r => negb (isLineTerminator s) && noLineTerminator r
  end.

Fixpoint matchComPath (s : string) : option string :=
  match s with
  | EmptyString => None
  | String _ r =>
      if Str.startsWith s ".com/"
         && Str.truthy (Str.drop 5 s) && noLineTerminator (Str.drop 5 s)
      then Some (Str.drop 5 s)
      else matchComPath r
  end.

Section Service.
Context {B : Type} `{BlobStore B} `{UrlParser}.
Variable process : Process.

Definition ensureDirectoryExists (directory : string) : M B unit :=
  tryCatch
    (ex <- existsSync directory ;;
     if negb ex then mkdirSync directory else ret tt)
    (λ error, throw error).

Definition constructor : M B UploadService :=
  let isVercel := bool_decide (env_VERCEL process = Some "1") in
  let baseUrl :=
    match env_BASE_URL process with
    | Some (String a r) => String a r
    | _ => "http://localhost:3000"
    end in
  let uploadDir := Path.join [cwd process; "uploads"] in
  let propertyImagesDir := Path.join [uploadDir; "property-images"] in
  let profileImagesDir := Path.join [uploadDir; "profile-images"] in
  let this := {| isVercel := isVercel; uploadDir := uploadDir;
                 propertyImagesDir := propertyImagesDir;
                 profileImagesDir := profileImagesDir;
                 baseUrl := baseUrl |} in
  if negb isVercel then
    ensureDirectoryExists uploadDir ;;;
    ensureDirectoryExists propertyImagesDir ;;;
    ensureDirectoryExists profileImagesDir ;;;
    ret this
  else ret this.

(** [uuid] is what [uuidv4()] answers in this call. *)
Definition saveProfileImage (this : UploadService) (file : option MulterFile)
  (userId : string) (uuid : string) : M B string :=
  tryCatch
    match file with
    | None => throw (Error "No file provided")
    | Some file =>
        if isVercel this then
          let fileExtension := Path.extname (originalname file) in
          let uniqueFilename := uuid +:+ fileExtension in
          let blobPath := "profile-images/" +:+ userId +:+ "/" +:+ uniqueFilename in
          blob <- put blobPath (buffer file)
                    {| access := "public"; contentType := mimetype file |} ;;
          ret (url blob)
        else
          let uploadDir :=
            Path.join [cwd process; "uploads"; "profile-images"; userId] in
          ex <- existsSync uploadDir ;;
          (if negb ex then mkdirSync uploadDir else ret tt) ;;;
          let fileExtension := Path.extname (originalname file) in
          let uniqueFilename := uuid +:+ fileExtension in
          let filePath := Path.join [uploadDir; uniqueFilename] in
          writeStream filePath (buffer file) ;;;
          let relativePath := "profile-images/" +:+ userId +:+ "/" +:+ uniqueFilename in
          ret relativePath
    end
    (λ error, throw error).

Definition savePropertyImage (this : UploadService) (file : option MulterFile)
  (propertyId : string) (mediaType : string) (uuid : string) : M B string :=
  tryCatch
    match file with
    | None => throw (Error "No file provided")
    | Some file =>
        if isVercel this then
          let fileExtension := Path.extname (originalname file) in
          let uniqueFilename := uuid +:+ fileExtension in
          let blobPath := "property-images/" +:+ propertyId +:+ "/" +:+ uniqueFilename in
          blob <- put blobPath (buffer file)
                    {| access := "public"; contentType := mimetype file |} ;;
          ret (url blob)
        else
          let uploadDir :=
            Path.join [cwd process; "uploads"; "property-images"; propertyId] in
          ex <- existsSync uploadDir ;;
          (if negb ex then mkdirSync uploadDir else ret tt) ;;;
          let fileExtension :=
            if Str.truthy (originalname file)
            then Path.extname (originalname file)
            else if bool_decide (mediaType = "reel") then ".mp4" else ".jpg" in
          let uniqueFilename := uuid +:+ fileExtension in
          let filePath := Path.join [uploadDir; uniqueFilename] in
          writeStream filePath (buffer file) ;;;
          let relativePath := "property-images/" +:+ propertyId +:+ "/" +:+ uniqueFilename in
          ret relativePath
    end
    (λ error, throw error).

Definition saveInstagramMedia (this : UploadService) (file : option MulterFile)
  (userId : string) (mediaType : string) (fileType : string) (uuid : string)
  : M B string :=
  tryCatch
    match file with
    | None => throw (Error "No file provided")
    | Some file =>
        if isVercel this then
          let fileExtension := Path.extname (originalname file) in
          let uniqueFilename := uuid +:+ fileExtension in
          let blobPath :=
            "instagram-media/" +:+ mediaType +:+ "/" +:+ userId +:+ "/" +:+ uniqueFilename in
          blob <- put blobPath (buffer file)
                    {| access := "public"; contentType := mimetype file |} ;;
          ret (url blob)
        else
          let uploadDir :=
            Path.join [cwd process; "uploads"; "instagram-media"; mediaType; userId] in
          ex <- existsSync uploadDir ;;
          (if negb ex then mkdirSync uploadDir else ret tt) ;;;
          (* [path.extname] does not throw on a string, so the inner
             [try] always takes its first branch *)
          let fileExtension :=
            if Str.truthy (originalname file) then
              if Str.truthy (Path.extname (originalname file))
              then Path.extname (originalname file)
              else if bool_decide (fileType = "video") then ".mp4" else ".jpg"
            else if bool_decide (fileType = "video") then ".mp4" else ".jpg" in
          let uniqueFilename := uuid +:+ fileExtension in
          let filePath := Path.join [uploadDir; uniqueFilename] in
          writeStream filePath (buffer file) ;;;
          let relativePath :=
            "instagram-media/" +:+ mediaType +:+ "/" +:+ userId +:+ "/" +:+ uniqueFilename in
          ret relativePath
    end
    (λ error, throw error).

(** The loop over [alternativePaths]: the first path that exists is
    unlinked and the answer is [true]; [false] when none exists. *)
Fixpoint tryAlternativePaths (alternativePaths : list string) : M B bool :=
  match alternativePaths with
  | [] => ret false
  | path :: rest =>
      ex <- existsSync path ;;
      if ex then unlinkSync path ;;; ret true
      else tryAlternativePaths rest
  end.

(** The body shared, word for word, by [deletePropertyImage],
    [deleteProfileImage] and [deleteInstagramMedia]; they differ in the
    name of their category directory only.  A reference is a string or
    [null]. *)
Definition deleteIn (category : string) (this : UploadService)
  (imageUrl : option string) : M B bool :=
  tryCatch
    match imageUrl with
    | None | Some EmptyString => ret false
    | Some imageUrl =>
        if isVercel this then
          if Str.startsWith imageUrl "http" then
            tryCatch
              (deleted <-
                 match matchComPath imageUrl with
                 | Some blobPath =>
                     tryCatch (del blobPath ;;; ret true) (λ _, ret false)
                 | None => ret false
                 end ;;
               if deleted then ret true
               else del imageUrl ;;; ret true)
              (λ _, ret false)
          else
            tryCatch
              (let blobPath :=
                 if Str.startsWith imageUrl "/" then Str.substring1 imageUrl
                 else imageUrl in
               del blobPath ;;; ret true)
              (λ _, ret false)
        else
          let localPath := imageUrl in
          localPath <-
            (if Str.startsWith localPath "http" then
               match urlPathname localPath with
               | Some pathname => ret pathname
               | None => throw (TypeError "Invalid URL")
               end
             else ret localPath) ;;
          let localPath :=
            if Str.startsWith localPath "/" then Str.substring1 localPath
            else localPath in
          let localPath :=
            if negb (Str.startsWith localPath "uploads/") then
              if Str.startsWith localPath (category +:+ "/")
              then "uploads/" +:+ localPath
              else "uploads/" +:+ category +:+ "/" +:+ localPath
            else localPath in
          let fullPath := Path.join [cwd process; localPath] in
          ex <- existsSync fullPath ;;
          if ex then unlinkSync fullPath ;;; ret true
          else
            let alternativePaths :=
              [ Path.join [cwd process; "uploads"; localPath];
                Path.join [cwd process; localPath];
                Path.join [cwd process; "uploads"; category;
                           Str.orElse (Str.pop (Str.split "/" localPath)) ""] ] in
            tryAlternativePaths alternativePaths
    end
    (λ _, ret false).

Definition deletePropertyImage := deleteIn "property-images".
Definition deleteProfileImage := deleteIn "profile-images".
Definition deleteInstagramMedia := deleteIn "instagram-media".

End Service.

(** ** The operations of the gateway, by asset category *)

Inductive Asset : Type :=
| ProfileImage
| PropertyImage (mediaType : string)
| InstagramMedia (mediaType fileType : string).

Section Gateway.
Context {B : Type} `{BlobStore B} `{UrlParser}.
Variable process : Process.

Definition Save (a : Asset) (this : UploadService) (file : option MulterFile)
  (ownerId uuid : string) : M B string :=
  match a with
  | ProfileImage => saveProfileImage process this file ownerId uuid
  | PropertyImage mediaType =>
      savePropertyImage process this file ownerId mediaType uuid
  | InstagramMedia mediaType fileType =>
      saveInstagramMedia process this file ownerId mediaType fileType uuid
  end.

Definition Delete (a : Asset) (this : UploadService) (ref : option string)
  : M B bool :=
  match a with
  | ProfileImage => deleteProfileImage process this ref
  | PropertyImage _ => deletePropertyImage process this ref
  | InstagramMedia _ _ => deleteInstagramMedia process this ref
  end.

(** the directory of a category below the storage root *)
Definition categoryRoot (a : Asset) : string :=
  match a with
  | ProfileImage => "profile-images"
  | PropertyImage _ => "property-images"
  | InstagramMedia _ _ => "instagram-media"
  end.

(** [{category}/[{sub_kind}/]{owner_id}/{filename}] *)
Definition keyOf (a : Asset) (ownerId filename : string) : string :=
  match a with
  | ProfileImage => "profile-images/" +:+ ownerId +:+ "/" +:+ filename
  | PropertyImage _ => "property-images/" +:+ ownerId +:+ "/" +:+ filename
  | InstagramMedia mediaType _ =>
      "instagram-media/" +:+ mediaType +:+ "/" +:+ ownerId +:+ "/" +:+ filename
  end.

(** the arguments, after the working directory, of the [join] that
    names the directory a local save writes into *)
Definition dirArgs (a : Asset) (ownerId : string) : list string :=
  match a with
  | ProfileImage => ["uploads"; "profile-images"; ownerId]
  | PropertyImage _ => ["uploads"; "property-images"; ownerId]
  | InstagramMedia mediaType _ =>
      ["uploads"; "instagram-media"; mediaType; ownerId]
  end.

(** the directory a local save writes into *)
Definition ownerDir (a : Asset) (ownerId : string) : string :=
  match a with
  | ProfileImage =>
      Path.join [cwd process; "uploads"; "profile-images"; ownerId]
  | PropertyImage _ =>
      Path.join [cwd process; "uploads"; "property-images"; ownerId]
  | InstagramMedia mediaType _ =>
      Path.join [cwd process; "uploads"; "instagram-media"; mediaType; ownerId]
  end.

(** what the constructor answers *)
Definition serviceOf (vercel : bool) : UploadService :=
  let uploadDir := Path.join [cwd process; "uploads"] in
  {| isVercel := vercel;
     uploadDir := uploadDir;
     propertyImagesDir := Path.join [uploadDir; "property-images"];
     profileImagesDir := Path.join [uploadDir; "profile-images"];
     baseUrl := match env_BASE_URL process with
                | Some (String a r) => String a r
                | _ => "http://localhost:3000"
                end |}.

(** the directories the constructor makes sure of on the local backend *)
Definition eagerDirs : list string :=
  [ uploadDir (serviceOf false);
    propertyImagesDir (serviceOf false);
    profileImagesDir (serviceOf false) ].

(** the extension a save gives the stored file *)
Definition remoteExt (file : MulterFile) : string :=
  Path.extname (originalname file).

Definition localExt (a : Asset) (file : MulterFile) : string :=
  match a with
  | ProfileImage => Path.extname (originalname file)
  | PropertyImage mediaType =>
      if Str.truthy (originalname file) then Path.extname (originalname file)
      else if bool_decide (mediaType = "reel") then ".mp4" else ".jpg"
  | InstagramMedia _ fileType =>
      if Str.truthy (originalname file) then
        if Str.truthy (Path.extname (originalname file))
        then Path.extname (originalname file)
        else if bool_decide (fileType = "video") then ".mp4" else ".jpg"
      else if bool_decide (fileType = "video") then ".mp4" else ".jpg"
  end.

(** The three steps by which a local delete reads a reference:
    a URL is cut down to its path, one leading slash is dropped, and
    the storage root is put in front (with the category directory,
    unless the path already starts with it). *)
Definition urlToPath (ref : string) : option string :=
  if Str.startsWith ref "http" then urlPathname ref else Some ref.

Definition stripLeadingSlash (s : string) : string :=
  if Str.startsWith s "/" then Str.substring1 s else s.

Definition rootQualify (category s : string) : string :=
  if negb (Str.startsWith s "uploads/") then
    if Str.startsWith s (category +:+ "/") then "uploads/" +:+ s
    else "uploads/" +:+ category +:+ "/" +:+ s
  else s.

Definition localNormalize (category ref : string) : option string :=
  rootQualify category ∘ stripLeadingSlash <$> urlToPath ref.

(** the last segment of a slash-separated string *)
Definition basenameOf (s : string) : string :=
  Str.orElse (Str.pop (Str.split "/" s)) "".

(** The places a local delete looks at, in order, for the normalized
    path [localPath]. *)
Definition candidatePaths (category localPath : string) : list string :=
  [ Path.join [cwd process; localPath];
    Path.join [cwd process; "uploads"; localPath];
    Path.join [cwd process; localPath];
    Path.join [cwd process; "uploads"; category; basenameOf localPath] ].

(** The places the specification names for a reference [ref] whose
    normalized path is [localPath]: the normalized path, then the
    root-qualified original input, the literal original input, and
    root + category + basename. *)
Definition specCandidatePaths (category ref localPath : string) : list string :=
  [ Path.join [cwd process; localPath];
    Path.join [cwd process; "uploads"; ref];
    Path.join [cwd process; ref];
    Path.join [cwd process; "uploads"; category; basenameOf ref] ].

(** Unlinking the first of [paths] that exists: [Some] of what the
    unlink made of the file system, [None] when no path exists. *)
Definition unlinkFirst (fs : Fs.t) (paths : list string)
  : option (outcome unit * Fs.t) :=
  Fs.unlink fs <$> List.find (Fs.exists_ fs) paths.

End Gateway.

(** ** A blob store and a URL parser to run examples on *)

Module Demo.

Definition host : string := "https://store.public.blob.vercel-storage.com/".

(** An in-memory store, keyed by pathname.  [put] takes a pathname
    that is not empty, has no line break and is not itself a URL, and
    answers the URL of the blob under [host]; [del] takes that URL or
    the bare pathname, and throws when there is no such blob. *)
Definition validPathname (pathname : string) : bool :=
  Str.truthy pathname && noLineTerminator pathname
  && negb (Str.startsWith pathname "http").

Definition keyOfRef (ref : string) : string :=
  if Str.startsWith ref host then Str.drop (String.length host) ref else ref.

Definition memStore : BlobStore (gmap string (list Byte.byte)) := {|
  blobPut pathname body _ b :=
    if validPathname pathname then
      (Returned {| url := host +:+ pathname |}, <[pathname := body]> b)
    else (Thrown (BlobError "invalid pathname"), b);
  blobDel ref b :=
    match b !! keyOfRef ref with
    | Some _ => (Returned tt, delete (keyOfRef ref) b)
    | None => (Thrown (BlobError "not found"), b)
    end
|}.

(** The same store with a [del] that does not mind a missing blob: it
    returns whether or not there is one. *)
Definition forgiving : BlobStore (gmap string (list Byte.byte)) := {|
  blobPut pathname body _ b :=
    if validPathname pathname then
      (Returned {| url := host +:+ pathname |}, <[pathname := body]> b)
    else (Thrown (BlobError "invalid pathname"), b);
  blobDel ref b := (Returned tt, delete (keyOfRef ref) b)
|}.

(** A store that cannot be reached: every call throws. *)
Definition unreachable : BlobStore unit := {|
  blobPut _ _ _ b := (Thrown (BlobError "fetch failed"), b);
  blobDel _ b := (Thrown (BlobError "fetch failed"), b)
|}.

(** A parser for plain [scheme://host/path] inputs: the pathname starts
    at the first [/] after the [//]; anything else is refused. *)
Fixpoint fromSlash (s : string) : string :=
  match s with
  | EmptyString => "/"
  | String a r => if Ascii.eqb a "/" then s else fromSlash r
  end.

Fixpoint afterScheme (s : string) : option string :=
  match s with
  | EmptyString => None
  | String _ r =>
      if Str.startsWith s "://" then Some (fromSlash (Str.drop 3 s))
      else afterScheme r
  end.

Definition plainUrls : UrlParser := {| urlPathname := afterScheme |}.

Definition proc (vercel : option string) : Process :=
  {| env_VERCEL := vercel; env_BASE_URL := None; cwd := "/srv/app" |}.

Definition service (vercel : bool) : UploadService :=
  {| isVercel := vercel;
     uploadDir := "/srv/app/uploads";
     propertyImagesDir := "/srv/app/uploads/property-images";
     profileImagesDir := "/srv/app/uploads/profile-images";
     baseUrl := "http://localhost:3000" |}.

Definition emptyWorld : World (gmap string (list Byte.byte)) :=
  mkWorld (<[ ["srv"; "app"] := Dir ]> (<[ ["srv"] := Dir ]> ∅)) ∅ [].

(** A machine in use: some uploads on disk, one blob in the store. *)
Definition world : World (gmap string (list Byte.byte)) :=
  mkWorld
    (<[ ["srv"; "app"; "uploads"; "profile-images"; "u1"; "old.jpg"] := File [Byte.x01] ]>
    (<[ ["srv"; "app"; "uploads"; "profile-images"; "u1"] := Dir ]>
    (<[ ["srv"; "app"; "uploads"; "profile-images"] := Dir ]>
    (<[ ["srv"; "app"; "uploads"; "x.jpg"] := File [Byte.x02] ]>
    (<[ ["srv"; "app"; "uploads"] := Dir ]>
    (<[ ["srv"; "app"] := Dir ]> (<[ ["srv"] := Dir ]> ∅)))))))
    (<[ "profile-images/u1/a.jpg" := [Byte.x03] ]> ∅)
    [].

(** A machine on which a file stands where the directory of profile
    images should be. *)
Definition fileAtProfileImages : World (gmap string (list Byte.byte)) :=
  mkWorld
    (<[ ["srv"; "app"; "uploads"; "profile-images"] := File [] ]>
    (<[ ["srv"; "app"; "uploads"] := Dir ]>
    (<[ ["srv"; "app"] := Dir ]> (<[ ["srv"] := Dir ]> ∅))))
    ∅ [].

(** Two machines on which a local save cannot go through: on the first
    [uploads] is a file, on the second the directory of owner [u1] is. *)
Definition blockedRoot : World unit :=
  mkWorld
    (<[ ["srv"; "app"; "uploads"] := File [] ]>
    (<[ ["srv"; "app"] := Dir ]> (<[ ["srv"] := Dir ]> ∅)))
    tt [].

Definition blockedOwner : World unit :=
  mkWorld
    (<[ ["srv"; "app"; "uploads"; "profile-images"; "u1"] := File [] ]>
    (<[ ["srv"; "app"; "uploads"; "profile-images"] := Dir ]>
    (<[ ["srv"; "app"; "uploads"] := Dir ]>
    (<[ ["srv"; "app"] := Dir ]> (<[ ["srv"] := Dir ]> ∅)))))
    tt [].

Definition uuid1 : string := "9b2f6c1e-3a4d-4f70-8c21-5d6e7f8a9b0c".

Definition jpeg (name : string) : MulterFile :=
  {| originalname := name; mimetype := "image/jpeg";
     buffer := [Byte.xff; Byte.xd8; Byte.xff] |}.

End Demo.

(** ** Notions the statements below are phrased with *)

(** A name that can be one segment of a normalized path. *)
Definition plainName (s : string) : Prop :=
  s ≠ "" ∧ s ≠ "." ∧ s ≠ ".." ∧ Str.mem Path.sep s = false.

(** Making sure a directory is there, the way the saves and
    [ensureDirectoryExists] do: [mkdir] unless the path exists. *)
Definition ensureDir (fs : Fs.t) (dir : string) : outcome unit * Fs.t :=
  if Fs.exists_ fs dir then (Returned tt, fs) else Fs.mkdir fs dir.

(** The options every save passes to [put]. *)
Definition putOptions (file : MulterFile) : PutOptions :=
  {| access := "public"; contentType := mimetype file |}.

(** What [uuidv4()] answers: 36 characters, lower-case hexadecimal
    digits and dashes. *)
Definition isUuidChar (c : ascii) : bool :=
  Str.mem c "0123456789abcdef-".

Fixpoint allChars (P : ascii → bool) (s : string) : bool :=
  match s with
  | EmptyString => true
  | String c r => P c && allChars P r
  end.

Definition validUuid (uuid : string) : bool :=
  (String.length uuid =? 36)%nat && allChars isUuidChar uuid.

(** The identifier is new: no file that is there bears a name starting
    with it. *)
Definition freshUuid (uuid : string) (fs : Fs.t) : Prop :=
  ∀ segs data name,
    fs !! segs = Some (File data) → last segs = Some name →
    Str.startsWith name uuid = false.

(** The same, as a check over the whole file system. *)
Definition freshAt (uuid : string) (segs : list string) (n : Node) : bool :=
  match n, last segs with
  | File _, Some name => negb (Str.startsWith name uuid)
  | _, _ => true
  end.

(** What a delete on the remote backend hands to [del] for a URL: the
    part after [.com/] and the URL itself. *)
Definition delTarget (u target : string) : Prop :=
  target = u ∨ matchComPath u = Some target.

(** The behaviour of the blob store that the round trip of a reference
    rests on: [put] answers an [http] URL of a blob that is then held;
    [del] of a held blob returns and the blob is gone; [del] of a blob
    that is gone throws and the blob stays gone. *)
Record BlobContract {B : Type} `{BlobStore B} : Type := {
  holds : B → string → Prop;
  gone : B → string → Prop;
  put_holds : ∀ key body options b blob b',
    blobPut key body options b = (Returned blob, b') →
    Str.startsWith (url blob) "http" = true ∧ holds b' (url blob);
  del_holds : ∀ b u target,
    holds b u → delTarget u target →
    ∃ b', blobDel target b = (Returned tt, b') ∧ gone b' u;
  del_gone : ∀ b u target,
    gone b u → delTarget u target →
    ∃ e b', blobDel target b = (Thrown e, b') ∧ gone b' u
}.
Arguments BlobContract B {_}.

(** The absolute path spelled from its segments, with or without a
    trailing separator: the shape of every answer of [Path.join] whose
    first argument is absolute. *)
Definition canon (segs : list string) (trailing : bool) : string :=
  match segs with
  | [] => "/"
  | _ => "/" +:+ String.concat "/" segs +:+ (if trailing then "/" else "")
  end.

(** A slash-separated string none of whose segments is [..]. *)
Definition noDotDot (s : string) : Prop := ".." ∉ Str.split Path.sep s.

(** The segments of a path that name something: not empty, not [.]. *)
Definition namingSegs (l : list string) : list string :=
  filter (λ s, s ≠ "" ∧ s ≠ ".") l.

(** The sub-kind of an asset, where it has one, has no [..] segment. *)
Definition subKindNoDotDot (a : Asset) : Prop :=
  match a with
  | InstagramMedia mediaType _ => noDotDot mediaType
  | _ => True
  end.

(** The ways a reference that a local save answered may come back to a
    delete: as it was answered, with the storage root in front, and
    either of the two after a slash. *)
Definition spellings (ref : string) : list string :=
  [ref; "/" +:+ ref; "uploads/" +:+ ref; "/uploads/" +:+ ref].

(** ** The services that call the gateway

    [UserProfileService] and [AdminProfileService]
    ([src/modules/user-profile]) and [MediaService]
    ([src/modules/media/media.service.ts]) keep the reference a save
    answered in a document of the database and hand it back to a delete.
    The database is a collaborator: an interface, as the blob store is.
    Calls of the logger are left out. *)

(** What a caller sees thrown, or throws itself: one of the two HTTP
    exceptions the services tell apart with [instanceof], or any other
    error; [error.message] is all the services read of it. *)
Inductive AppError : Type :=
| NotFoundException (message : string)
| BadRequestException (message : string)
| OtherError (message : string).

Definition messageOf (error : AppError) : string :=
  match error with
  | NotFoundException message => message
  | BadRequestException message => message
  | OtherError message => message
  end.

(** How a call of a service or of the database ends. *)
Inductive reply (A : Type) : Type :=
| Fulfilled (a : A)
| Rejected (error : AppError).
Arguments Fulfilled {A} a.
Arguments Rejected {A} error.

(** The objects the services answer. *)
#[warnings="-register-all"]
Inductive Json : Type :=
| JNull
| JBool (b : bool)
| JString (s : string)
| JObject (fields : list (string * Json)).

(** [v.name] *)
Definition field (name : string) (v : Json) : option Json :=
  match v with
  | JObject fields =>
      snd <$> List.find (λ kv, String.eqb (fst kv) name) fields
  | _ => None
  end.

(** The documents, with the fields the three methods read and write. *)
Record User : Type := { u_id : string; created_by : option string }.

Record UserProfile : Type := {
  user_id : string;
  profile_image : option string
}.

Record Media : Type := { m_id : string; m_user_id : string; m_url : string }.

(** The models the services are given, acting on a database of type [D]:
    [userModel.findOne({ _id, created_by })],
    [userProfileModel.findOne({ user_id })], [profile.save()],
    [mediaModel.findOne({ _id [, user_id] })] and
    [mediaModel.deleteOne({ _id })].  Any of them may throw. *)
Class Database (D : Type) : Type := {
  userModel_findOne : string → string → D → reply (option User) * D;
  userProfileModel_findOne : string → D → reply (option UserProfile) * D;
  userProfileModel_save : UserProfile → D → reply unit * D;
  mediaModel_findOne : string → option string → D → reply (option Media) * D;
  mediaModel_deleteOne : string → D → reply unit * D
}.

(** The calls a service made to the models, oldest first. *)
Inductive DbCall : Type :=
| UserFindOne (id createdBy : string)
| ProfileFindOne (userId : string)
| ProfileSave (profile : UserProfile)
| MediaFindOne (id : string) (userId : option string)
| MediaDeleteOne (id : string).

(** What a service runs in: the database, the calls made to it, and the
    world of the gateway. *)
Record App (D B : Type) : Type := mkApp {
  db : D;
  dbCalls : list DbCall;
  world : World B
}.
Arguments mkApp {D B} db dbCalls world.
Arguments db {D B} a.
Arguments dbCalls {D B} a.
Arguments world {D B} a.

Definition N (D B A : Type) : Type := App D B → reply A * App D B.

Definition fulfil {D B A} (a : A) : N D B A := λ s, (Fulfilled a, s).

Definition reject {D B A} (error : AppError) : N D B A :=
  λ s, (Rejected error, s).

Definition andThen {D B A C} (m : N D B A) (k : A → N D B C) : N D B C :=
  λ s, match m s with
       | (Fulfilled a, s') => k a s'
       | (Rejected error, s') => (Rejected error, s')
       end.

(** [try { m } catch (error) { h error }] *)
Definition attempt {D B A} (m : N D B A) (h : AppError → N D B A) : N D B A :=
  λ s, match m s with
       | (Fulfilled a, s') => (Fulfilled a, s')
       | (Rejected error, s') => h error s'
       end.

Notation "x <~ m ;; k" := (andThen m (λ x, k))
  (at level 100, m at next level, right associativity).

Section Models.
Context {D B : Type} `{Database D}.

Definition model {A} (call : DbCall) (f : D → reply A * D) : N D B A :=
  λ s, let (r, d') := f (db s) in
       (r, mkApp d' (dbCalls s ++ [call]) (world s)).

Definition findUser (id createdBy : string) : N D B (option User) :=
  model (UserFindOne id createdBy) (userModel_findOne id createdBy).

Definition findProfile (userId : string) : N D B (option UserProfile) :=
  model (ProfileFindOne userId) (userProfileModel_findOne userId).

Definition saveProfile (profile : UserProfile) : N D B unit :=
  model (ProfileSave profile) (userProfileModel_save profile).

Definition findMedia (id : string) (userId : option string)
  : N D B (option Media) :=
  model (MediaFindOne id userId) (mediaModel_findOne id userId).

Definition deleteMedia (id : string) : N D B unit :=
  model (MediaDeleteOne id) (mediaModel_deleteOne id).

(** A call of the gateway from a service.  [platformMessage] is the
    [message] of an error of the platform. *)
Definition gateway {A} (platformMessage : JsError → string) (m : M B A)
  : N D B A :=
  λ s, let (r, w') := m (world s) in
       (match r with
        | Returned a => Fulfilled a
        | Thrown e => Rejected (OtherError (platformMessage e))
        end,
        mkApp (db s) (dbCalls s) w').

End Models.

(** a string that may be [null], as a value *)
Definition nullable (value : option string) : Json :=
  match value with
  | Some value => JString value
  | None => JNull
  end.

(** [!value] on a string that may be [null] *)
Definition falsy (value : option string) : bool :=
  match value with
  | Some value => negb (Str.truthy value)
  | None => true
  end.

(** In the three modules below [now] is what [new Date().toISOString()]
    answers when the response is built. *)

Module UserProfileService.
Section Methods.
Context {D B : Type} `{Database D} `{BlobStore B} `{UrlParser}.
Variable process : Process.
Variable platformMessage : JsError → string.
Variable uploadService : UploadService.

Definition deleteProfileImage (userId now : string) : N D B Json :=
  attempt
    (profile <~ findProfile userId ;;
     match profile with
     | None =>
         fulfil (JObject [ ("success", JBool false);
                           ("error", JString "Profile not found");
                           ("timestamp", JString now) ])
     | Some profile =>
         if falsy (profile_image profile) then
           fulfil (JObject [ ("success", JBool false);
                             ("error", JString "No profile image to delete");
                             ("timestamp", JString now) ])
         else
           deleted <~ gateway platformMessage
                        (deleteProfileImage process uploadService
                           (profile_image profile)) ;;
           if deleted : bool then
             _ <~ saveProfile {| user_id := user_id profile;
                                 profile_image := None |} ;;
             fulfil (JObject [ ("success", JBool true);
                               ("message",
                                JString "Profile image deleted successfully");
                               ("timestamp", JString now) ])
           else
             fulfil (JObject [ ("success", JBool false);
                               ("error",
                                JString "Failed to delete profile image");
                               ("timestamp", JString now) ])
     end)
    (λ error,
       fulfil (JObject [ ("success", JBool false);
                         ("error", JString "Failed to delete profile image");
                         ("details",
                          JObject [ ("message", JString (messageOf error));
                                    ("user_id", JString userId) ]);
                         ("timestamp", JString now) ])).

End Methods.
End UserProfileService.

Module AdminProfileService.
Section Methods.
Context {D B : Type} `{Database D} `{BlobStore B} `{UrlParser}.
Variable process : Process.
Variable platformMessage : JsError → string.
Variable uploadService : UploadService.

Definition deleteUserProfileImage (adminId userId now : string)
  : N D B Json :=
  attempt
    (user <~ findUser userId adminId ;;
     match user with
     | None =>
         fulfil
           (JObject
              [ ("success", JBool false);
                ("message",
                 JString "User not found or you do not have permission to update this user");
                ("timestamp", JString now);
                ("error",
                 JObject
                   [ ("code", JString "USER_NOT_FOUND");
                     ("details",
                      JString "The requested user does not exist or was not created by this admin") ]) ])
     | Some _ =>
         profile <~ findProfile userId ;;
         match profile with
         | None =>
             fulfil
               (JObject
                  [ ("success", JBool false);
                    ("message", JString "User profile not found");
                    ("timestamp", JString now);
                    ("error",
                     JObject
                       [ ("code", JString "PROFILE_NOT_FOUND");
                         ("details",
                          JString "No profile exists for this user") ]) ])
         | Some profile =>
             if falsy (profile_image profile) then
               fulfil
                 (JObject
                    [ ("success", JBool false);
                      ("message", JString "No profile image to delete");
                      ("timestamp", JString now);
                      ("error",
                       JObject
                         [ ("code", JString "NO_IMAGE");
                           ("details",
                            JString "User does not have a profile image") ]) ])
             else
               let previousImage := profile_image profile in
               deleted <~ gateway platformMessage
                            (deleteProfileImage process uploadService
                               (profile_image profile)) ;;
               if deleted : bool then
                 _ <~ saveProfile {| user_id := user_id profile;
                                     profile_image := None |} ;;
                 fulfil
                   (JObject
                      [ ("success", JBool true);
                        ("data",
                         JObject
                           [ ("user_id", JString userId);
                             ("deleted_by", JString adminId);
                             ("previous_image", nullable previousImage) ]);
                        ("message",
                         JString "Profile image deleted successfully by admin");
                        ("timestamp", JString now) ])
               else
                 fulfil
                   (JObject
                      [ ("success", JBool false);
                        ("error", JString "Failed to delete profile image");
                        ("timestamp", JString now) ])
         end
     end)
    (λ error,
       match error with
       | NotFoundException _ => reject error
       | _ =>
           fulfil
             (JObject
                [ ("success", JBool false);
                  ("error", JString "Failed to delete profile image");
                  ("details",
                   JObject [ ("message", JString (messageOf error));
                             ("user_id", JString userId);
                             ("admin_id", JString adminId) ]);
                  ("timestamp", JString now) ])
       end).

End Methods.
End AdminProfileService.

Module MediaService.
Section Methods.
Context {D B : Type} `{Database D} `{BlobStore B} `{UrlParser}.
Variable process : Process.
Variable platformMessage : JsError → string.
Variable uploadService : UploadService.

Definition remove (id userId : string) (isAdmin : bool) : N D B Json :=
  attempt
    (let query_user_id := if negb isAdmin then Some userId else None in
     media <~ findMedia id query_user_id ;;
     match media with
     | None => reject (NotFoundException "Media not found")
     | Some media =>
         _ <~ gateway platformMessage
                (deleteInstagramMedia process uploadService
                   (Some (m_url media))) ;;
         _ <~ deleteMedia id ;;
         fulfil (JObject [ ("deleted", JBool true) ])
     end)
    (λ error,
       match error with
       | NotFoundException _ => reject error
       | _ => reject (BadRequestException
                        ("Failed to delete media: " +:+ messageOf error))
       end).

End Methods.
End MediaService.

(** An in-memory database to run examples on: three lists of
    documents; no call throws. *)
Module DemoDb.

Record t : Type := {
  users : list User;
  profiles : list UserProfile;
  media : list Media
}.

Definition ownedBy (id adminId : string) (u : User) : bool :=
  String.eqb (u_id u) id && bool_decide (created_by u = Some adminId).

Definition ofUser (userId : string) (p : UserProfile) : bool :=
  String.eqb (user_id p) userId.

Definition matches (id : string) (userId : option string) (m : Media) : bool :=
  String.eqb (m_id m) id
  && match userId with
     | Some userId => String.eqb (m_user_id m) userId
     | None => true
     end.

Definition memDb : Database t := {|
  userModel_findOne id adminId d :=
    (Fulfilled (List.find (ownedBy id adminId) (users d)), d);
  userProfileModel_findOne userId d :=
    (Fulfilled (List.find (ofUser userId) (profiles d)), d);
  userProfileModel_save p d :=
    (Fulfilled tt,
     {| users := users d;
        profiles := p :: List.filter (λ q, negb (ofUser (user_id p) q))
                           (profiles d);
        media := media d |});
  mediaModel_findOne id userId d :=
    (Fulfilled (List.find (matches id userId) (media d)), d);
  mediaModel_deleteOne id d :=
    (Fulfilled tt,
     {| users := users d;
        profiles := profiles d;
        media := List.filter (λ m, negb (String.eqb (m_id m) id)) (media d) |})
|}.

(** A database that cannot be reached: every call throws. *)
Definition down : Database unit := {|
  userModel_findOne _ _ d := (Rejected (OtherError "connection lost"), d);
  userProfileModel_findOne _ d := (Rejected (OtherError "connection lost"), d);
  userProfileModel_save _ d := (Rejected (OtherError "connection lost"), d);
  mediaModel_findOne _ _ d := (Rejected (OtherError "connection lost"), d);
  mediaModel_deleteOne _ d := (Rejected (OtherError "connection lost"), d)
|}.

(** One user, created by [admin1], whose profile names the image and
    whose medium names the clip that the examples save. *)
Definition db0 : t :=
  {| users := [ {| u_id := "u1"; created_by := Some "admin1" |} ];
     profiles :=
       [ {| user_id := "u1";
            profile_image :=
              Some "profile-images/u1/9b2f6c1e-3a4d-4f70-8c21-5d6e7f8a9b0c.jpg" |} ];
     media :=
       [ {| m_id := "m1"; m_user_id := "u1";
            m_url := "instagram-media/reel/u1/9b2f6c1e-3a4d-4f70-8c21-5d6e7f8a9b0c.mp4" |} ] |}.

(** The world after the image [me.jpg] of user [u1] has been saved on
    the local backend, and after the clip [clip.mp4] has been. *)
Definition savedImage : World (gmap string (list Byte.byte)) :=
  (@Save _ Demo.memStore (Demo.proc None) ProfileImage
     (Demo.service false) (Some (Demo.jpeg "me.jpg")) "u1" Demo.uuid1
     Demo.world).2.

Definition savedClip : World (gmap string (list Byte.byte)) :=
  (@Save _ Demo.memStore (Demo.proc None)
     (InstagramMedia "reel" "video") (Demo.service false)
     (Some (Demo.jpeg "clip.mp4")) "u1" Demo.uuid1 Demo.world).2.

(** a rendering of the message of an error of the platform *)
Definition platformMessage (e : JsError) : string :=
  match e with
  | Error message => message
  | SystemError code path => code +:+ ": " +:+ path
  | TypeError message => message
  | BlobError message => message
  end.

End DemoDb.

(** closing a goal about concrete data by evaluation *)
Ltac by_evaluation :=
  lazymatch goal with
  | |- @eq ?T ?a ?b => vm_cast_no_check (@eq_refl T b)
  end.

Ltac by_evaluation_true :=
  lazymatch goal with
  | |- Is_true ?b => vm_cast_no_check I
  end.

Section Examples.
#[local] Existing Instances Demo.memStore Demo.plainUrls.

Example join_dirs :
  Path.join ["/srv/app"; "uploads"; "profile-images"; "u1"]
  = "/srv/app/uploads/profile-images/u1".
Proof. reflexivity. Qed.

Example join_dotdot :
  Path.join ["/srv/app"; "uploads/profile-images/../x//a.jpg"]
  = "/srv/app/uploads/x/a.jpg".
Proof. reflexivity. Qed.

Example join_above_root : Path.join ["/a"; "../../b/"] = "/b/".
Proof. reflexivity. Qed.

Example join_relative : Path.join ["a"; "../../b"] = "../b".
Proof. reflexivity. Qed.

Example extname_examples :
  map Path.extname
    ["index.html"; "index.coffee.md"; "index."; "index"; ".index";
     ".index.md"; ".."; "a/b.c/"; "clip"; "..a"]
  = [".html"; ".md"; "."; ""; ""; ".md"; ""; ".c"; ""; ".a"].
Proof. reflexivity. Qed.

Example constructor_local_demo :
  constructor (Demo.proc None) Demo.emptyWorld
  = (Returned (Demo.service false),
     mkWorld (<[ ["srv"; "app"; "uploads"; "profile-images"] := Dir ]>
             (<[ ["srv"; "app"; "uploads"; "property-images"] := Dir ]>
             (<[ ["srv"; "app"; "uploads"] := Dir ]> (files Demo.emptyWorld))))
             ∅ []).
Proof. by_evaluation. Qed.

(** the instagram directory is not made by the constructor *)
Example constructor_leaves_instagram_dir :
  Fs.exists_ (files (constructor (Demo.proc None) Demo.emptyWorld).2)
    "/srv/app/uploads/instagram-media" = false.
Proof. by_evaluation. Qed.

(** a local save, then two deletes, the second through another spelling
    of the reference *)
Example save_delete_local_demo :
  (Save (Demo.proc None) ProfileImage (Demo.service false)
     (Some (Demo.jpeg "me.jpg")) "u1" Demo.uuid1 ;;;
   d1 <- Delete (Demo.proc None) ProfileImage (Demo.service false)
           (Some "profile-images/u1/9b2f6c1e-3a4d-4f70-8c21-5d6e7f8a9b0c.jpg") ;;
   d2 <- Delete (Demo.proc None) ProfileImage (Demo.service false)
           (Some "/uploads/profile-images/u1/9b2f6c1e-3a4d-4f70-8c21-5d6e7f8a9b0c.jpg") ;;
   ret (d1, d2)) Demo.emptyWorld
  = (Returned (true, false),
     mkWorld (<[ ["srv"; "app"; "uploads"; "profile-images"; "u1"] := Dir ]>
             (<[ ["srv"; "app"; "uploads"; "profile-images"] := Dir ]>
             (<[ ["srv"; "app"; "uploads"] := Dir ]> (files Demo.emptyWorld))))
             ∅ []).
Proof. by_evaluation. Qed.

Example save_delete_remote_demo :
  (ref <- Save (Demo.proc (Some "1")) (InstagramMedia "reel" "video")
            (Demo.service true) (Some (Demo.jpeg "clip.mp4")) "u1" Demo.uuid1 ;;
   d1 <- Delete (Demo.proc (Some "1")) (InstagramMedia "reel" "video")
           (Demo.service true) (Some ref) ;;
   ret (ref, d1)) Demo.emptyWorld
  = (Returned
       ("https://store.public.blob.vercel-storage.com/instagram-media/reel/u1/9b2f6c1e-3a4d-4f70-8c21-5d6e7f8a9b0c.mp4",
        true),
     mkWorld (files Demo.emptyWorld) ∅
       [CallPut "instagram-media/reel/u1/9b2f6c1e-3a4d-4f70-8c21-5d6e7f8a9b0c.mp4"
          [Byte.xff; Byte.xd8; Byte.xff]
          {| access := "public"; contentType := "image/jpeg" |};
        CallDel "instagram-media/reel/u1/9b2f6c1e-3a4d-4f70-8c21-5d6e7f8a9b0c.mp4"]).
Proof. by_evaluation. Qed.

(** a URL whose part after [.com/] holds U+2028 has no key: the
    delete makes one call of [del], on the URL *)
Example matchComPath_line_separator :
  let u := "https://x.com/a" +:+ lineSeparator +:+ "b" in
  (matchComPath u,
   calls (Delete (Demo.proc (Some "1")) ProfileImage (Demo.service true)
            (Some u) Demo.world).2)
  = (None, [CallDel u]).
Proof. cbv zeta. by_evaluation. Qed.

Example matchComPath_examples :
  map matchComPath
    ["https://store.public.blob.vercel-storage.com/profile-images/u1/a.jpg";
     "http://localhost:3000/uploads/a.jpg"; "https://x.com/"; "https://x.com/a.com/b"]
  = [Some "profile-images/u1/a.jpg"; None; None; Some "a.com/b"].
Proof. reflexivity. Qed.

End Examples.

(** * Facts about strings and paths *)

Section StrFacts.
Variable c : ascii.

Lemma sapp_cons x s t : String x s +:+ t = String x (s +:+ t).
Proof. reflexivity. Qed.

Lemma sapp_nil_l s : "" +:+ s = s.
Proof. reflexivity. Qed.

Lemma sapp_nil_r s : s +:+ "" = s.
Proof. induction s as [|x s IH]; [done|]. by rewrite sapp_cons, IH. Qed.

Lemma app_assoc_str s t u : (s +:+ t) +:+ u = s +:+ (t +:+ u).
Proof. induction s as [|x s IH]; [done|]. by rewrite !sapp_cons, IH. Qed.

Lemma split_not_nil s : Str.split c s ≠ [].
Proof.
  destruct s as [|x s]; cbn; [done|].
  destruct (Ascii.eqb x c); [done|]. by destruct (Str.split c s).
Qed.

Lemma split_app s t :
  Str.split c (s +:+ String c t) = Str.split c s ++ Str.split c t.
Proof.
  induction s as [|x s IH].
  - rewrite sapp_nil_l. cbn. by rewrite Ascii.eqb_refl.
  - rewrite sapp_cons. cbn. rewrite IH.
    destruct (Ascii.eqb x c); [done|].
    pose proof (split_not_nil s). by destruct (Str.split c s).
Qed.

Lemma split_plain s : Str.mem c s = false → Str.split c s = [s].
Proof.
  induction s as [|x s IH]; cbn; [done|].
  intros [Hx Hs]%orb_false_elim. by rewrite Hx, (IH Hs).
Qed.

Lemma split_mem s : Forall (λ x, Str.mem c x = false) (Str.split c s).
Proof.
  induction s as [|x s IH]; cbn; [by repeat constructor|].
  destruct (Ascii.eqb x c) eqn:E; [by constructor|].
  destruct (Str.split c s); [by repeat constructor; cbn; rewrite E|].
  inversion IH; subst. constructor; [|done]. cbn. by rewrite E.
Qed.

Lemma concat_cons2 x y l :
  String.concat (String c "") (x :: y :: l)
  = x +:+ String c (String.concat (String c "") (y :: l)).
Proof. reflexivity. Qed.

Lemma split_concat l :
  l ≠ [] → Forall (λ x, Str.mem c x = false) l →
  Str.split c (String.concat (String c "") l) = l.
Proof.
  induction l as [|x l IH]; [done|]. intros _ Hl.
  inversion Hl as [|? ? Hx Hl']; subst.
  destruct l as [|y l]; [by apply split_plain|].
  rewrite concat_cons2, split_app, (split_plain x Hx), IH; done.
Qed.

Lemma split_flat_concat l :
  l ≠ [] →
  Str.split c (String.concat (String c "") l) = flat_map (Str.split c) l.
Proof.
  induction l as [|x l IH]; [done|]. intros _.
  destruct l as [|y l].
  - cbn. by rewrite List.app_nil_r.
  - rewrite concat_cons2, split_app, IH; done.
Qed.

Lemma mem_app s t : Str.mem c (s +:+ t) = Str.mem c s || Str.mem c t.
Proof.
  induction s as [|x s IH]; [done|].
  rewrite sapp_cons. cbn. by rewrite IH, orb_assoc.
Qed.

Lemma mem_drop n s : Str.mem c s = false → Str.mem c (Str.drop n s) = false.
Proof.
  revert s. induction n as [|n IH]; intros [|x s]; cbn; try done.
  intros [_ Hs]%orb_false_elim. by apply IH.
Qed.

Lemma endsWithChar_mem s : Str.mem c s = false → Str.endsWithChar c s = false.
Proof.
  induction s as [|x s IH]; cbn; [done|].
  intros [Hx Hs]%orb_false_elim. destruct s; [done|]. by apply IH.
Qed.

Lemma endsWithChar_app s t :
  t ≠ "" → Str.endsWithChar c (s +:+ t) = Str.endsWithChar c t.
Proof.
  intros Ht. induction s as [|x s IH]; [done|].
  rewrite sapp_cons. cbn. rewrite IH.
  destruct (s +:+ t) eqn:E; [|done]. by destruct s, t.
Qed.

Lemma startsWith_app s t p :
  Str.startsWith s p = true → Str.startsWith (s +:+ t) p = true.
Proof.
  unfold Str.startsWith. revert s.
  induction p as [|y p IH]; intros [|x s]; try done.
  - by destruct t.
  - rewrite sapp_cons. cbn. destruct (ascii_dec y x); [|done]. apply IH.
Qed.

Lemma truthy_app_l s t : Str.truthy s = true → Str.truthy (s +:+ t) = true.
Proof. by destruct s. Qed.

Lemma length_app s t :
  String.length (s +:+ t) = (String.length s + String.length t)%nat.
Proof. induction s as [|x s IH]; [done|]. rewrite sapp_cons. cbn. by rewrite IH. Qed.

Lemma drop_app s t : Str.drop (String.length s) (s +:+ t) = t.
Proof. induction s as [|x s IH]; [by destruct t|]. by rewrite sapp_cons. Qed.

Lemma endsWith_app s t : Str.endsWith (s +:+ t) t = true.
Proof.
  unfold Str.endsWith. rewrite length_app.
  replace (String.length s + String.length t - String.length t)%nat
    with (String.length s) by lia.
  rewrite drop_app. apply String.eqb_refl.
Qed.

Lemma truthy_ne s : Str.truthy s = true ↔ s ≠ "".
Proof. by destruct s. Qed.

End StrFacts.

Section PathFacts.

Lemma normStep_skip al acc : Path.normStep al acc "" = acc.
Proof. reflexivity. Qed.

Lemma normStep_plain al acc s :
  plainName s → Path.normStep al acc s = s :: acc.
Proof.
  intros (? & ? & ? & _). unfold Path.normStep.
  rewrite decide_False by (by intros [|]). by rewrite decide_False.
Qed.

Lemma normSegs_app al acc l k :
  Path.normSegs al acc (l ++ k)
  = Path.normSegs al (Path.normSegs al acc l) k.
Proof. apply foldl_app. Qed.

Lemma normSegs_plain al acc l :
  Forall plainName l → Path.normSegs al acc l = rev l ++ acc.
Proof.
  revert acc. induction l as [|x l IH]; intros acc Hl; [done|].
  inversion Hl; subst. cbn. rewrite normStep_plain by done.
  fold (Path.normSegs al (x :: acc) l). rewrite IH by done.
  by rewrite <- app_assoc.
Qed.

(** Normalizing an absolute path keeps only plain names. *)
Lemma normSegs_keeps_plain acc l :
  Forall plainName acc → Forall (λ x, Str.mem Path.sep x = false) l →
  Forall plainName (Path.normSegs false acc l).
Proof.
  revert acc. induction l as [|x l IH]; intros acc Hacc Hl; [done|].
  inversion Hl; subst. cbn. apply IH; [|done].
  unfold Path.normStep. repeat case_decide; try done.
  - destruct acc as [|top rest]; [done|]. case_decide; [done|].
    by inversion Hacc.
  - constructor; [|done]. unfold plainName. naive_solver.
Qed.

Lemma resolve_plain p : Forall plainName (Fs.resolve p).
Proof.
  unfold Fs.resolve. apply Forall_rev, normSegs_keeps_plain; [done|].
  apply split_mem.
Qed.

Lemma concat_plain_truthy x l :
  x ≠ "" → Str.truthy (String.concat "/" (x :: l)) = true.
Proof.
  intros Hx. destruct l as [|y l]; [by destruct x|].
  change "/" with (String Path.sep ""). rewrite concat_cons2. by destruct x.
Qed.

Lemma normalize_abs p :
  Path.isAbsolute p = true →
  Path.normalize p = canon (Fs.resolve p) (Str.endsWithChar Path.sep p).
Proof.
  intros Hp. unfold Path.normalize, Path.normalizeString. rewrite Hp.
  assert (Str.truthy p = true) as -> by by destruct p.
  cbn [negb]. fold (Fs.resolve p).
  pose proof (resolve_plain p) as Hplain.
  destruct (Fs.resolve p) as [|x l]; [done|].
  inversion Hplain as [|? ? (Hx & _) _]; subst.
  rewrite concat_plain_truthy by done. cbn [negb canon].
  destruct (Str.endsWithChar Path.sep p); [done|]. by rewrite sapp_nil_r.
Qed.

Lemma resolve_canon segs t :
  Forall plainName segs → Fs.resolve (canon segs t) = segs.
Proof.
  intros Hs. unfold Fs.resolve, canon.
  destruct segs as [|x l]; [done|]. set (segs := x :: l) in *.
  assert (segs ≠ []) as Hne by done. clearbody segs.
  assert (Forall (λ x, Str.mem Path.sep x = false) segs) as Hm.
  { eapply Forall_impl; [done|]. by intros ? (_ & _ & _ & ?). }
  change ("/" +:+ ?r) with (String Path.sep r). cbn [Str.split].
  rewrite Ascii.eqb_refl.
  change ("" :: ?l) with ([""] ++ l). rewrite normSegs_app.
  change (Path.normSegs false [] [""]) with (@nil string).
  destruct t.
  - change "/" with (String Path.sep "") at 2.
    rewrite split_app, split_concat by done.
    rewrite normSegs_app, (normSegs_plain _ _ segs) by done.
    change (Path.normSegs false ?a (Str.split Path.sep "")) with a.
    by rewrite List.app_nil_r, rev_involutive.
  - rewrite sapp_nil_r, split_concat by done.
    rewrite (normSegs_plain _ _ segs) by done.
    by rewrite List.app_nil_r, rev_involutive.
Qed.

(** Empty arguments of [join] leave no trace. *)
Lemma normSegs_filter_truthy al acc args :
  Path.normSegs al acc
    (flat_map (Str.split Path.sep) (filter (λ a, Str.truthy a = true) args))
  = Path.normSegs al acc (flat_map (Str.split Path.sep) args).
Proof.
  revert acc. induction args as [|x args IH]; intros acc; [done|].
  destruct x as [|c r].
  - rewrite filter_cons_False by done. cbn [flat_map Str.split].
    rewrite normSegs_app. cbn. apply IH.
  - rewrite filter_cons_True by done. cbn [flat_map].
    by rewrite !normSegs_app, IH.
Qed.

(** What [join] answers when its first argument is absolute. *)
Lemma join_abs a rest :
  Path.isAbsolute a = true →
  Path.join (a :: rest)
  = canon (rev (Path.normSegs false []
                  (flat_map (Str.split Path.sep) (a :: rest))))
      (Str.endsWithChar Path.sep
         (String.concat "/" (filter (λ a, Str.truthy a = true) (a :: rest)))).
Proof.
  intros Ha. unfold Path.join.
  assert (Str.truthy a = true) as Hta by by destruct a.
  rewrite filter_cons_True by done.
  set (l := filter _ rest).
  rewrite normalize_abs.
  - f_equal. unfold Fs.resolve. f_equal.
    change "/" with (String Path.sep "").
    rewrite split_flat_concat by done.
    rewrite <- (normSegs_filter_truthy _ _ (a :: rest)).
    by rewrite filter_cons_True by done.
  - destruct l as [|y l]; [done|].
    change "/" with (String Path.sep ""). rewrite concat_cons2.
    by apply startsWith_app.
Qed.

Lemma canon_absolute segs t : Path.isAbsolute (canon segs t) = true.
Proof. destruct segs; [done|]. by apply startsWith_app. Qed.

Lemma canon_truthy segs t : Str.truthy (canon segs t) = true.
Proof. destruct segs; [done|]. by apply truthy_app_l. Qed.

Lemma endsWithChar_inv c s :
  Str.endsWithChar c s = true → ∃ s', s = s' +:+ String c "".
Proof.
  induction s as [|x s IH]; [done|]. cbn. destruct s as [|y s].
  - intros ->%Ascii.eqb_eq. by exists "".
  - intros [s' ->]%IH. by exists (String x s').
Qed.

Lemma split_last_plain c y pre f :
  Str.split c y = pre ++ [f] → f ≠ "" →
  y ≠ "" ∧ Str.endsWithChar c y = false.
Proof.
  intros Hy Hf. split.
  - intros ->. destruct pre as [|? [|? ?]]; cbn in Hy; by simplify_eq.
  - destruct (Str.endsWithChar c y) eqn:E; [|done].
    apply endsWithChar_inv in E as [s' ->].
    rewrite split_app in Hy. cbn in Hy.
    apply app_inj_tail in Hy as [_ ?]. by subst.
Qed.

Lemma concat_snoc sepstr l y :
  ∃ z, String.concat sepstr (l ++ [y]) = z +:+ y.
Proof.
  induction l as [|x l [z IH]]; [by exists ""|].
  exists (x +:+ sepstr +:+ z). cbn [app String.concat].
  destruct (l ++ [y]) eqn:E; [by destruct l|].
  by rewrite IH, !app_assoc_str.
Qed.

Lemma flat_map_split_mem l :
  Forall (λ x, Str.mem Path.sep x = false) (flat_map (Str.split Path.sep) l).
Proof.
  induction l as [|x l IH]; [done|]. cbn. apply Forall_app. split; [|done].
  apply split_mem.
Qed.

Lemma resolve_join_abs a rest :
  Path.isAbsolute a = true →
  Fs.resolve (Path.join (a :: rest))
  = rev (Path.normSegs false [] (flat_map (Str.split Path.sep) (a :: rest))).
Proof.
  intros Ha. rewrite join_abs by done. apply resolve_canon.
  apply Forall_rev, normSegs_keeps_plain; [done|]. apply flat_map_split_mem.
Qed.

(** A [join] whose last argument ends in a plain name [f]: the answer
    ends in [f], with no trailing separator. *)
Lemma join_ends_plain a xs y pre f :
  Path.isAbsolute a = true → plainName f →
  Str.split Path.sep y = pre ++ [f] →
  Path.join (a :: xs ++ [y])
  = canon (rev (Path.normSegs false []
                  (flat_map (Str.split Path.sep) (a :: xs) ++ pre)) ++ [f])
      false.
Proof.
  intros Ha Hf Hy. rewrite join_abs by done.
  destruct (split_last_plain _ _ _ _ Hy (proj1 Hf)) as [Hne Hend].
  f_equal.
  - change (a :: xs ++ [y]) with ((a :: xs) ++ [y]).
    rewrite flat_map_app. cbn [flat_map].
    rewrite Hy, List.app_nil_r, app_assoc, normSegs_app.
    cbn [Path.normSegs foldl]. by rewrite normStep_plain.
  - change (a :: xs ++ [y]) with ((a :: xs) ++ [y]).
    rewrite filter_app, (filter_cons_True _ y) by by apply truthy_ne.
    rewrite filter_nil.
    destruct (concat_snoc "/" (filter (λ a, Str.truthy a = true) (a :: xs)) y)
      as [z ->].
    by rewrite endsWithChar_app.
Qed.

Lemma join_ends_plain_last a xs y pre f :
  Path.isAbsolute a = true → plainName f →
  Str.split Path.sep y = pre ++ [f] →
  last (Fs.resolve (Path.join (a :: xs ++ [y]))) = Some f.
Proof.
  intros Ha Hf Hy. rewrite (join_ends_plain a xs y pre f) by done.
  rewrite resolve_canon; [apply last_snoc|].
  apply Forall_app. split; [|by apply Forall_singleton].
  apply Forall_rev, normSegs_keeps_plain; [done|].
  apply Forall_app. split; [apply flat_map_split_mem|].
  pose proof (split_mem Path.sep y) as Hm. rewrite Hy in Hm.
  by apply Forall_app in Hm as [? _].
Qed.

Lemma prefix_app u e : Str.startsWith (u +:+ e) u = true.
Proof.
  unfold Str.startsWith. induction u as [|x u IH]; [by destruct e|].
  rewrite sapp_cons. cbn. by destruct (ascii_dec x x).
Qed.

Lemma allChars_mem P x s :
  P x = false → allChars P s = true → Str.mem x s = false.
Proof.
  intros Hx. induction s as [|y s IH]; [done|]. cbn.
  intros [Hy Hs]%andb_prop. rewrite IH by done.
  destruct (Ascii.eqb_spec y x); [congruence|done].
Qed.

(** A file name made of a UUID and a slash-free extension is a plain
    name. *)
Lemma validUuid_plain uuid ext :
  validUuid uuid = true → Str.mem Path.sep ext = false →
  plainName (uuid +:+ ext).
Proof.
  unfold validUuid. intros [Hlen Hall]%andb_prop Hext.
  destruct uuid as [|x uuid]; [done|]. rewrite sapp_cons.
  assert (x ≠ "."%char) as Hx.
  { intros ->. cbn in Hall. discriminate. }
  repeat split; try (intros [=]; done).
  rewrite <- sapp_cons, mem_app, Hext.
  by rewrite (allChars_mem isUuidChar Path.sep).
Qed.

Lemma lastPart_no_sep p : Str.mem Path.sep (Path.lastPart p) = false.
Proof.
  unfold Path.lastPart.
  destruct (last _) as [x|] eqn:E; [|done]. cbn.
  apply last_Some in E as [l' E].
  pose proof (split_mem Path.sep p) as Hm.
  assert (x ∈ filter (λ s, Str.truthy s = true) (Str.split Path.sep p)) as Hin.
  { rewrite E. apply elem_of_app. right. by apply list_elem_of_singleton. }
  apply list_elem_of_filter in Hin as [_ Hin].
  by eapply Forall_forall in Hm.
Qed.

Lemma extname_no_sep p : Str.mem Path.sep (Path.extname p) = false.
Proof.
  unfold Path.extname.
  destruct (Str.lastIndexOf _ _) as [[|i]|]; try done.
  case_decide; [done|]. apply mem_drop, lastPart_no_sep.
Qed.

Lemma resolve_join_file dir f :
  Path.isAbsolute dir = true → plainName f →
  Fs.resolve (Path.join [dir; f]) = Fs.resolve dir ++ [f].
Proof.
  intros Hd Hf. pose proof Hf as (_ & _ & _ & Hm).
  rewrite resolve_join_abs by done. cbn [flat_map].
  rewrite (split_plain _ f Hm), List.app_nil_r, normSegs_app.
  cbn [Path.normSegs foldl]. rewrite normStep_plain by done. done.
Qed.

End PathFacts.

Section FsFacts.
Implicit Types (fs : Fs.t).

(** [mkdirp] never removes or changes what is there. *)
Lemma mkdirp_mono fs pre todo k n :
  fs !! k = Some n → (Fs.mkdirp fs pre todo).2 !! k = Some n.
Proof.
  revert fs pre. induction todo as [|s rest IH]; intros fs pre Hk; [done|].
  cbn. destruct (fs !! (pre ++ [s])) as [[d|]|] eqn:E; [done|by apply IH|].
  apply IH. rewrite lookup_insert_ne; [done|]. by intros <-; simplify_eq.
Qed.

(** [mkdirp] makes directories only. *)
Lemma mkdirp_files fs pre todo k data :
  (Fs.mkdirp fs pre todo).2 !! k = Some (File data) →
  fs !! k = Some (File data).
Proof.
  revert fs pre. induction todo as [|s rest IH]; intros fs pre; [done|].
  cbn. destruct (fs !! (pre ++ [s])) as [[d|]|] eqn:E; [done|by apply IH|].
  intros Hk%IH. destruct (decide (pre ++ [s] = k)) as [<-|Hne].
  - by rewrite lookup_insert_eq in Hk.
  - by rewrite lookup_insert_ne in Hk.
Qed.

(** When [mkdirp] goes through, the directory is there. *)
Lemma mkdirp_done fs pre todo :
  (Fs.mkdirp fs pre todo).1 = true → todo ≠ [] →
  (Fs.mkdirp fs pre todo).2 !! (pre ++ todo) = Some Dir.
Proof.
  revert fs pre. induction todo as [|s rest IH]; intros fs pre; [done|].
  intros Hok _. cbn in *.
  replace (pre ++ s :: rest) with ((pre ++ [s]) ++ rest)
    by by rewrite <- app_assoc.
  destruct (fs !! (pre ++ [s])) as [[d|]|] eqn:E; [done| |].
  - destruct rest as [|s' rest']; [by rewrite List.app_nil_r|].
    by apply IH.
  - destruct rest as [|s' rest'].
    + cbn. by rewrite List.app_nil_r, lookup_insert_eq.
    + by apply IH.
Qed.

Lemma exists_mono fs fs' p :
  (∀ k n, fs !! k = Some n → fs' !! k = Some n) →
  Fs.exists_ fs p = true → Fs.exists_ fs' p = true.
Proof.
  intros Hm. unfold Fs.exists_, Fs.stat, Fs.node.
  destruct (Str.truthy p); cbn [negb]; [|done].
  destruct (Fs.resolve p) as [|x l]; [done|].
  destruct (fs !! (x :: l)) as [n|] eqn:E; [|by repeat case_match].
  by rewrite (Hm _ _ E).
Qed.

Lemma ensureDir_mono fs dir r fs' k n :
  ensureDir fs dir = (r, fs') → fs !! k = Some n → fs' !! k = Some n.
Proof.
  unfold ensureDir, Fs.mkdir. destruct (Fs.exists_ fs dir); [by intros [= _ <-]|].
  pose proof (mkdirp_mono fs [] (Fs.resolve dir) k n) as Hm.
  destruct (Fs.mkdirp fs [] (Fs.resolve dir)) as [[|] fs1];
    intros [= _ <-]; by apply Hm.
Qed.

Lemma ensureDir_files fs dir r fs' k data :
  ensureDir fs dir = (r, fs') → fs' !! k = Some (File data) →
  fs !! k = Some (File data).
Proof.
  unfold ensureDir, Fs.mkdir. destruct (Fs.exists_ fs dir); [by intros [= _ <-]|].
  pose proof (mkdirp_files fs [] (Fs.resolve dir) k data) as Hm.
  destruct (Fs.mkdirp fs [] (Fs.resolve dir)) as [[|] fs1];
    intros [= _ <-]; by apply Hm.
Qed.

Lemma ensureDir_exists fs dir fs' :
  Str.truthy dir = true →
  ensureDir fs dir = (Returned tt, fs') → Fs.exists_ fs' dir = true.
Proof.
  intros Ht. unfold ensureDir, Fs.mkdir.
  destruct (Fs.exists_ fs dir) eqn:E; [by intros [= <-]|].
  pose proof (mkdirp_done fs [] (Fs.resolve dir)) as Hd.
  destruct (Fs.mkdirp fs [] (Fs.resolve dir)) as [[|] fs1]; [|done].
  intros [= <-]. unfold Fs.exists_, Fs.stat, Fs.node. rewrite Ht. cbn [negb].
  destruct (Fs.resolve dir) as [|x l]; [done|].
  cbn in Hd. by rewrite Hd.
Qed.

(** Once the path exists, making sure of it changes nothing. *)
Lemma ensureDir_idle fs dir :
  Fs.exists_ fs dir = true → ensureDir fs dir = (Returned tt, fs).
Proof. unfold ensureDir. by intros ->. Qed.

Lemma join_truthy args : Str.truthy (Path.join args) = true.
Proof.
  unfold Path.join. destruct (filter _ args); [done|].
  unfold Path.normalize.
  repeat case_match; try done; try (by apply truthy_app_l);
    try (apply truthy_app_l); by apply negb_false_iff.
Qed.

Lemma stat_mono fs fs' p n :
  (∀ k n, fs !! k = Some n → fs' !! k = Some n) →
  Fs.stat fs p = Some n → Fs.stat fs' p = Some n.
Proof.
  intros Hm. unfold Fs.stat, Fs.node.
  destruct (Str.truthy p); cbn [negb]; [|done].
  destruct (Fs.resolve p) as [|x l]; [done|].
  destruct (fs !! (x :: l)) as [m|] eqn:E; [|done].
  by rewrite (Hm _ _ E).
Qed.

(** What is at a path that has been made sure of: a directory, unless a
    file stood there, which is left. *)
Lemma ensureDir_stat fs dir fs' :
  Str.truthy dir = true →
  ensureDir fs dir = (Returned tt, fs') →
  Fs.stat fs' dir = Some Dir
  ∨ ∃ data, Fs.stat fs dir = Some (File data) ∧ fs' = fs.
Proof.
  intros Ht. unfold ensureDir, Fs.mkdir.
  destruct (Fs.exists_ fs dir) eqn:E.
  - intros [= <-]. unfold Fs.exists_ in E.
    destruct (Fs.stat fs dir) as [[data|]|]; [right; eauto|by left|done].
  - pose proof (mkdirp_done fs [] (Fs.resolve dir)) as Hd.
    destruct (Fs.mkdirp fs [] (Fs.resolve dir)) as [[|] fs1]; [|done].
    intros [= <-]. left. unfold Fs.stat, Fs.node. rewrite Ht. cbn [negb].
    destruct (Fs.resolve dir) as [|x l]; [done|].
    cbn in Hd. by rewrite Hd.
Qed.

(** Whatever [mkdirp] adds is a directory on the way to its target. *)
Lemma mkdirp_footprint fs pre todo k :
  (Fs.mkdirp fs pre todo).2 !! k = fs !! k
  ∨ (fs !! k = None ∧ (Fs.mkdirp fs pre todo).2 !! k = Some Dir
     ∧ k `prefix_of` pre ++ todo).
Proof.
  revert fs pre. induction todo as [|s rest IH]; intros fs pre; [by left|].
  cbn. replace (pre ++ s :: rest) with ((pre ++ [s]) ++ rest)
    by by rewrite <- app_assoc.
  destruct (fs !! (pre ++ [s])) as [[d|]|] eqn:E; [by left|apply IH|].
  destruct (IH (<[pre ++ [s] := Dir]> fs) (pre ++ [s])) as [Heq|(Hn & Hd & Hp)].
  - destruct (decide (pre ++ [s] = k)) as [<-|Hne].
    + right. rewrite Heq, lookup_insert_eq. repeat split; try done.
      by exists rest.
    + left. by rewrite Heq, lookup_insert_ne.
  - right. destruct (decide (pre ++ [s] = k)) as [<-|Hne].
    + by rewrite lookup_insert_eq in Hn.
    + by rewrite lookup_insert_ne in Hn.
Qed.

Lemma ensureDir_stat_file fs dir r fs' p data :
  ensureDir fs dir = (r, fs') →
  Fs.stat fs' p = Some (File data) → Fs.stat fs p = Some (File data).
Proof.
  intros E. unfold Fs.stat, Fs.node.
  destruct (Str.truthy p); cbn [negb]; [|done].
  destruct (Fs.resolve p) as [|x l]; [done|].
  destruct (fs' !! (x :: l)) as [[d|]|] eqn:E'; [|done..].
  by rewrite (ensureDir_files _ _ _ _ _ _ E E').
Qed.

Lemma ensureDir_footprint fs dir r fs' k :
  ensureDir fs dir = (r, fs') →
  fs' !! k = fs !! k
  ∨ (fs !! k = None ∧ fs' !! k = Some Dir ∧ k `prefix_of` Fs.resolve dir).
Proof.
  unfold ensureDir, Fs.mkdir.
  destruct (Fs.exists_ fs dir); [intros [= _ <-]; by left|].
  pose proof (mkdirp_footprint fs [] (Fs.resolve dir) k) as Hf.
  destruct (Fs.mkdirp fs [] (Fs.resolve dir)) as [[|] fs1];
    by intros [= _ <-].
Qed.

End FsFacts.

(** * Facts about the service *)

Ltac unfoldM :=
  unfold tryCatch, bind, ret, throw, del, put, existsSync, unlinkSync,
    mkdirSync, writeStream, liftFs in *;
  cbn [files store calls fst snd] in *.

Section Facts.
Context {B : Type} `{BlobStore B} `{UrlParser}.
Variable process : Process.

Implicit Types (a : Asset) (this : UploadService) (w : World B).

Lemma Delete_unfold a this ref :
  Delete process a this ref = deleteIn process (categoryRoot a) this ref.
Proof. by destruct a. Qed.

Lemma startsWith_nonempty s p :
  Str.startsWith s p = true → p ≠ "" → s ≠ "".
Proof. intros Hp Hne ->. destruct p; [done | discriminate]. Qed.

(** Remote backend, bare key: one [del], on the key less one leading
    slash; the answer tells whether it returned. *)
Lemma deleteIn_remote_key category this ref w :
  isVercel this = true → ref ≠ "" → Str.startsWith ref "http" = false →
  let key := if Str.startsWith ref "/" then Str.substring1 ref else ref in
  deleteIn process category this (Some ref) w
  = (Returned (isReturned (blobDel key (store w)).1),
     mkWorld (files w) (blobDel key (store w)).2 (calls w ++ [CallDel key])).
Proof.
  intros Hv Hne Hh key. unfold deleteIn.
  destruct ref as [|c r]; [done|]. rewrite Hv, Hh. unfoldM.
  fold key. by destruct (blobDel key (store w)) as [[[]|e] b'].
Qed.

(** Remote backend, URL: the attempts, in order. *)
Lemma deleteIn_remote_url category this ref w :
  isVercel this = true → Str.startsWith ref "http" = true →
  deleteIn process category this (Some ref) w
  = match matchComPath ref with
    | Some key =>
        let (r1, b1) := blobDel key (store w) in
        if isReturned r1 then
          (Returned true, mkWorld (files w) b1 (calls w ++ [CallDel key]))
        else
          let (r2, b2) := blobDel ref b1 in
          (Returned (isReturned r2),
           mkWorld (files w) b2 (calls w ++ [CallDel key; CallDel ref]))
    | None =>
        let (r2, b2) := blobDel ref (store w) in
        (Returned (isReturned r2),
         mkWorld (files w) b2 (calls w ++ [CallDel ref]))
    end.
Proof.
  intros Hv Hh. unfold deleteIn.
  destruct ref as [|c r]; [discriminate|]. rewrite Hv, Hh. unfoldM.
  destruct (matchComPath (String c r)) as [key|].
  - destruct (blobDel key (store w)) as [[[]|e1] b1]; cbn; [done|].
    rewrite <- app_assoc. cbn.
    by destruct (blobDel (String c r) b1) as [[[]|e2] b2].
  - by destruct (blobDel (String c r) (store w)) as [[[]|e2] b2].
Qed.

(** What a save does on the remote backend: one [put]. *)
Lemma Save_remote a this file ownerId uuid w :
  isVercel this = true →
  Save process a this (Some file) ownerId uuid w
  = let key := keyOf a ownerId (uuid +:+ remoteExt file) in
    let (r, b') := blobPut key (buffer file) (putOptions file) (store w) in
    let w' := mkWorld (files w) b'
                (calls w ++ [CallPut key (buffer file) (putOptions file)]) in
    match r with
    | Returned blob => (Returned (url blob), w')
    | Thrown e => (Thrown e, w')
    end.
Proof.
  intros Hv. destruct a; cbn [Save keyOf];
    unfold saveProfileImage, savePropertyImage, saveInstagramMedia;
    rewrite Hv; unfoldM; unfold remoteExt, putOptions;
    by destruct (blobPut _ _ _ _) as [[blob|e] b'].
Qed.

(** What a save does on the local backend: the owner's directory is
    made sure of, then the file is written. *)
Lemma Save_local a this file ownerId uuid w :
  isVercel this = false →
  Save process a this (Some file) ownerId uuid w
  = let filename := uuid +:+ localExt a file in
    let (r1, fs1) := ensureDir (files w) (ownerDir process a ownerId) in
    match r1 with
    | Thrown e => (Thrown e, mkWorld fs1 (store w) (calls w))
    | Returned _ =>
        let (r2, fs2) :=
          Fs.write fs1 (Path.join [ownerDir process a ownerId; filename])
            (buffer file) in
        match r2 with
        | Returned _ =>
            (Returned (keyOf a ownerId filename), mkWorld fs2 (store w) (calls w))
        | Thrown e => (Thrown e, mkWorld fs2 (store w) (calls w))
        end
    end.
Proof.
  intros Hv. destruct a; cbn [Save keyOf ownerDir localExt];
    unfold saveProfileImage, savePropertyImage, saveInstagramMedia;
    rewrite Hv; unfoldM; unfold ensureDir;
    (destruct (Fs.exists_ _ _); cbn [negb];
     [|destruct (Fs.mkdir _ _) as [[[]|e] fs1]; [|by destruct w]];
     by destruct (Fs.write _ _ _) as [[[]|e2] fs2]; destruct w).
Qed.

Lemma tryAlternativePaths_find paths w :
  tryAlternativePaths paths w
  = match unlinkFirst (files w) paths with
    | None => (Returned false, w)
    | Some (Returned _, fs') =>
        (Returned true, mkWorld fs' (store w) (calls w))
    | Some (Thrown e, fs') => (Thrown e, mkWorld fs' (store w) (calls w))
    end.
Proof.
  unfold unlinkFirst. induction paths as [|p paths IH]; [done|].
  cbn [tryAlternativePaths List.find]. unfoldM.
  destruct (Fs.exists_ (files w) p); [|apply IH].
  cbn. by destruct (Fs.unlink (files w) p) as [[[]|e] fs'].
Qed.

(** What a delete does on the local backend. *)
Lemma deleteIn_local category this ref w :
  isVercel this = false → ref ≠ "" →
  deleteIn process category this (Some ref) w
  = match localNormalize category ref with
    | None => (Returned false, w)
    | Some localPath =>
        match unlinkFirst (files w) (candidatePaths process category localPath) with
        | None => (Returned false, w)
        | Some (r, fs') =>
            (Returned (isReturned r), mkWorld fs' (store w) (calls w))
        end
    end.
Proof.
  intros Hv Hne. unfold deleteIn, localNormalize, urlToPath.
  destruct ref as [|c r]; [done|]. rewrite Hv.
  set (ref := String c r).
  assert (∀ lp,
    match tryAlternativePaths
            (candidatePaths process category
               (rootQualify category (stripLeadingSlash lp))) w with
    | (Returned a, w') => (Returned a, w')
    | (Thrown _, w') => (Returned false, w')
    end
    = match unlinkFirst (files w)
              (candidatePaths process category
                 (rootQualify category (stripLeadingSlash lp))) with
      | None => (Returned false, w)
      | Some (r, fs') =>
          (Returned (isReturned r), mkWorld fs' (store w) (calls w))
      end) as Hbody.
  { intros lp. rewrite tryAlternativePaths_find.
    by destruct (unlinkFirst _ _) as [[[[]|e] fs']|]. }
  unfold tryCatch at 1. unfold bind at 1.
  destruct (Str.startsWith ref "http").
  - destruct (urlPathname ref) as [pathname|];
      cbn [fmap option_fmap option_map compose]; [|done].
    exact (Hbody pathname).
  - exact (Hbody ref).
Qed.

Lemma write_returned fs p data fs' :
  Fs.write fs p data = (Returned tt, fs') →
  fs' = <[Fs.resolve p := File data]> fs
  ∧ Fs.stat fs' p = Some (File data)
  ∧ Fs.node fs (removelast (Fs.resolve p)) = Some Dir
  ∧ Str.endsWithChar Path.sep p = false.
Proof.
  unfold Fs.write, Fs.stat. intros Hw.
  destruct (Str.truthy p); cbn [negb] in *; [|done].
  destruct (Str.endsWithChar Path.sep p); [done|].
  assert (Fs.resolve p ≠ [] ∧ fs' = <[Fs.resolve p := File data]> fs
          ∧ Fs.node fs (removelast (Fs.resolve p)) = Some Dir)
    as (Hne & -> & Hpar).
  { destruct (Fs.resolve p) as [|x l] eqn:E; [done|].
    destruct (Fs.node fs (x :: l)) as [[|]|];
      destruct (Fs.node fs (removelast (x :: l))) as [[|]|];
      by simplify_eq. }
  repeat split; [|done].
  unfold Fs.node. destruct (Fs.resolve p); [done|].
  by rewrite lookup_insert_eq.
Qed.

Lemma keyOf_not_rooted a ownerId filename :
  Str.startsWith (keyOf a ownerId filename) "uploads/" = false
  ∧ Str.startsWith (keyOf a ownerId filename) "/" = false.
Proof. by destruct a. Qed.

Lemma keyOf_suffix a ownerId stem ext :
  Str.endsWith (keyOf a ownerId (stem +:+ ext)) ext = true.
Proof.
  destruct a; cbn [keyOf]; rewrite <- !app_assoc_str; apply endsWith_app.
Qed.

(** C7: every delete, given an empty string or [null], answers [false]
    at once: nothing is thrown and the file system, the blob store and
    the list of calls made to the blob client stay as they were. *)
Theorem delete_empty_reference a this w :
  Delete process a this None w = (Returned false, w)
  ∧ Delete process a this (Some "") w = (Returned false, w).
Proof. rewrite !Delete_unfold. by split. Qed.

(** C10: on the remote backend a non-empty reference that does not
    start with [http] is taken for a key: at most one leading slash is
    dropped, [del] is called once, on that key, and the answer is [true]
    when it returned and [false] when it threw; no other key or URL is
    tried. *)
Theorem delete_remote_bare_key a this ref w :
  isVercel this = true → ref ≠ "" → Str.startsWith ref "http" = false →
  let key := if Str.startsWith ref "/" then Str.substring1 ref else ref in
  let (r, b') := blobDel key (store w) in
  Delete process a this (Some ref) w
  = (Returned (isReturned r),
     mkWorld (files w) b' (calls w ++ [CallDel key])).
Proof.
  intros Hv Hne Hh key. rewrite Delete_unfold.
  rewrite deleteIn_remote_key by done. fold key.
  by destruct (blobDel key (store w)).
Qed.

(** C4 (amended): on the remote backend, for a reference that starts
    with [http].  When the URL holds a [.com/] followed, up to its end,
    by a rest that is not empty and has no line terminator, that rest
    (after the leftmost such [.com/]) is the key: [del] is first called
    on the key and, when that call throws, a second time on the URL as it
    was given.  When the URL holds no such part, [del] is called once, on
    the URL.  The answer is [true] as soon as a call returns and [false]
    when every call threw; nothing is thrown in any case. *)
Theorem delete_remote_url_attempts a this ref w :
  isVercel this = true → Str.startsWith ref "http" = true →
  Delete process a this (Some ref) w
  = match matchComPath ref with
    | Some key =>
        let (r1, b1) := blobDel key (store w) in
        if isReturned r1 then
          (Returned true, mkWorld (files w) b1 (calls w ++ [CallDel key]))
        else
          let (r2, b2) := blobDel ref b1 in
          (Returned (isReturned r2),
           mkWorld (files w) b2 (calls w ++ [CallDel key; CallDel ref]))
    | None =>
        let (r2, b2) := blobDel ref (store w) in
        (Returned (isReturned r2),
         mkWorld (files w) b2 (calls w ++ [CallDel ref]))
    end.
Proof.
  intros Hv Hh. rewrite Delete_unfold. by apply deleteIn_remote_url.
Qed.

(** C2 (amended): every save called without a file object throws the
    error [No file provided], on either backend, and touches neither the
    file system nor the blob store. *)
Theorem save_without_file a this ownerId uuid w :
  Save process a this None ownerId uuid w
  = (Thrown (Error "No file provided"), w).
Proof. by destruct a. Qed.

(** C3 (amended): a local delete reads the reference in three steps (URL
    to path, one leading slash dropped, storage root and category put in
    front) and then looks, in order, at the normalized path, at the
    normalized path below the storage root, at the normalized path once
    more, and at root + category + basename of the normalized path.  The
    first of these that exists is unlinked and the answer tells whether
    the unlink went through; when none exists, or the URL does not parse,
    the answer is [false] and nothing has changed. *)
Theorem delete_local_candidates a this ref w :
  isVercel this = false → ref ≠ "" →
  Delete process a this (Some ref) w
  = match localNormalize (categoryRoot a) ref with
    | None => (Returned false, w)
    | Some localPath =>
        match unlinkFirst (files w)
                (candidatePaths process (categoryRoot a) localPath) with
        | None => (Returned false, w)
        | Some (r, fs') =>
            (Returned (isReturned r), mkWorld fs' (store w) (calls w))
        end
    end.
Proof. intros. rewrite Delete_unfold. by apply deleteIn_local. Qed.

Lemma Delete_returns a this ref w :
  ∃ deleted w', Delete process a this ref w = (Returned deleted, w').
Proof.
  rewrite Delete_unfold. unfold deleteIn, tryCatch at 1.
  match goal with |- context [match ?m w with _ => _ end] =>
    destruct (m w) as [[deleted|e] w'] end; unfold ret; eauto.
Qed.

(** C6: no delete ever throws, on either backend: a URL that does not
    parse, an unlink that fails and a blob client whose every call
    fails all end in the answer [false].  A save, in contrast, throws
    what its backend threw: the error of [put] on the remote backend,
    the error of the directory creation or of the write on the local
    one. *)
Theorem delete_swallows_save_propagates a this :
  (∀ ref w, ∃ deleted w',
      Delete process a this ref w = (Returned deleted, w'))
  ∧ (∀ ref w,
      isVercel this = false → Str.startsWith ref "http" = true →
      urlPathname ref = None →
      Delete process a this (Some ref) w = (Returned false, w))
  ∧ (∀ ref w localPath e fs',
      isVercel this = false → ref ≠ "" →
      localNormalize (categoryRoot a) ref = Some localPath →
      unlinkFirst (files w) (candidatePaths process (categoryRoot a) localPath)
      = Some (Thrown e, fs') →
      Delete process a this (Some ref) w
      = (Returned false, mkWorld fs' (store w) (calls w)))
  ∧ (∀ ref w,
      isVercel this = true → ref ≠ "" →
      (∀ target b, isReturned (blobDel target b).1 = false) →
      ∃ w', Delete process a this (Some ref) w = (Returned false, w'))
  ∧ (∀ file ownerId uuid w e b',
      isVercel this = true →
      blobPut (keyOf a ownerId (uuid +:+ remoteExt file)) (buffer file)
        (putOptions file) (store w) = (Thrown e, b') →
      ∃ w', Save process a this (Some file) ownerId uuid w = (Thrown e, w'))
  ∧ (∀ file ownerId uuid w e fs1,
      isVercel this = false →
      ensureDir (files w) (ownerDir process a ownerId) = (Thrown e, fs1) →
      ∃ w', Save process a this (Some file) ownerId uuid w = (Thrown e, w'))
  ∧ (∀ file ownerId uuid w e fs1 fs2,
      isVercel this = false →
      ensureDir (files w) (ownerDir process a ownerId) = (Returned tt, fs1) →
      Fs.write fs1
        (Path.join [ownerDir process a ownerId; uuid +:+ localExt a file])
        (buffer file) = (Thrown e, fs2) →
      ∃ w', Save process a this (Some file) ownerId uuid w = (Thrown e, w')).
Proof.
  repeat split.
  - apply Delete_returns.
  - intros ref w Hv Hh Hu. rewrite Delete_unfold, deleteIn_local.
    + unfold localNormalize, urlToPath. by rewrite Hh, Hu.
    + done.
    + by eapply startsWith_nonempty.
  - intros ref w localPath e fs' Hv Hne Hn Hu.
    by rewrite Delete_unfold, deleteIn_local, Hn, Hu.
  - intros ref w Hv Hne Hfail. rewrite Delete_unfold.
    destruct (Str.startsWith ref "http") eqn:Hh.
    + rewrite deleteIn_remote_url by done.
      destruct (matchComPath ref) as [key|].
      * pose proof (Hfail key (store w)) as H1.
        destruct (blobDel key (store w)) as [r1 b1]. cbn in H1. rewrite H1.
        pose proof (Hfail ref b1) as H2.
        destruct (blobDel ref b1) as [r2 b2]. cbn in H2. rewrite H2. eauto.
      * pose proof (Hfail ref (store w)) as H2.
        destruct (blobDel ref (store w)) as [r2 b2]. cbn in H2.
        rewrite H2. eauto.
    + rewrite deleteIn_remote_key, Hfail by done. eauto.
  - intros file ownerId uuid w e b' Hv Hp.
    rewrite Save_remote by done. cbv zeta. rewrite Hp. eauto.
  - intros file ownerId uuid w e fs1 Hv He.
    rewrite Save_local by done. cbv zeta. rewrite He. eauto.
  - intros file ownerId uuid w e fs1 fs2 Hv He Hw.
    rewrite Save_local by done. cbv zeta. rewrite He, Hw. eauto.
Qed.

(** C8: a save that succeeds on the local backend answers
    [{category}/[{sub_kind}/]{owner_id}/{uuid}{ext}], which starts
    neither with the storage root nor with a slash, and has written the
    buffer to the file of that name below the owner's directory; a save
    that succeeds on the remote backend has called [put] once, with the
    key of that same layout, the buffer, public access and the file's
    content type, and answers the URL that [put] gave. *)
Theorem save_reference_layout a this file ownerId uuid w ref w' :
  Save process a this (Some file) ownerId uuid w = (Returned ref, w') →
  if isVercel this then
    let key := keyOf a ownerId (uuid +:+ Path.extname (originalname file)) in
    let options := {| access := "public"; contentType := mimetype file |} in
    ∃ b', blobPut key (buffer file) options (store w)
          = (Returned {| url := ref |}, b')
          ∧ w' = mkWorld (files w) b'
                   (calls w ++ [CallPut key (buffer file) options])
  else
    let filename := uuid +:+ localExt a file in
    ref = keyOf a ownerId filename
    ∧ Str.startsWith ref "uploads/" = false
    ∧ Str.startsWith ref "/" = false
    ∧ Fs.stat (files w') (Path.join [ownerDir process a ownerId; filename])
      = Some (File (buffer file))
    ∧ store w' = store w ∧ calls w' = calls w.
Proof.
  destruct (isVercel this) eqn:Hv.
  - rewrite Save_remote by done. cbv zeta.
    fold (remoteExt file). fold (putOptions file).
    destruct (blobPut _ _ _ _) as [[[u]|e] b']; [|done].
    intros [= <- <-]. eauto.
  - rewrite Save_local by done. cbv zeta.
    destruct (ensureDir _ _) as [[[]|e] fs1]; [|done].
    destruct (Fs.write _ _ _) as [[[]|e] fs2] eqn:Hw; [|done].
    intros [= <- <-]. cbn [files store calls].
    apply write_returned in Hw as (_ & Hstat & _).
    pose proof (keyOf_not_rooted a ownerId (uuid +:+ localExt a file)) as [? ?].
    done.
Qed.

(** C5 (amended): the key a save stores under ends with the extension
    of the original file name whenever that name has one, on either
    backend; when the name has none, saving Instagram media on the local
    backend ends the reference with [.mp4] for the file type [video] and
    with [.jpg] for any other. *)
Theorem save_extension a this file ownerId uuid w ref w' :
  Save process a this (Some file) ownerId uuid w = (Returned ref, w') →
  (Path.extname (originalname file) ≠ "" →
     if isVercel this then
       ∃ key, calls w' = calls w ++ [CallPut key (buffer file) (putOptions file)]
              ∧ Str.endsWith key (Path.extname (originalname file)) = true
     else Str.endsWith ref (Path.extname (originalname file)) = true)
  ∧ (Path.extname (originalname file) = "" → isVercel this = false →
     ∀ mediaType fileType, a = InstagramMedia mediaType fileType →
     Str.endsWith ref (if bool_decide (fileType = "video") then ".mp4" else ".jpg")
     = true).
Proof.
  intros Hs. split.
  - intros Hext. destruct (isVercel this) eqn:Hv.
    + rewrite Save_remote in Hs by done. cbv zeta in Hs.
      destruct (blobPut _ _ _ _) as [[blob|e] b']; [|done].
      injection Hs as <- <-. eexists. split; [done|]. apply keyOf_suffix.
    + rewrite Save_local in Hs by done. cbv zeta in Hs.
      destruct (ensureDir _ _) as [[[]|e] fs1]; [|done].
      destruct (Fs.write _ _ _) as [[[]|e] fs2]; [|done].
      injection Hs as <- <-.
      assert (localExt a file = Path.extname (originalname file)) as ->;
        [|apply keyOf_suffix].
      apply truthy_ne in Hext. destruct a; cbn [localExt]; [done| |].
      * destruct (originalname file); [done|]. done.
      * rewrite Hext. by destruct (originalname file).
  - intros Hext Hv mediaType fileType ->.
    rewrite Save_local in Hs by done. cbv zeta in Hs.
    destruct (ensureDir _ _) as [[[]|e] fs1]; [|done].
    destruct (Fs.write _ _ _) as [[[]|e] fs2]; [|done].
    injection Hs as <- <-. rewrite Hext.
    replace (if Str.truthy (originalname file) then _ else _)
      with (if bool_decide (fileType = "video") then ".mp4" else ".jpg")
      by by destruct (Str.truthy _).
    apply (keyOf_suffix (InstagramMedia mediaType fileType)).
Qed.

Lemma ensureDirectoryExists_ensureDir dir w :
  ensureDirectoryExists dir w
  = ((ensureDir (files w) dir).1,
     mkWorld (ensureDir (files w) dir).2 (store w) (calls w)).
Proof.
  unfold ensureDirectoryExists, ensureDir. unfoldM.
  destruct (Fs.exists_ (files w) dir); cbn [negb]; [by destruct w|].
  by destruct (Fs.mkdir (files w) dir) as [[[]|e] fs'].
Qed.

Lemma constructor_remote w :
  env_VERCEL process = Some "1" →
  constructor process w = (Returned (serviceOf process true), w).
Proof.
  intros Hv. unfold constructor. by rewrite bool_decide_eq_true_2.
Qed.

Lemma constructor_local w :
  env_VERCEL process ≠ Some "1" →
  constructor process w
  = let (r1, fs1) := ensureDir (files w) (uploadDir (serviceOf process false)) in
    match r1 with
    | Thrown e => (Thrown e, mkWorld fs1 (store w) (calls w))
    | Returned _ =>
        let (r2, fs2) := ensureDir fs1 (propertyImagesDir (serviceOf process false)) in
        match r2 with
        | Thrown e => (Thrown e, mkWorld fs2 (store w) (calls w))
        | Returned _ =>
            let (r3, fs3) := ensureDir fs2 (profileImagesDir (serviceOf process false)) in
            match r3 with
            | Thrown e => (Thrown e, mkWorld fs3 (store w) (calls w))
            | Returned _ =>
                (Returned (serviceOf process false),
                 mkWorld fs3 (store w) (calls w))
            end
        end
    end.
Proof.
  intros Hv. unfold constructor. rewrite bool_decide_eq_false_2 by done.
  cbn [negb]. unfold bind at 1. rewrite ensureDirectoryExists_ensureDir.
  cbn [serviceOf uploadDir propertyImagesDir profileImagesDir].
  destruct (ensureDir (files w) _) as [[[]|e1] fs1]; cbn [fst snd]; [|done].
  unfold bind at 1. rewrite ensureDirectoryExists_ensureDir. cbn [files store calls].
  destruct (ensureDir fs1 _) as [[[]|e2] fs2]; cbn [fst snd]; [|done].
  unfold bind at 1. rewrite ensureDirectoryExists_ensureDir. cbn [files store calls].
  by destruct (ensureDir fs2 _) as [[[]|e3] fs3].
Qed.

Lemma remote_keeps_files a this file ref ownerId uuid w :
  isVercel this = true →
  files (Save process a this file ownerId uuid w).2 = files w
  ∧ files (Delete process a this ref w).2 = files w.
Proof.
  intros Hv. split.
  - destruct file as [file|]; [|by destruct a].
    rewrite Save_remote by done. cbv zeta.
    by destruct (blobPut _ _ _ _) as [[blob|e] b'].
  - rewrite Delete_unfold. destruct ref as [ref|]; [|done].
    destruct (decide (ref = "")) as [->|Hne]; [done|].
    destruct (Str.startsWith ref "http") eqn:Hh.
    + rewrite deleteIn_remote_url by done.
      destruct (matchComPath ref) as [key|].
      * destruct (blobDel key (store w)) as [r1 b1].
        destruct (isReturned r1); [done|]. by destruct (blobDel ref b1).
      * by destruct (blobDel ref (store w)).
    + by rewrite deleteIn_remote_key.
Qed.

(** The segments of the three paths the constructor makes sure of,
    and of the directory of Instagram media, below an absolute working
    directory. *)
Lemma eagerDirs_resolve :
  Path.isAbsolute (cwd process) = true →
  Fs.resolve <$> eagerDirs process
  = [ Fs.resolve (cwd process) ++ ["uploads"];
      Fs.resolve (cwd process) ++ ["uploads"; "property-images"];
      Fs.resolve (cwd process) ++ ["uploads"; "profile-images"] ].
Proof.
  intros Hc. unfold eagerDirs.
  cbn [fmap list_fmap serviceOf uploadDir propertyImagesDir profileImagesDir].
  assert (Path.isAbsolute (Path.join [cwd process; "uploads"]) = true) as Hu
    by (rewrite join_abs by done; apply canon_absolute).
  rewrite !resolve_join_file by done. by rewrite <- !app_assoc.
Qed.

(** What the constructor leaves on the local backend, whatever its
    outcome. *)
Lemma constructor_footprint w r w' :
  env_VERCEL process ≠ Some "1" →
  constructor process w = (r, w') →
  (∀ k n, files w !! k = Some n → files w' !! k = Some n)
  ∧ (∀ k, files w' !! k = files w !! k
          ∨ (files w !! k = None ∧ files w' !! k = Some Dir
             ∧ ∃ dir, dir ∈ eagerDirs process ∧ k `prefix_of` Fs.resolve dir))
  ∧ store w' = store w ∧ calls w' = calls w.
Proof.
  intros Hv. rewrite constructor_local by done.
  assert (∀ (fs fs' fs'' : Fs.t) dir' r' k,
    ensureDir fs' dir' = (r', fs'') →
    dir' ∈ eagerDirs process →
    (fs' !! k = fs !! k
     ∨ (fs !! k = None ∧ fs' !! k = Some Dir
        ∧ ∃ dir, dir ∈ eagerDirs process ∧ k `prefix_of` Fs.resolve dir)) →
    fs'' !! k = fs !! k
    ∨ (fs !! k = None ∧ fs'' !! k = Some Dir
       ∧ ∃ dir, dir ∈ eagerDirs process ∧ k `prefix_of` Fs.resolve dir))
    as Hstep.
  { intros fs fs' fs'' dir' r' k E Hin [Heq|(Hn & Hd & Hp)].
    - destruct (ensureDir_footprint _ _ _ _ k E) as [Heq'|(Hn' & Hd' & Hp')].
      + left. congruence.
      + right. repeat split; try done; [congruence|eauto].
    - right. repeat split; try done.
      by apply (ensureDir_mono _ _ _ _ _ _ E). }
  assert (uploadDir (serviceOf process false) ∈ eagerDirs process) as Hin1
    by apply list_elem_of_here.
  assert (propertyImagesDir (serviceOf process false) ∈ eagerDirs process)
    as Hin2 by apply list_elem_of_further, list_elem_of_here.
  assert (profileImagesDir (serviceOf process false) ∈ eagerDirs process)
    as Hin3
    by apply list_elem_of_further, list_elem_of_further, list_elem_of_here.
  destruct (ensureDir (files w) _) as [r1 fs1] eqn:E1.
  pose proof (λ k n, ensureDir_mono _ _ _ _ k n E1) as M1.
  pose proof (λ k, Hstep (files w) (files w) fs1 _ r1 k E1 Hin1
                     (or_introl eq_refl)) as F1.
  destruct r1 as [[]|e1]; [|by intros [= <- <-]].
  destruct (ensureDir fs1 _) as [r2 fs2] eqn:E2.
  pose proof (λ k n Hk, ensureDir_mono _ _ _ _ k n E2 (M1 k n Hk)) as M2.
  pose proof (λ k, Hstep (files w) fs1 fs2 _ r2 k E2 Hin2 (F1 k)) as F2.
  destruct r2 as [[]|e2]; [|by intros [= <- <-]].
  destruct (ensureDir fs2 _) as [r3 fs3] eqn:E3.
  pose proof (λ k n Hk, ensureDir_mono _ _ _ _ k n E3 (M2 k n Hk)) as M3.
  pose proof (λ k, Hstep (files w) fs2 fs3 _ r3 k E3 Hin3 (F2 k)) as F3.
  by destruct r3 as [[]|e3]; intros [= <- <-].
Qed.

(** C9 (amended): with [VERCEL] set to [1] the constructor selects the
    remote backend and leaves the file system as it is, and no save or
    delete of a service on the remote backend changes the file system
    either.  Otherwise the constructor selects the local backend and makes
    sure of three paths: the upload root and the directories of property
    images and of profile images.  Whatever its outcome, what was there
    is still there, unchanged, and whatever is new is a directory on the
    way to one of the three; in particular, below an absolute working
    directory, the directory of Instagram media is not made.  When it
    returns, each of the three is a directory, unless a file stood at
    that path, which is left as it is; and running it again, or running
    it where the three already exist, changes nothing and throws
    nothing. *)
Theorem constructor_selects_backend w :
  (env_VERCEL process = Some "1" →
     constructor process w = (Returned (serviceOf process true), w)
     ∧ ∀ a file ref ownerId uuid w0,
         files (Save process a (serviceOf process true) file ownerId uuid w0).2
         = files w0
         ∧ files (Delete process a (serviceOf process true) ref w0).2 = files w0)
  ∧ (env_VERCEL process ≠ Some "1" →
     (∀ r w', constructor process w = (r, w') →
        (∀ k n, files w !! k = Some n → files w' !! k = Some n)
        ∧ (∀ k, files w' !! k = files w !! k
                ∨ (files w !! k = None ∧ files w' !! k = Some Dir
                   ∧ ∃ dir, dir ∈ eagerDirs process
                            ∧ k `prefix_of` Fs.resolve dir))
        ∧ (Path.isAbsolute (cwd process) = true →
           files w' !! (Fs.resolve (cwd process)
                          ++ ["uploads"; "instagram-media"])
           = files w !! (Fs.resolve (cwd process)
                           ++ ["uploads"; "instagram-media"]))
        ∧ store w' = store w ∧ calls w' = calls w
        ∧ ∀ this, r = Returned this →
            this = serviceOf process false
            ∧ Forall (λ dir,
                        Fs.stat (files w') dir = Some Dir
                        ∨ ∃ data, Fs.stat (files w) dir = Some (File data)
                                  ∧ Fs.stat (files w') dir = Some (File data))
                (eagerDirs process)
            ∧ constructor process w' = (Returned this, w'))
     ∧ (Forall (λ dir, Fs.exists_ (files w) dir = true) (eagerDirs process) →
        constructor process w = (Returned (serviceOf process false), w))).
Proof.
  split.
  { intros Hv. split; [by apply constructor_remote|].
    intros. by apply remote_keeps_files. }
  intros Hv.
  assert (∀ w0, Forall (λ dir, Fs.exists_ (files w0) dir = true) (eagerDirs process) →
                constructor process w0 = (Returned (serviceOf process false), w0))
    as Hidle.
  { intros w0 Hall. unfold eagerDirs in Hall.
    inversion Hall as [|? ? Hd1 Hall2]; inversion Hall2 as [|? ? Hd2 Hall3];
      inversion Hall3 as [|? ? Hd3 _]; subst.
    rewrite constructor_local by done.
    cbn [serviceOf uploadDir propertyImagesDir profileImagesDir] in *.
    rewrite (ensureDir_idle _ _ Hd1), (ensureDir_idle _ _ Hd2),
      (ensureDir_idle _ _ Hd3). by destruct w0. }
  split; [|apply Hidle].
  intros r w' Hrun.
  destruct (constructor_footprint w r w' Hv Hrun) as (Hmono & Hfoot & Hst & Hca).
  split; [done|]. split; [done|]. split.
  { intros Hc.
    destruct (Hfoot (Fs.resolve (cwd process) ++ ["uploads"; "instagram-media"]))
      as [Heq|(_ & _ & dir & Hin & Hp)]; [done|exfalso].
    apply (list_elem_of_fmap_2 Fs.resolve) in Hin.
    rewrite eagerDirs_resolve in Hin by done.
    rewrite !elem_of_cons in Hin.
    destruct Hin as [Hr|[Hr|[Hr|Hin]]]; [..|by apply elem_of_nil in Hin];
      rewrite Hr in Hp.
    - apply prefix_length in Hp. rewrite !List.length_app in Hp. cbn in Hp. lia.
    - apply prefix_app_inv in Hp. by apply prefix_cons_inv_2, prefix_cons_inv_1 in Hp.
    - apply prefix_app_inv in Hp. by apply prefix_cons_inv_2, prefix_cons_inv_1 in Hp. }
  split; [done|]. split; [done|].
  intros this ->. revert Hrun. rewrite constructor_local by done.
  destruct (ensureDir (files w) _) as [[[]|e1] fs1] eqn:E1; [|done].
  destruct (ensureDir fs1 _) as [[[]|e2] fs2] eqn:E2; [|done].
  destruct (ensureDir fs2 _) as [[[]|e3] fs3] eqn:E3; [|done].
  intros [= <- <-]. cbn [files store calls]. split; [done|].
  pose proof (λ k n, ensureDir_mono _ _ _ _ k n E1) as M1.
  pose proof (λ k n, ensureDir_mono _ _ _ _ k n E2) as M2.
  pose proof (λ k n, ensureDir_mono _ _ _ _ k n E3) as M3.
  assert (Forall (λ dir, Fs.stat fs3 dir = Some Dir
                         ∨ ∃ data, Fs.stat (files w) dir = Some (File data)
                                   ∧ Fs.stat fs3 dir = Some (File data))
            (eagerDirs process)) as Hdirs.
  { unfold eagerDirs.
    constructor; [|constructor; [|constructor; [|constructor]]].
    - destruct (ensureDir_stat _ _ _ (join_truthy _) E1) as [Hd|(data & Hf & ->)].
      + left. eapply stat_mono; [exact M3|]. by eapply stat_mono; [exact M2|].
      + right. exists data. split; [done|].
        eapply stat_mono; [exact M3|]. by eapply stat_mono; [exact M2|].
    - destruct (ensureDir_stat _ _ _ (join_truthy _) E2) as [Hd|(data & Hf & ->)].
      + left. by eapply stat_mono; [exact M3|].
      + right. exists data. split.
        * by eapply ensureDir_stat_file.
        * by eapply stat_mono; [exact M3|].
    - destruct (ensureDir_stat _ _ _ (join_truthy _) E3) as [Hd|(data & Hf & ->)].
      + by left.
      + right. exists data. split; [|done].
        eapply ensureDir_stat_file; [exact E1|].
        by eapply ensureDir_stat_file. }
  split; [done|].
  apply (Hidle (mkWorld fs3 (store w) (calls w))). cbn [files].
  eapply Forall_impl; [exact Hdirs|]. cbn.
  intros dir [Hd|(data & _ & Hd)]; unfold Fs.exists_; by rewrite Hd.
Qed.

(** *** A reference that was saved can be deleted, once *)

Lemma ownerDir_join a ownerId :
  ownerDir process a ownerId = Path.join (cwd process :: dirArgs a ownerId).
Proof. by destruct a. Qed.

Lemma localExt_no_sep a file : Str.mem Path.sep (localExt a file) = false.
Proof.
  destruct a; cbn [localExt]; repeat case_match; try done;
    apply extname_no_sep.
Qed.

Lemma split_rooted_key a ownerId f :
  Str.mem Path.sep f = false →
  Str.split Path.sep ("uploads/" +:+ keyOf a ownerId f)
  = flat_map (Str.split Path.sep) (dirArgs a ownerId) ++ [f].
Proof.
  intros Hf. destruct a; cbn [keyOf dirArgs flat_map].
  - change ("uploads/" +:+ "profile-images/" +:+ ownerId +:+ "/" +:+ f)
      with ("uploads" +:+ String Path.sep
              ("profile-images" +:+ String Path.sep (ownerId +:+ String Path.sep f))).
    rewrite !split_app, (split_plain _ f Hf). cbn.
    by rewrite List.app_nil_r.
  - change ("uploads/" +:+ "property-images/" +:+ ownerId +:+ "/" +:+ f)
      with ("uploads" +:+ String Path.sep
              ("property-images" +:+ String Path.sep (ownerId +:+ String Path.sep f))).
    rewrite !split_app, (split_plain _ f Hf). cbn.
    by rewrite List.app_nil_r.
  - change ("uploads/" +:+ "instagram-media/" +:+ mediaType +:+ "/" +:+ ownerId +:+ "/" +:+ f)
      with ("uploads" +:+ String Path.sep
              ("instagram-media" +:+ String Path.sep
                 (mediaType +:+ String Path.sep (ownerId +:+ String Path.sep f)))).
    rewrite !split_app, (split_plain _ f Hf). cbn.
    by rewrite List.app_nil_r, <- app_assoc.
Qed.

Lemma ownerDir_absolute a ownerId :
  Path.isAbsolute (cwd process) = true →
  Path.isAbsolute (ownerDir process a ownerId) = true.
Proof.
  intros Hc. rewrite ownerDir_join, join_abs by done. apply canon_absolute.
Qed.

(** The path a local save writes to is the first path a local delete of
    the answered reference looks at. *)
Lemma local_paths_agree a ownerId f :
  Path.isAbsolute (cwd process) = true → plainName f →
  Path.join [cwd process; "uploads/" +:+ keyOf a ownerId f]
  = Path.join [ownerDir process a ownerId; f].
Proof.
  intros Hc Hf. pose proof Hf as (_ & _ & _ & Hm).
  pose proof (join_ends_plain (cwd process) [] _ _ f Hc Hf
                (split_rooted_key a ownerId f Hm)) as E1.
  pose proof (join_ends_plain (ownerDir process a ownerId) [] f [] f
                (ownerDir_absolute a ownerId Hc) Hf (split_plain _ f Hm)) as E2.
  cbn [app] in E1, E2. rewrite E1, E2.
  do 2 f_equal. cbn [flat_map]. rewrite !List.app_nil_r.
  rewrite <- (rev_involutive (Path.normSegs false [] (Str.split Path.sep (ownerDir process a ownerId)))).
  fold (Fs.resolve (ownerDir process a ownerId)).
  rewrite ownerDir_join, resolve_join_abs by done.
  by rewrite rev_involutive.
Qed.

Lemma keyOf_local_normalize a ownerId f :
  localNormalize (categoryRoot a) (keyOf a ownerId f)
  = Some ("uploads/" +:+ keyOf a ownerId f).
Proof.
  unfold localNormalize, urlToPath, stripLeadingSlash, rootQualify.
  assert (Str.startsWith (keyOf a ownerId f) "http" = false) as ->
    by by destruct a.
  destruct (keyOf_not_rooted a ownerId f) as [Hu Hs].
  cbn [fmap option_fmap option_map compose]. rewrite Hs, Hu. cbn [negb].
  assert (Str.startsWith (keyOf a ownerId f) (categoryRoot a +:+ "/") = true)
    as ->; [|done].
  destruct a; cbn [keyOf categoryRoot].
  - exact (prefix_app "profile-images/" _).
  - exact (prefix_app "property-images/" _).
  - exact (prefix_app "instagram-media/" _).
Qed.

Lemma keyOf_nonempty a ownerId f : keyOf a ownerId f ≠ "".
Proof. by destruct a. Qed.

(** Every place a local delete of a saved reference looks at bears the
    saved file's name. *)
Lemma candidate_last a ownerId f p :
  Path.isAbsolute (cwd process) = true → plainName f →
  p ∈ candidatePaths process (categoryRoot a) ("uploads/" +:+ keyOf a ownerId f) →
  last (Fs.resolve p) = Some f.
Proof.
  intros Hc Hf Hp. pose proof Hf as (Hne & _ & _ & Hm).
  pose proof (split_rooted_key a ownerId f Hm) as Hs.
  assert (basenameOf ("uploads/" +:+ keyOf a ownerId f) = f) as Hb.
  { unfold basenameOf, Str.pop.
    change (Str.split "/" ?x) with (Str.split Path.sep x).
    rewrite Hs, last_snoc. by destruct f. }
  unfold candidatePaths in Hp. rewrite Hb in Hp.
  rewrite !elem_of_cons in Hp.
  destruct Hp as [->|[->|[->|[->|Hp]]]].
  - by apply (join_ends_plain_last _ [] _ _ f Hc Hf Hs).
  - by apply (join_ends_plain_last _ ["uploads"] _ _ f Hc Hf Hs).
  - by apply (join_ends_plain_last _ [] _ _ f Hc Hf Hs).
  - by apply (join_ends_plain_last _ ["uploads"; categoryRoot a] _ [] f Hc Hf
                (split_plain _ f Hm)).
  - by apply elem_of_nil in Hp.
Qed.

Lemma stat_file fs p data :
  Fs.stat fs p = Some (File data) → fs !! Fs.resolve p = Some (File data).
Proof.
  unfold Fs.stat, Fs.node. destruct (Str.truthy p); cbn [negb]; [|done].
  destruct (Fs.resolve p); [done|]. by repeat case_match; simplify_eq.
Qed.

Lemma save_delete_local a this file ownerId uuid w ref w1 :
  isVercel this = false →
  Path.isAbsolute (cwd process) = true → validUuid uuid = true →
  freshUuid uuid (files w) →
  Save process a this (Some file) ownerId uuid w = (Returned ref, w1) →
  ∃ w2, Delete process a this (Some ref) w1 = (Returned true, w2)
        ∧ ∃ w3, Delete process a this (Some ref) w2 = (Returned false, w3).
Proof.
  intros Hv Hc Hu Hfresh Hs.
  rewrite Save_local in Hs by done. cbv zeta in Hs.
  destruct (ensureDir _ _) as [[[]|e1] fs1] eqn:E1; [|done].
  destruct (Fs.write _ _ _) as [[[]|e2] fs2] eqn:Ew; [|done].
  injection Hs as <- <-.
  set (f := uuid +:+ localExt a file) in *.
  assert (plainName f) as Hf
    by apply (validUuid_plain _ _ Hu (localExt_no_sep a file)).
  set (P := Path.join [ownerDir process a ownerId; f]) in *.
  apply write_returned in Ew as (Hfs2 & Hstat & _).
  (* the first delete *)
  rewrite Delete_unfold, deleteIn_local by (done || apply keyOf_nonempty).
  rewrite keyOf_local_normalize. cbn [files store calls].
  unfold unlinkFirst at 1, candidatePaths at 1. cbn [List.find].
  rewrite local_paths_agree by done. fold P.
  assert (Fs.exists_ fs2 P = true) as -> by (unfold Fs.exists_; by rewrite Hstat).
  cbn [fmap option_fmap option_map]. unfold Fs.unlink at 1. rewrite Hstat.
  eexists. split; [reflexivity|]. cbn [isReturned].
  (* the second delete *)
  rewrite deleteIn_local by (done || apply keyOf_nonempty).
  rewrite keyOf_local_normalize. cbn [files store calls].
  set (fs3 := delete (Fs.resolve P) fs2).
  destruct (unlinkFirst fs3 _) as [[r fs']|] eqn:EU; [|eauto].
  unfold unlinkFirst in EU.
  destruct (List.find _ _) as [p|] eqn:Efind; [|done].
  apply find_some in Efind as [Hin Hex]. apply list_elem_of_In in Hin.
  pose proof (candidate_last a ownerId f p Hc Hf Hin) as Hlast.
  cbn in EU. unfold Fs.unlink in EU.
  destruct (Fs.stat fs3 p) as [[data|]|] eqn:Hst;
    [|injection EU as <- <-; eauto..].
  exfalso. apply stat_file in Hst. unfold fs3 in Hst.
  destruct (decide (Fs.resolve P = Fs.resolve p)) as [Heq|Hne].
  - by rewrite Heq, lookup_delete_eq in Hst.
  - rewrite lookup_delete_ne, Hfs2, lookup_insert_ne in Hst by done.
    eapply ensureDir_files in Hst; [|exact E1].
    specialize (Hfresh _ _ _ Hst Hlast). unfold f in Hfresh.
    by rewrite prefix_app in Hfresh.
Qed.

Lemma save_delete_remote (contract : BlobContract B)
  a this file ownerId uuid w ref w1 :
  isVercel this = true →
  Save process a this (Some file) ownerId uuid w = (Returned ref, w1) →
  ∃ w2, Delete process a this (Some ref) w1 = (Returned true, w2)
        ∧ ∃ w3, Delete process a this (Some ref) w2 = (Returned false, w3).
Proof.
  intros Hv Hs. rewrite Save_remote in Hs by done. cbv zeta in Hs.
  destruct (blobPut _ _ _ _) as [[blob|e] b1] eqn:Eput; [|done].
  injection Hs as <- <-.
  apply (put_holds contract) in Eput as [Hh Hheld].
  rewrite !Delete_unfold.
  rewrite deleteIn_remote_url by done. cbn [files store calls].
  destruct (matchComPath (url blob)) as [key|] eqn:Em.
  - destruct (del_holds contract b1 (url blob) key Hheld) as (b2 & -> & Hg);
      [by right|].
    cbn [isReturned]. eexists. split; [reflexivity|].
    rewrite deleteIn_remote_url, Em by done. cbn [files store calls].
    destruct (del_gone contract b2 (url blob) key Hg) as (e1 & b3 & -> & Hg3);
      [by right|].
    destruct (del_gone contract b3 (url blob) (url blob) Hg3) as (e2 & b4 & -> & _);
      [by left|].
    cbn [isReturned]. eauto.
  - destruct (del_holds contract b1 (url blob) (url blob) Hheld) as (b2 & -> & Hg);
      [by left|].
    cbn [isReturned]. eexists. split; [reflexivity|].
    rewrite deleteIn_remote_url, Em by done. cbn [files store calls].
    destruct (del_gone contract b2 (url blob) (url blob) Hg) as (e2 & b4 & -> & _);
      [by left|].
    cbn [isReturned]. eauto.
Qed.

(** On the remote backend the answer of a delete is the outcome of the
    last call of [del] it made. *)
Lemma delete_remote_answer a this ref deleted w w' :
  isVercel this = true → ref ≠ "" →
  Delete process a this (Some ref) w = (Returned deleted, w') →
  ∃ target b r,
    last (calls w') = Some (CallDel target)
    ∧ blobDel target b = (r, store w')
    ∧ deleted = isReturned r.
Proof.
  intros Hv Hne. rewrite Delete_unfold.
  destruct (Str.startsWith ref "http") eqn:Hh.
  - rewrite deleteIn_remote_url by done.
    destruct (matchComPath ref) as [key|].
    + destruct (blobDel key (store w)) as [r1 b1] eqn:E1.
      destruct (isReturned r1) eqn:Er.
      * intros [= <- <-]. exists key, (store w), r1. cbn [calls store].
        by rewrite last_snoc.
      * destruct (blobDel ref b1) as [r2 b2] eqn:E2.
        intros [= <- <-]. exists ref, b1, r2. cbn [calls store].
        by rewrite last_app.
    + destruct (blobDel ref (store w)) as [r2 b2] eqn:E2.
      intros [= <- <-]. exists ref, (store w), r2. cbn [calls store].
      by rewrite last_snoc.
  - rewrite deleteIn_remote_key by done. cbv zeta.
    set (key := if Str.startsWith ref "/" then _ else _).
    intros [= <- <-]. exists key, (store w), (blobDel key (store w)).1.
    cbn [calls store]. rewrite last_snoc. by destruct (blobDel key (store w)).
Qed.

(** C1 (amended): when a save returns a reference, for every asset
    category.  On the local backend (absolute working directory, fresh
    identifier) the matching delete of that reference answers [true],
    and the same delete once more answers [false].  On the remote
    backend the answer of a delete is the outcome of its last call of
    [del]: [true] when it returned, [false] when it threw.  So the
    first delete answers [true] and the second [false] for a blob store
    that keeps what was put until it is deleted and whose [del] throws
    on a blob that is gone; nothing in the service makes the second
    answer [false] when [del] returns. *)
Theorem save_then_delete_twice a this file ownerId uuid w ref w1 :
  Save process a this (Some file) ownerId uuid w = (Returned ref, w1) →
  (isVercel this = false →
     Path.isAbsolute (cwd process) = true → validUuid uuid = true →
     freshUuid uuid (files w) →
     ∃ w2, Delete process a this (Some ref) w1 = (Returned true, w2)
           ∧ ∃ w3, Delete process a this (Some ref) w2 = (Returned false, w3))
  ∧ (isVercel this = true →
     (∀ w2 deleted w3,
        ref ≠ "" →
        Delete process a this (Some ref) w2 = (Returned deleted, w3) →
        ∃ target b r,
          last (calls w3) = Some (CallDel target)
          ∧ blobDel target b = (r, store w3)
          ∧ deleted = isReturned r)
     ∧ (BlobContract B →
        ∃ w2, Delete process a this (Some ref) w1 = (Returned true, w2)
              ∧ ∃ w3, Delete process a this (Some ref) w2
                      = (Returned false, w3))).
Proof.
  intros Hs. split.
  - intros Hv Hc Hu Hfresh. by eapply save_delete_local.
  - intros Hv. split.
    + intros w2 deleted w3 Hne Hd. by eapply delete_remote_answer.
    + intros contract. by eapply save_delete_remote.
Qed.

End Facts.

(** * The example store keeps the contract *)

Section DemoStore.
#[local] Existing Instances Demo.memStore.

Lemma demo_keyOfRef_url k : Demo.keyOfRef (Demo.host +:+ k) = k.
Proof.
  unfold Demo.keyOfRef. by rewrite (prefix_app Demo.host k), drop_app.
Qed.

Lemma startsWith_weaken s p q :
  Str.startsWith s (p +:+ q) = true → Str.startsWith s p = true.
Proof.
  unfold Str.startsWith. revert s.
  induction p as [|x p IH]; intros s; [by destruct s|].
  rewrite sapp_cons. destruct s as [|y s]; cbn; [done|].
  destruct (ascii_dec x y); [apply IH|done].
Qed.

Lemma demo_keyOfRef_key k : Demo.validPathname k = true → Demo.keyOfRef k = k.
Proof.
  unfold Demo.validPathname, Demo.keyOfRef.
  intros [_ Hh%negb_true_iff]%andb_prop.
  destruct (Str.startsWith k Demo.host) eqn:E; [|done].
  apply (startsWith_weaken k "http" "s://store.public.blob.vercel-storage.com/") in E.
  congruence.
Qed.

Lemma demo_match_url k :
  Demo.validPathname k = true → matchComPath (Demo.host +:+ k) = Some k.
Proof.
  unfold Demo.validPathname. intros [[Ht Hn]%andb_prop _]%andb_prop.
  destruct k as [|c r]; [done|].
  unfold Demo.host. cbv [append]. cbn -[noLineTerminator].
  by rewrite Hn.
Qed.

Lemma demoContract : BlobContract (gmap string (list Byte.byte)).
Proof.
  refine {|
    holds b u := ∃ k, u = Demo.host +:+ k ∧ Demo.validPathname k = true
                      ∧ is_Some (b !! k);
    gone b u := ∃ k, u = Demo.host +:+ k ∧ Demo.validPathname k = true
                     ∧ b !! k = None
  |}.
  - intros key body options b blob b'. cbn.
    destruct (Demo.validPathname key) eqn:Hk; [|done].
    intros [= <- <-]. cbn. split; [done|].
    exists key. by rewrite lookup_insert_eq.
  - intros b u target (k & -> & Hk & [v Hv]) Ht.
    assert (Demo.keyOfRef target = k) as Hkey.
    { destruct Ht as [->|Hm]; [apply demo_keyOfRef_url|].
      rewrite demo_match_url in Hm by done. injection Hm as <-.
      by apply demo_keyOfRef_key. }
    cbn. rewrite Hkey, Hv. eexists. split; [done|].
    exists k. by rewrite lookup_delete_eq.
  - intros b u target (k & -> & Hk & Hv) Ht.
    assert (Demo.keyOfRef target = k) as Hkey.
    { destruct Ht as [->|Hm]; [apply demo_keyOfRef_url|].
      rewrite demo_match_url in Hm by done. injection Hm as <-.
      by apply demo_keyOfRef_key. }
    cbn. rewrite Hkey, Hv. do 2 eexists. split; [done|]. by exists k.
Qed.

End DemoStore.

(** * The statements at work on the example machine *)

Section Witnesses.
#[local] Existing Instances Demo.memStore Demo.plainUrls.

Lemma delete_remote_bare_key_witness :
  Delete (Demo.proc (Some "1")) ProfileImage (Demo.service true)
    (Some "/profile-images/u1/a.jpg") Demo.world
  = (Returned true,
     mkWorld (files Demo.world) ∅ [CallDel "profile-images/u1/a.jpg"])
  ∧ Delete (Demo.proc (Some "1")) ProfileImage (Demo.service true)
      (Some "profile-images/u1/none.jpg") Demo.world
    = (Returned false,
       mkWorld (files Demo.world) (store Demo.world)
         [CallDel "profile-images/u1/none.jpg"]).
Proof.
  split.
  - vm_cast_no_check
      (delete_remote_bare_key (Demo.proc (Some "1")) ProfileImage
         (Demo.service true) "/profile-images/u1/a.jpg" Demo.world
         eq_refl ltac:(discriminate) eq_refl).
  - vm_cast_no_check
      (delete_remote_bare_key (Demo.proc (Some "1")) ProfileImage
         (Demo.service true) "profile-images/u1/none.jpg" Demo.world
         eq_refl ltac:(discriminate) eq_refl).
Defined.

Lemma delete_remote_url_attempts_witness :
  Delete (Demo.proc (Some "1")) ProfileImage (Demo.service true)
    (Some "https://store.public.blob.vercel-storage.com/profile-images/u1/a.jpg")
    Demo.world
  = (Returned true,
     mkWorld (files Demo.world) ∅ [CallDel "profile-images/u1/a.jpg"])
  ∧ Delete (Demo.proc (Some "1")) ProfileImage (Demo.service true)
      (Some "https://store.public.blob.vercel-storage.com/profile-images/u1/b.jpg")
      Demo.world
    = (Returned false,
       mkWorld (files Demo.world) (store Demo.world)
         [CallDel "profile-images/u1/b.jpg";
          CallDel "https://store.public.blob.vercel-storage.com/profile-images/u1/b.jpg"])
  ∧ Delete (Demo.proc (Some "1")) ProfileImage (Demo.service true)
      (Some "http://localhost:3000/uploads/none.jpg") Demo.world
    = (Returned false,
       mkWorld (files Demo.world) (store Demo.world)
         [CallDel "http://localhost:3000/uploads/none.jpg"]).
Proof.
  refine (conj _ (conj _ _)).
  - vm_cast_no_check
      (delete_remote_url_attempts (Demo.proc (Some "1")) ProfileImage
         (Demo.service true)
         "https://store.public.blob.vercel-storage.com/profile-images/u1/a.jpg"
         Demo.world eq_refl eq_refl).
  - vm_cast_no_check
      (delete_remote_url_attempts (Demo.proc (Some "1")) ProfileImage
         (Demo.service true)
         "https://store.public.blob.vercel-storage.com/profile-images/u1/b.jpg"
         Demo.world eq_refl eq_refl).
  - vm_cast_no_check
      (delete_remote_url_attempts (Demo.proc (Some "1")) ProfileImage
         (Demo.service true) "http://localhost:3000/uploads/none.jpg"
         Demo.world eq_refl eq_refl).
Defined.

(** C4, the claim as stated fails: for a URL with no [.com/] no key is
    recovered and no deletion is attempted against one.  The store holds
    the blob [profile-images/u1/a.jpg]; the delete of its URL on another
    host calls [del] once, on the URL, answers [false] and leaves the
    blob. *)
Lemma delete_remote_url_without_key :
  (matchComPath "http://localhost:3000/profile-images/u1/a.jpg",
   store Demo.world !! "profile-images/u1/a.jpg",
   Delete (Demo.proc (Some "1")) ProfileImage (Demo.service true)
     (Some "http://localhost:3000/profile-images/u1/a.jpg") Demo.world)
  = (None,
     Some [Byte.x03],
     (Returned false,
      mkWorld (files Demo.world) (store Demo.world)
        [CallDel "http://localhost:3000/profile-images/u1/a.jpg"])).
Proof. by_evaluation. Qed.

(** C2, the claim as stated fails: a file object whose buffer is empty is
    saved like any other; here an empty file is written on the local
    backend and its reference is returned. *)
Lemma save_accepts_empty_buffer :
  let file := {| originalname := "a.jpg"; mimetype := "image/jpeg"; buffer := [] |} in
  let saved := Save (Demo.proc None) ProfileImage (Demo.service false)
                 (Some file) "u1" Demo.uuid1 Demo.world in
  (saved.1,
   files saved.2 !! ["srv"; "app"; "uploads"; "profile-images"; "u1";
                     "9b2f6c1e-3a4d-4f70-8c21-5d6e7f8a9b0c.jpg"])
  = (Returned "profile-images/u1/9b2f6c1e-3a4d-4f70-8c21-5d6e7f8a9b0c.jpg",
     Some (File [])).
Proof. cbv zeta. by_evaluation. Qed.

(** C3, the claim as stated fails: for the reference [x.jpg] the
    root-qualified original input, [uploads/x.jpg] under the working
    directory, exists, and is the first existing place in the list the
    specification gives; the delete does not look there and answers
    [false], leaving the file. *)
Lemma delete_local_skips_original_input :
  (localNormalize "property-images" "x.jpg",
   List.find (Fs.exists_ (files Demo.world))
     (specCandidatePaths (Demo.proc None) "property-images" "x.jpg"
        "uploads/property-images/x.jpg"),
   Delete (Demo.proc None) (PropertyImage "post") (Demo.service false)
     (Some "x.jpg") Demo.world)
  = (Some "uploads/property-images/x.jpg",
     Some "/srv/app/uploads/x.jpg",
     (Returned false, Demo.world)).
Proof. by_evaluation. Qed.

Lemma delete_local_candidates_witness :
  Delete (Demo.proc None) ProfileImage (Demo.service false)
    (Some "http://localhost:3000/profile-images/u1/old.jpg") Demo.world
  = (Returned true,
     mkWorld
       (delete ["srv"; "app"; "uploads"; "profile-images"; "u1"; "old.jpg"]
          (files Demo.world))
       (store Demo.world) [])
  ∧ Delete (Demo.proc None) ProfileImage (Demo.service false)
      (Some "old.jpg") Demo.world
    = (Returned false, Demo.world).
Proof.
  split.
  - vm_cast_no_check
      (delete_local_candidates (Demo.proc None) ProfileImage
         (Demo.service false)
         "http://localhost:3000/profile-images/u1/old.jpg" Demo.world
         eq_refl ltac:(discriminate)).
  - vm_cast_no_check
      (delete_local_candidates (Demo.proc None) ProfileImage
         (Demo.service false) "old.jpg" Demo.world
         eq_refl ltac:(discriminate)).
Defined.

(** C5, the claim as stated fails: a profile image named [avatar] is
    stored on the local backend under a name with no extension, and a
    video named [clip] is put on the remote backend under a key with no
    extension. *)
Lemma save_without_extension_gets_none :
  ((Save (Demo.proc None) ProfileImage (Demo.service false)
      (Some (Demo.jpeg "avatar")) "u1" Demo.uuid1 Demo.world).1,
   Str.endsWith "profile-images/u1/9b2f6c1e-3a4d-4f70-8c21-5d6e7f8a9b0c" ".jpg",
   calls (Save (Demo.proc (Some "1")) (InstagramMedia "reel" "video")
            (Demo.service true) (Some (Demo.jpeg "clip")) "u1" Demo.uuid1
            Demo.world).2,
   Str.endsWith "instagram-media/reel/u1/9b2f6c1e-3a4d-4f70-8c21-5d6e7f8a9b0c" ".mp4")
  = (Returned "profile-images/u1/9b2f6c1e-3a4d-4f70-8c21-5d6e7f8a9b0c",
     false,
     [CallPut "instagram-media/reel/u1/9b2f6c1e-3a4d-4f70-8c21-5d6e7f8a9b0c"
        (buffer (Demo.jpeg "clip")) (putOptions (Demo.jpeg "clip"))],
     false).
Proof. by_evaluation. Qed.

Lemma freshUuid_check (uuid : string) (fs : Fs.t) :
  map_Forall (λ (segs : list string) (n : Node), freshAt uuid segs n = true) fs →
  freshUuid uuid fs.
Proof.
  intros Hall segs data name Hl Hlast. specialize (Hall _ _ Hl).
  unfold freshAt in Hall. rewrite Hlast in Hall. by apply negb_true_iff.
Qed.

Lemma demo_world_fresh : freshUuid Demo.uuid1 (files Demo.world).
Proof.
  apply freshUuid_check. apply (bool_decide_unpack _). by_evaluation_true.
Qed.

Lemma save_then_delete_twice_witness :
  (∃ w2, Delete (Demo.proc None) ProfileImage (Demo.service false)
           (Some "profile-images/u1/9b2f6c1e-3a4d-4f70-8c21-5d6e7f8a9b0c.jpg")
           (Save (Demo.proc None) ProfileImage (Demo.service false)
              (Some (Demo.jpeg "me.jpg")) "u1" Demo.uuid1 Demo.world).2
         = (Returned true, w2)
         ∧ ∃ w3, Delete (Demo.proc None) ProfileImage (Demo.service false)
                   (Some "profile-images/u1/9b2f6c1e-3a4d-4f70-8c21-5d6e7f8a9b0c.jpg")
                   w2 = (Returned false, w3))
  ∧ (∃ w2, Delete (Demo.proc (Some "1")) (InstagramMedia "reel" "video")
             (Demo.service true)
             (Some "https://store.public.blob.vercel-storage.com/instagram-media/reel/u1/9b2f6c1e-3a4d-4f70-8c21-5d6e7f8a9b0c.mp4")
             (Save (Demo.proc (Some "1")) (InstagramMedia "reel" "video")
                (Demo.service true) (Some (Demo.jpeg "clip.mp4")) "u1"
                Demo.uuid1 Demo.world).2
           = (Returned true, w2)
           ∧ ∃ w3, Delete (Demo.proc (Some "1")) (InstagramMedia "reel" "video")
                     (Demo.service true)
                     (Some "https://store.public.blob.vercel-storage.com/instagram-media/reel/u1/9b2f6c1e-3a4d-4f70-8c21-5d6e7f8a9b0c.mp4")
                     w2 = (Returned false, w3)).
Proof.
  split.
  - refine (proj1 (save_then_delete_twice (Demo.proc None) ProfileImage
                     (Demo.service false) (Demo.jpeg "me.jpg") "u1" Demo.uuid1
                     Demo.world _ _ _) _ _ _ demo_world_fresh);
      by_evaluation.
  - refine (proj2 (proj2 (save_then_delete_twice (Demo.proc (Some "1"))
                            (InstagramMedia "reel" "video") (Demo.service true)
                            (Demo.jpeg "clip.mp4") "u1" Demo.uuid1
                            Demo.world _ _ _) _) demoContract);
      by_evaluation.
Defined.

Lemma save_reference_layout_witness :
  ("instagram-media/story/u7/9b2f6c1e-3a4d-4f70-8c21-5d6e7f8a9b0c.png"
   = keyOf (InstagramMedia "story" "image") "u7"
       (Demo.uuid1 +:+ localExt (InstagramMedia "story" "image") (Demo.jpeg "sun.png"))
   ∧ Str.startsWith "instagram-media/story/u7/9b2f6c1e-3a4d-4f70-8c21-5d6e7f8a9b0c.png"
       "uploads/" = false
   ∧ Str.startsWith "instagram-media/story/u7/9b2f6c1e-3a4d-4f70-8c21-5d6e7f8a9b0c.png"
       "/" = false
   ∧ Fs.stat
       (files (Save (Demo.proc None) (InstagramMedia "story" "image")
                 (Demo.service false) (Some (Demo.jpeg "sun.png")) "u7"
                 Demo.uuid1 Demo.world).2)
       (Path.join [ownerDir (Demo.proc None) (InstagramMedia "story" "image") "u7";
                   Demo.uuid1 +:+ localExt (InstagramMedia "story" "image") (Demo.jpeg "sun.png")])
     = Some (File (buffer (Demo.jpeg "sun.png"))))
  ∧ (∃ b', blobPut "property-images/p3/9b2f6c1e-3a4d-4f70-8c21-5d6e7f8a9b0c.jpg"
             (buffer (Demo.jpeg "house.jpg"))
             {| access := "public"; contentType := "image/jpeg" |}
             (store Demo.world)
           = (Returned {| url := "https://store.public.blob.vercel-storage.com/property-images/p3/9b2f6c1e-3a4d-4f70-8c21-5d6e7f8a9b0c.jpg" |}, b')).
Proof.
  split.
  - destruct (save_reference_layout (Demo.proc None) (InstagramMedia "story" "image")
                (Demo.service false) (Demo.jpeg "sun.png") "u7" Demo.uuid1 Demo.world
                "instagram-media/story/u7/9b2f6c1e-3a4d-4f70-8c21-5d6e7f8a9b0c.png"
                (Save (Demo.proc None) (InstagramMedia "story" "image")
                   (Demo.service false) (Some (Demo.jpeg "sun.png")) "u7"
                   Demo.uuid1 Demo.world).2)
      as (H1 & H2 & H3 & H4 & _); [by_evaluation|].
    exact (conj H1 (conj H2 (conj H3 H4))).
  - destruct (save_reference_layout (Demo.proc (Some "1")) (PropertyImage "post")
                (Demo.service true) (Demo.jpeg "house.jpg") "p3" Demo.uuid1 Demo.world
                "https://store.public.blob.vercel-storage.com/property-images/p3/9b2f6c1e-3a4d-4f70-8c21-5d6e7f8a9b0c.jpg"
                (Save (Demo.proc (Some "1")) (PropertyImage "post")
                   (Demo.service true) (Some (Demo.jpeg "house.jpg")) "p3"
                   Demo.uuid1 Demo.world).2)
      as (b' & Hput & _); [by_evaluation|].
    exists b'. exact Hput.
Defined.

Lemma save_extension_witness :
  Str.endsWith "instagram-media/reel/u1/9b2f6c1e-3a4d-4f70-8c21-5d6e7f8a9b0c.mp4" ".mp4"
  = true
  ∧ Str.endsWith "profile-images/u1/9b2f6c1e-3a4d-4f70-8c21-5d6e7f8a9b0c.png"
      (Path.extname (originalname (Demo.jpeg "me.png")))
    = true.
Proof.
  split.
  - refine (proj2 (save_extension (Demo.proc None) (InstagramMedia "reel" "video")
                     (Demo.service false) (Demo.jpeg "clip") "u1" Demo.uuid1
                     Demo.world
                     "instagram-media/reel/u1/9b2f6c1e-3a4d-4f70-8c21-5d6e7f8a9b0c.mp4"
                     (Save (Demo.proc None) (InstagramMedia "reel" "video")
                        (Demo.service false) (Some (Demo.jpeg "clip")) "u1"
                        Demo.uuid1 Demo.world).2 _)
              eq_refl eq_refl "reel" "video" eq_refl).
    by_evaluation.
  - refine (proj1 (save_extension (Demo.proc None) ProfileImage
                     (Demo.service false) (Demo.jpeg "me.png") "u1" Demo.uuid1
                     Demo.world
                     "profile-images/u1/9b2f6c1e-3a4d-4f70-8c21-5d6e7f8a9b0c.png"
                     (Save (Demo.proc None) ProfileImage
                        (Demo.service false) (Some (Demo.jpeg "me.png")) "u1"
                        Demo.uuid1 Demo.world).2 _) _).
    + by_evaluation.
    + discriminate.
Defined.

Lemma constructor_selects_backend_witness :
  constructor (Demo.proc (Some "1")) Demo.emptyWorld
  = (Returned (serviceOf (Demo.proc (Some "1")) true), Demo.emptyWorld)
  ∧ Forall (λ dir,
              Fs.stat (files (constructor (Demo.proc None) Demo.emptyWorld).2)
                dir = Some Dir
              ∨ ∃ data,
                  Fs.stat (files Demo.emptyWorld) dir = Some (File data)
                  ∧ Fs.stat
                      (files (constructor (Demo.proc None) Demo.emptyWorld).2)
                      dir = Some (File data))
      (eagerDirs (Demo.proc None))
  ∧ files (constructor (Demo.proc None) Demo.emptyWorld).2
      !! (Fs.resolve (cwd (Demo.proc None)) ++ ["uploads"; "instagram-media"])
    = files Demo.emptyWorld
        !! (Fs.resolve (cwd (Demo.proc None)) ++ ["uploads"; "instagram-media"])
  ∧ constructor (Demo.proc None) (constructor (Demo.proc None) Demo.emptyWorld).2
    = (Returned (Demo.service false),
       (constructor (Demo.proc None) Demo.emptyWorld).2).
Proof.
  split.
  - exact (proj1 (proj1 (constructor_selects_backend (Demo.proc (Some "1"))
                            Demo.emptyWorld) eq_refl)).
  - destruct (proj2 (constructor_selects_backend (Demo.proc None) Demo.emptyWorld))
      as [Hfirst _]; [discriminate|].
    destruct (Hfirst (Returned (Demo.service false))
                (constructor (Demo.proc None) Demo.emptyWorld).2)
      as (_ & _ & Hinsta & _ & _ & Hreturned); [by_evaluation|].
    destruct (Hreturned (Demo.service false) eq_refl) as (_ & Hdirs & Hagain).
    exact (conj Hdirs (conj (Hinsta eq_refl) Hagain)).
Defined.

(** C9, the claim as stated fails: the constructor does not make the
    directory of Instagram media, one of the category directories; and
    where a file stands at the path of profile images it returns and
    leaves the file, so no directory is there. *)
Lemma constructor_leaves_category_directories :
  (Fs.stat (files (constructor (Demo.proc None) Demo.emptyWorld).2)
     "/srv/app/uploads/instagram-media",
   (constructor (Demo.proc None) Demo.fileAtProfileImages).1,
   Fs.stat (files (constructor (Demo.proc None) Demo.fileAtProfileImages).2)
     "/srv/app/uploads/profile-images")
  = (None, Returned (Demo.service false), Some (File [])).
Proof. by_evaluation. Qed.

Lemma delete_swallows_save_propagates_witness :
  Delete (Demo.proc None) ProfileImage (Demo.service false)
    (Some "http-not-a-url") Demo.world = (Returned false, Demo.world)
  ∧ Delete (Demo.proc None) ProfileImage (Demo.service false)
      (Some "u1") Demo.world
    = (Returned false,
       mkWorld (files Demo.world) (store Demo.world) (calls Demo.world))
  ∧ (∃ w', @Delete unit Demo.unreachable Demo.plainUrls (Demo.proc (Some "1"))
             ProfileImage (Demo.service true) (Some "profile-images/u1/a.jpg")
             Demo.blockedRoot = (Returned false, w'))
  ∧ (∃ w', @Save unit Demo.unreachable (Demo.proc (Some "1")) ProfileImage
             (Demo.service true) (Some (Demo.jpeg "me.jpg")) "u1" Demo.uuid1
             Demo.blockedRoot = (Thrown (BlobError "fetch failed"), w'))
  ∧ (∃ w', @Save unit Demo.unreachable (Demo.proc None) ProfileImage
             (Demo.service false) (Some (Demo.jpeg "me.jpg")) "u1" Demo.uuid1
             Demo.blockedRoot
           = (Thrown (SystemError "ENOTDIR" "/srv/app/uploads/profile-images/u1"), w'))
  ∧ (∃ w', @Save unit Demo.unreachable (Demo.proc None) ProfileImage
             (Demo.service false) (Some (Demo.jpeg "me.jpg")) "u1" Demo.uuid1
             Demo.blockedOwner
           = (Thrown (SystemError "ENOTDIR"
                        "/srv/app/uploads/profile-images/u1/9b2f6c1e-3a4d-4f70-8c21-5d6e7f8a9b0c.jpg"), w')).
Proof.
  destruct (delete_swallows_save_propagates (Demo.proc None) ProfileImage
              (Demo.service false)) as (_ & Hurl & Hunlink & _ & _ & _ & _).
  destruct (@delete_swallows_save_propagates unit Demo.unreachable Demo.plainUrls
              (Demo.proc (Some "1")) ProfileImage (Demo.service true))
    as (_ & _ & _ & Hdel & Hput & _ & _).
  destruct (@delete_swallows_save_propagates unit Demo.unreachable Demo.plainUrls
              (Demo.proc None) ProfileImage (Demo.service false))
    as (_ & _ & _ & _ & _ & Hmkdir & Hwrite).
  refine (conj _ (conj _ (conj _ (conj _ (conj _ _))))).
  - exact (Hurl "http-not-a-url" Demo.world eq_refl eq_refl eq_refl).
  - refine (Hunlink "u1" Demo.world "uploads/profile-images/u1"
              (SystemError "EISDIR" "/srv/app/uploads/profile-images/u1")
              (files Demo.world) eq_refl ltac:(discriminate) eq_refl _).
    by_evaluation.
  - exact (Hdel "profile-images/u1/a.jpg" Demo.blockedRoot eq_refl
             ltac:(discriminate) (λ _ _, eq_refl)).
  - exact (Hput (Demo.jpeg "me.jpg") "u1" Demo.uuid1 Demo.blockedRoot
             (BlobError "fetch failed") tt eq_refl eq_refl).
  - refine (Hmkdir (Demo.jpeg "me.jpg") "u1" Demo.uuid1 Demo.blockedRoot
              (SystemError "ENOTDIR" "/srv/app/uploads/profile-images/u1")
              (files Demo.blockedRoot) eq_refl _).
    by_evaluation.
  - refine (Hwrite (Demo.jpeg "me.jpg") "u1" Demo.uuid1 Demo.blockedOwner
              (SystemError "ENOTDIR"
                 "/srv/app/uploads/profile-images/u1/9b2f6c1e-3a4d-4f70-8c21-5d6e7f8a9b0c.jpg")
              (files Demo.blockedOwner) (files Demo.blockedOwner) eq_refl _ _);
      by_evaluation.
Defined.

End Witnesses.

Section ForgivingStore.
#[local] Existing Instances Demo.forgiving Demo.plainUrls.

(** C1, the claim as stated fails on the remote backend: with a blob
    store whose [del] returns for a blob that is not there, the save
    answers the URL, the delete of that URL answers [true], and the same
    delete once more, the blob being gone, answers [true] again. *)
Lemma remote_second_delete_answers_true :
  let url :=
    "https://store.public.blob.vercel-storage.com/profile-images/u1/9b2f6c1e-3a4d-4f70-8c21-5d6e7f8a9b0c.jpg" in
  let saved := Save (Demo.proc (Some "1")) ProfileImage (Demo.service true)
                 (Some (Demo.jpeg "me.jpg")) "u1" Demo.uuid1 Demo.world in
  let first := Delete (Demo.proc (Some "1")) ProfileImage (Demo.service true)
                 (Some url) saved.2 in
  let second := Delete (Demo.proc (Some "1")) ProfileImage (Demo.service true)
                  (Some url) first.2 in
  (saved.1, first.1,
   store first.2 !! "profile-images/u1/9b2f6c1e-3a4d-4f70-8c21-5d6e7f8a9b0c.jpg",
   second.1)
  = (Returned url, Returned true, None, Returned true).
Proof. cbv zeta. by_evaluation. Qed.

End ForgivingStore.

(** * More facts about the gateway *)

Section Spellings.
Context {B : Type} `{BlobStore B} `{UrlParser}.
Variable process : Process.

Implicit Types (a : Asset) (this : UploadService) (w : World B).

Lemma startsWith_single c r : Str.startsWith (String c r) (String c "") = true.
Proof.
  unfold Str.startsWith. cbn. destruct (ascii_dec c c); [by destruct r|done].
Qed.

Lemma deleteIn_leading_slash category this ref w :
  ref ≠ "" → Str.startsWith ref "/" = false → Str.startsWith ref "http" = false →
  deleteIn process category this (Some ("/" +:+ ref)) w
  = deleteIn process category this (Some ref) w.
Proof.
  intros Hne Hs Hh. change ("/" +:+ ref) with (String "/" ref).
  destruct (isVercel this) eqn:Hv.
  - rewrite (deleteIn_remote_key process category this (String "/" ref)) by done.
    rewrite (deleteIn_remote_key process category this ref) by done.
    cbv zeta. by rewrite Hs, (startsWith_single "/" ref).
  - rewrite (deleteIn_local process category this (String "/" ref)) by done.
    rewrite (deleteIn_local process category this ref) by done.
    unfold localNormalize, urlToPath. rewrite Hh.
    assert (Str.startsWith (String "/" ref) "http" = false) as -> by done.
    cbn [fmap option_fmap option_map compose]. unfold stripLeadingSlash.
    by rewrite Hs, (startsWith_single "/" ref).
Qed.

Lemma deleteIn_url_as_path category this ref pathname w :
  isVercel this = false → Str.startsWith ref "http" = true →
  urlPathname ref = Some pathname →
  pathname ≠ "" → Str.startsWith pathname "http" = false →
  deleteIn process category this (Some ref) w
  = deleteIn process category this (Some pathname) w.
Proof.
  intros Hv Hh Hu Hne Hp.
  rewrite !(deleteIn_local process) by (done || by eapply startsWith_nonempty).
  unfold localNormalize, urlToPath. by rewrite Hh, Hu, Hp.
Qed.

Lemma startsWith_cons_inv c r p q :
  Str.startsWith (String c r) (String p q) = true → c = p ∧ Str.startsWith r q = true.
Proof.
  unfold Str.startsWith. cbn. by destruct (ascii_dec p c) as [->|].
Qed.

Lemma deleteIn_root_spelling a this ref w :
  isVercel this = false →
  Str.startsWith ref (categoryRoot a +:+ "/") = true →
  deleteIn process (categoryRoot a) this (Some ("uploads/" +:+ ref)) w
  = deleteIn process (categoryRoot a) this (Some ref) w.
Proof.
  intros Hv Hc.
  assert (ref ≠ "" ∧ Str.startsWith ref "http" = false
          ∧ Str.startsWith ref "/" = false
          ∧ Str.startsWith ref "uploads/" = false) as (Hne & Hh & Hs & Hu).
  { destruct ref as [|c r]; [by destruct a|].
    destruct a; apply startsWith_cons_inv in Hc as [-> _]; done. }
  assert ("uploads/" +:+ ref ≠ "") as Hne' by done.
  rewrite (deleteIn_local process _ this ("uploads/" +:+ ref)) by done.
  rewrite (deleteIn_local process _ this ref) by done.
  unfold localNormalize, urlToPath. rewrite Hh.
  assert (Str.startsWith ("uploads/" +:+ ref) "http" = false) as -> by done.
  cbn [fmap option_fmap option_map compose].
  unfold stripLeadingSlash, rootQualify. rewrite Hs, Hu, Hc.
  assert (Str.startsWith ("uploads/" +:+ ref) "/" = false) as -> by done.
  by rewrite (prefix_app "uploads/" ref).
Qed.

(** X1: on either backend, one leading slash in front of a reference
    that starts with neither a slash nor [http] changes nothing: the
    delete answers the same and leaves the same world (the same files,
    the same calls to the blob client). *)
Theorem delete_leading_slash a this ref w :
  ref ≠ "" → Str.startsWith ref "/" = false → Str.startsWith ref "http" = false →
  Delete process a this (Some ("/" +:+ ref)) w
  = Delete process a this (Some ref) w.
Proof. intros. rewrite !Delete_unfold. by apply deleteIn_leading_slash. Qed.

(** X2: on the local backend a URL is deleted as its path is: when the
    reference starts with [http] and parses, with a path that is not
    empty and does not itself start with [http], the delete of the URL and
    the delete of the path do the same. *)
Theorem delete_url_as_path a this ref pathname w :
  isVercel this = false → Str.startsWith ref "http" = true →
  urlPathname ref = Some pathname →
  pathname ≠ "" → Str.startsWith pathname "http" = false →
  Delete process a this (Some ref) w
  = Delete process a this (Some pathname) w.
Proof. intros. rewrite !Delete_unfold. by eapply deleteIn_url_as_path. Qed.

(** X3: on the local backend a reference that starts with its category
    directory may be given with the storage root in front: the delete of
    [uploads/] followed by the reference does what the delete of the
    reference does. *)
Theorem delete_root_spelling a this ref w :
  isVercel this = false →
  Str.startsWith ref (categoryRoot a +:+ "/") = true →
  Delete process a this (Some ("uploads/" +:+ ref)) w
  = Delete process a this (Some ref) w.
Proof. intros. rewrite !Delete_unfold. by apply deleteIn_root_spelling. Qed.

End Spellings.

Section Footprints.
Context {B : Type} `{BlobStore B} `{UrlParser}.
Variable process : Process.

Implicit Types (a : Asset) (this : UploadService) (w : World B).

Lemma world_eta w : mkWorld (files w) (store w) (calls w) = w.
Proof. by destruct w. Qed.

Lemma deleteIn_local_outcome category this ref deleted w w' :
  isVercel this = false →
  deleteIn process category this ref w = (Returned deleted, w') →
  if deleted then
    ∃ r localPath p data,
      ref = Some r
      ∧ localNormalize category r = Some localPath
      ∧ p ∈ candidatePaths process category localPath
      ∧ files w !! Fs.resolve p = Some (File data)
      ∧ w' = mkWorld (delete (Fs.resolve p) (files w)) (store w) (calls w)
  else w' = w.
Proof.
  intros Hv. destruct ref as [r|]; [|by intros [= <- <-]].
  destruct (decide (r = "")) as [->|Hne]; [by intros [= <- <-]|].
  rewrite (deleteIn_local process) by done.
  destruct (localNormalize category r) as [localPath|] eqn:En;
    [|by intros [= <- <-]].
  unfold unlinkFirst.
  destruct (List.find _ _) as [p|] eqn:Efind; cbn [fmap option_fmap option_map];
    [|by intros [= <- <-]].
  apply find_some in Efind as [Hin _]. apply list_elem_of_In in Hin.
  unfold Fs.unlink. destruct (Fs.stat (files w) p) as [[data|]|] eqn:Hst;
    intros [= <- <-]; cbn [isReturned]; try apply world_eta.
  exists r, localPath, p, data. repeat split; try done.
  by apply stat_file.
Qed.

(** X4: what a delete on the local backend leaves behind.  When it
    answers [false] the world is as it was.  When it answers [true], one
    file is gone, at one of the places listed for the normalized
    reference, and nothing else has changed: no directory is removed,
    nothing is made, and the blob client is not called. *)
Theorem delete_local_footprint a this ref deleted w w' :
  isVercel this = false →
  Delete process a this ref w = (Returned deleted, w') →
  if deleted then
    ∃ r localPath p data,
      ref = Some r
      ∧ localNormalize (categoryRoot a) r = Some localPath
      ∧ p ∈ candidatePaths process (categoryRoot a) localPath
      ∧ files w !! Fs.resolve p = Some (File data)
      ∧ files w' = delete (Fs.resolve p) (files w)
      ∧ store w' = store w ∧ calls w' = calls w
  else w' = w.
Proof.
  intros Hv. rewrite Delete_unfold. intros Hd.
  pose proof (deleteIn_local_outcome _ _ _ _ _ _ Hv Hd) as Ho.
  destruct deleted; [|done].
  destruct Ho as (r & localPath & p & data & -> & Hn & Hp & Hf & ->).
  exists r, localPath, p, data. done.
Qed.

Lemma write_thrown fs p data e fs' :
  Fs.write fs p data = (Thrown e, fs') → fs' = fs.
Proof. unfold Fs.write. by repeat case_match; intros [= _ <-]. Qed.

Lemma write_returned_not_dir fs p data fs' :
  Fs.write fs p data = (Returned tt, fs') → fs !! Fs.resolve p ≠ Some Dir.
Proof.
  unfold Fs.write, Fs.node. intros Hw Hd.
  destruct (Fs.resolve p) as [|x l].
  - by repeat case_match.
  - rewrite Hd in Hw. by repeat case_match.
Qed.

(** X5: what a save on the local backend leaves behind, whatever its
    outcome, for a fresh identifier: every file and directory that was
    there is still there, unchanged; the only file that may be new holds
    the buffer and sits in the owner's directory under the new name; the
    blob client is not called. *)
Theorem save_local_footprint a this file ownerId uuid w r w' :
  isVercel this = false →
  Path.isAbsolute (cwd process) = true → validUuid uuid = true →
  freshUuid uuid (files w) →
  Save process a this (Some file) ownerId uuid w = (r, w') →
  (∀ k n, files w !! k = Some n → files w' !! k = Some n)
  ∧ (∀ k data, files w' !! k = Some (File data) →
       files w !! k = Some (File data)
       ∨ (isReturned r = true ∧ data = buffer file
          ∧ k = Fs.resolve (ownerDir process a ownerId)
                  ++ [uuid +:+ localExt a file]))
  ∧ store w' = store w ∧ calls w' = calls w.
Proof.
  intros Hv Hc Hu Hfresh. rewrite (Save_local process) by done. cbv zeta.
  set (f := uuid +:+ localExt a file).
  assert (plainName f) as Hf
    by apply (validUuid_plain _ _ Hu (localExt_no_sep a file)).
  destruct (ensureDir _ _) as [[[]|e1] fs1] eqn:E1.
  2:{ intros [= <- <-]. cbn [files store calls]. repeat split; try done.
      - intros k n. by eapply ensureDir_mono.
      - intros k data Hk. left. by eapply ensureDir_files. }
  destruct (Fs.write _ _ _) as [[[]|e2] fs2] eqn:Ew.
  2:{ apply write_thrown in Ew as ->.
      intros [= <- <-]. cbn [files store calls]. repeat split; try done.
      - intros k n. by eapply ensureDir_mono.
      - intros k data Hk. left. by eapply ensureDir_files. }
  pose proof (write_returned_not_dir _ _ _ _ Ew) as Hnotdir.
  apply write_returned in Ew as (-> & _).
  rewrite (resolve_join_file _ f (ownerDir_absolute process a ownerId Hc) Hf)
    in *.
  set (P := Fs.resolve (ownerDir process a ownerId) ++ [f]) in *.
  intros [= <- <-]. cbn [files store calls isReturned].
  assert (fs1 !! P = None) as Hnone.
  { destruct (fs1 !! P) as [[data|]|] eqn:E; [|done..].
    eapply ensureDir_files in E; [|exact E1].
    specialize (Hfresh _ _ f E (last_snoc _ _)).
    unfold f in Hfresh. by rewrite prefix_app in Hfresh. }
  repeat split; try done.
  - intros k n Hk. eapply ensureDir_mono in Hk; [|exact E1].
    rewrite lookup_insert_ne; [done|]. intros <-. congruence.
  - intros k data Hk. destruct (decide (P = k)) as [<-|Hne].
    + rewrite lookup_insert_eq in Hk. injection Hk as <-. by right.
    + rewrite lookup_insert_ne in Hk by done. left.
      by eapply ensureDir_files.
Qed.

End Footprints.

Section Containment.
Context {B : Type} `{BlobStore B} `{UrlParser}.
Variable process : Process.

Implicit Types (a : Asset) (this : UploadService) (w : World B).

Lemma normSegs_no_dotdot al acc l :
  ".." ∉ l → Path.normSegs al acc l = rev (namingSegs l) ++ acc.
Proof.
  revert acc. induction l as [|x l IH]; intros acc Hl; [done|].
  apply not_elem_of_cons in Hl as [Hx Hl]. cbn [Path.normSegs foldl].
  fold (Path.normSegs al (Path.normStep al acc x) l). rewrite IH by done.
  unfold namingSegs, Path.normStep. case_decide as Hskip.
  - rewrite filter_cons_False; [done|]. intros [? ?]. by destruct Hskip.
  - rewrite decide_False by done. rewrite filter_cons_True.
    + cbn. by rewrite <- app_assoc.
    + split; intros ->; apply Hskip; [by left|by right].
Qed.

Lemma resolve_join_no_dotdot dir rest :
  Path.isAbsolute dir = true →
  ".." ∉ flat_map (Str.split Path.sep) rest →
  Fs.resolve (Path.join (dir :: rest))
  = Fs.resolve dir ++ namingSegs (flat_map (Str.split Path.sep) rest).
Proof.
  intros Hd Hr. rewrite resolve_join_abs by done. cbn [flat_map].
  rewrite normSegs_app, (normSegs_no_dotdot _ _ _ Hr).
  by rewrite rev_app_distr, rev_involutive.
Qed.

Lemma startsWith_inv s p :
  Str.startsWith s p = true → ∃ r, s = p +:+ r.
Proof.
  unfold Str.startsWith. revert s.
  induction p as [|y p IH]; intros s; [by exists s|].
  destruct s as [|x s]; cbn; [done|].
  destruct (ascii_dec y x) as [->|]; [|done].
  intros [r ->]%IH. by exists r.
Qed.

Lemma rootQualify_rooted category s :
  ∃ r, rootQualify category s = "uploads/" +:+ r.
Proof.
  unfold rootQualify. destruct (Str.startsWith s "uploads/") eqn:E; cbn [negb].
  - by apply startsWith_inv.
  - destruct (Str.startsWith s (category +:+ "/")); eauto.
Qed.

Lemma localNormalize_rooted category ref localPath :
  localNormalize category ref = Some localPath →
  ∃ r, localPath = "uploads/" +:+ r.
Proof.
  unfold localNormalize. destruct (urlToPath ref) as [q|]; [|done].
  cbn. intros [= <-]. apply rootQualify_rooted.
Qed.

Lemma split_uploads r :
  Str.split Path.sep ("uploads/" +:+ r) = "uploads" :: Str.split Path.sep r.
Proof.
  change ("uploads/" +:+ r) with ("uploads" +:+ String Path.sep r).
  by rewrite split_app.
Qed.

Lemma categoryRoot_split a :
  Str.split Path.sep (categoryRoot a) = [categoryRoot a]
  ∧ categoryRoot a ≠ ".." ∧ categoryRoot a ≠ "" ∧ categoryRoot a ≠ ".".
Proof. by destruct a. Qed.

(** Every place a local delete looks at lies below the upload root, when
    the normalized reference has no [..] segment. *)
Lemma candidate_under_uploads a localPath p :
  Path.isAbsolute (cwd process) = true →
  (∃ r, localPath = "uploads/" +:+ r) → noDotDot localPath →
  p ∈ candidatePaths process (categoryRoot a) localPath →
  (Fs.resolve (cwd process) ++ ["uploads"]) `prefix_of` Fs.resolve p.
Proof.
  intros Hc [r ->] Hdots Hp. unfold noDotDot in Hdots.
  rewrite split_uploads in Hdots.
  destruct (categoryRoot_split a) as (Hcs & Hc1 & Hc2 & Hc3).
  assert (∀ rest tail,
            ".." ∉ "uploads" :: tail →
            flat_map (Str.split Path.sep) rest = "uploads" :: tail →
            (Fs.resolve (cwd process) ++ ["uploads"])
              `prefix_of` Fs.resolve (Path.join (cwd process :: rest))) as Hmain.
  { intros rest tail Hnd Hrest.
    rewrite resolve_join_no_dotdot by (done || by rewrite Hrest).
    rewrite Hrest. unfold namingSegs. rewrite filter_cons_True by done.
    exists (filter (λ s, s ≠ "" ∧ s ≠ ".") tail). by rewrite <- app_assoc. }
  unfold candidatePaths in Hp. rewrite !elem_of_cons in Hp.
  destruct Hp as [->|[->|[->|[->|Hp]]]]; [..|by apply elem_of_nil in Hp].
  - apply (Hmain _ (Str.split Path.sep r)); [done|].
    cbn [flat_map]. by rewrite split_uploads, List.app_nil_r.
  - apply (Hmain _ ("uploads" :: Str.split Path.sep r)).
    + by apply not_elem_of_cons.
    + cbn [flat_map]. by rewrite split_uploads, List.app_nil_r.
  - apply (Hmain _ (Str.split Path.sep r)); [done|].
    cbn [flat_map]. by rewrite split_uploads, List.app_nil_r.
  - set (b := basenameOf ("uploads/" +:+ r)).
    assert (Str.split Path.sep b = [b] ∧ b ≠ "..") as [Hb1 Hb2].
    { unfold b, basenameOf, Str.pop.
      change (Str.split "/" ?x) with (Str.split Path.sep x).
      rewrite split_uploads.
      destruct (last ("uploads" :: Str.split Path.sep r)) as [x|] eqn:El;
        [|done].
      assert (x ∈ "uploads" :: Str.split Path.sep r) as Hin.
      { apply last_Some in El as [l' ->]. apply elem_of_app. right.
        by apply list_elem_of_singleton. }
      assert (Str.mem Path.sep x = false) as Hm.
      { apply elem_of_cons in Hin as [->|Hin]; [done|].
        pose proof (split_mem Path.sep r) as Hall.
        by eapply Forall_forall in Hall. }
      destruct x as [|c x']; [done|]. cbn [Str.orElse]. split.
      - by apply split_plain.
      - intros Heq. apply Hdots. by rewrite <- Heq. }
    apply (Hmain _ [categoryRoot a; b]).
    + rewrite !not_elem_of_cons. repeat split; try done.
      apply not_elem_of_nil.
    + cbn [flat_map]. by rewrite Hcs, Hb1.
Qed.

(** X6: a delete on the local backend whose normalized reference has no
    [..] segment removes nothing outside the upload root: when it answers
    [true], the one file that is gone sat below [uploads] in the working
    directory. *)
Theorem delete_stays_under_uploads a this ref localPath w w' :
  isVercel this = false → Path.isAbsolute (cwd process) = true →
  localNormalize (categoryRoot a) ref = Some localPath → noDotDot localPath →
  Delete process a this (Some ref) w = (Returned true, w') →
  ∃ k data,
    (Fs.resolve (cwd process) ++ ["uploads"]) `prefix_of` k
    ∧ files w !! k = Some (File data)
    ∧ files w' = delete k (files w).
Proof.
  intros Hv Hc Hn Hdots. rewrite Delete_unfold. intros Hd.
  destruct (deleteIn_local_outcome process _ _ _ _ _ _ Hv Hd)
    as (r & lp & p & data & [= <-] & Hn' & Hp & Hf & ->).
  rewrite Hn in Hn'. injection Hn' as <-.
  exists (Fs.resolve p), data. repeat split; try done.
  eapply candidate_under_uploads; try done.
  by eapply localNormalize_rooted.
Qed.

Lemma dirArgs_split a ownerId :
  noDotDot ownerId → subKindNoDotDot a →
  ∃ tail, flat_map (Str.split Path.sep) (dirArgs a ownerId)
          = "uploads" :: categoryRoot a :: tail
          ∧ ".." ∉ "uploads" :: categoryRoot a :: tail.
Proof.
  unfold noDotDot. intros Ho Ha. destruct a; cbn [dirArgs flat_map categoryRoot].
  - exists (Str.split Path.sep ownerId). rewrite List.app_nil_r. split; [done|].
    by rewrite !not_elem_of_cons.
  - exists (Str.split Path.sep ownerId). rewrite List.app_nil_r. split; [done|].
    by rewrite !not_elem_of_cons.
  - exists (Str.split Path.sep mediaType ++ Str.split Path.sep ownerId).
    rewrite List.app_nil_r. split; [done|]. cbn in Ha. unfold noDotDot in Ha.
    rewrite !not_elem_of_cons, not_elem_of_app. done.
Qed.

(** X7: a save on the local backend for an owner id (and a sub-kind)
    with no [..] segment writes below the category directory of the
    upload root: the file that holds the buffer is under
    [uploads/{category}] in the working directory and bears the new
    name. *)
Theorem save_stays_under_category a this file ownerId uuid w ref w' :
  isVercel this = false → Path.isAbsolute (cwd process) = true →
  validUuid uuid = true → noDotDot ownerId → subKindNoDotDot a →
  Save process a this (Some file) ownerId uuid w = (Returned ref, w') →
  ∃ k,
    (Fs.resolve (cwd process) ++ ["uploads"; categoryRoot a]) `prefix_of` k
    ∧ last k = Some (uuid +:+ localExt a file)
    ∧ files w' !! k = Some (File (buffer file)).
Proof.
  intros Hv Hc Hu Ho Ha. rewrite (Save_local process) by done. cbv zeta.
  set (f := uuid +:+ localExt a file).
  assert (plainName f) as Hf
    by apply (validUuid_plain _ _ Hu (localExt_no_sep a file)).
  destruct (ensureDir _ _) as [[[]|e1] fs1]; [|done].
  destruct (Fs.write _ _ _) as [[[]|e2] fs2] eqn:Ew; [|done].
  intros [= <- <-]. cbn [files].
  apply write_returned in Ew as (-> & _).
  rewrite (resolve_join_file _ f (ownerDir_absolute process a ownerId Hc) Hf).
  exists (Fs.resolve (ownerDir process a ownerId) ++ [f]).
  split; [|split; [apply last_snoc|apply lookup_insert_eq]].
  destruct (dirArgs_split a ownerId Ho Ha) as (tail & Hsplit & Hnd).
  rewrite ownerDir_join, resolve_join_no_dotdot by (done || by rewrite Hsplit).
  rewrite Hsplit. unfold namingSegs.
  destruct (categoryRoot_split a) as (_ & _ & Hc2 & Hc3).
  rewrite !filter_cons_True by done.
  exists (filter (λ s, s ≠ "" ∧ s ≠ ".") tail ++ [f]).
  by rewrite <- !app_assoc.
Qed.

End Containment.

Section KeyExtraction.

Lemma drop_com r : Str.drop 5 (".com/" +:+ r) = r.
Proof. exact (drop_app ".com/" r). Qed.

Lemma matchComPath_cons c r :
  matchComPath (String c r)
  = if Str.startsWith (String c r) ".com/"
       && Str.truthy (Str.drop 5 (String c r))
       && noLineTerminator (Str.drop 5 (String c r))
    then Some (Str.drop 5 (String c r))
    else matchComPath r.
Proof. done. Qed.

(** X8: what [/\.com\/(.+)$/] extracts from a URL.  When it matches, the
    key is what follows a [.com/] up to the end, is not empty and holds no
    line terminator (line feed, carriage return, U+2028, U+2029), and no
    [.com/] further to the left is followed by such a rest; when it does
    not match, no [.com/] of the URL is followed by such a rest. *)
Theorem com_path_leftmost u :
  match matchComPath u with
  | Some k =>
      ∃ pre, u = pre +:+ ".com/" +:+ k ∧ k ≠ "" ∧ noLineTerminator k = true
        ∧ ∀ pre' k', u = pre' +:+ ".com/" +:+ k' → k' ≠ "" →
            noLineTerminator k' = true →
            (String.length pre ≤ String.length pre')%nat
  | None =>
      ∀ pre' k', u = pre' +:+ ".com/" +:+ k' →
        k' = "" ∨ noLineTerminator k' = false
  end.
Proof.
  induction u as [|c r IH].
  - cbn. intros [|x pre'] k'; discriminate.
  - rewrite matchComPath_cons.
    destruct (Str.startsWith (String c r) ".com/") eqn:Es; cbn [andb].
    + apply startsWith_inv in Es as [rest Er]. rewrite Er, drop_com.
      destruct (Str.truthy rest) eqn:Et; cbn [andb];
        [destruct (noLineTerminator rest) eqn:El|].
      * exists "". rewrite sapp_nil_l. repeat split; try done.
        -- by apply truthy_ne.
        -- intros; cbn; lia.
      * rewrite <- Er.
        assert (∀ pre' k', String c r = pre' +:+ ".com/" +:+ k' →
                  k' ≠ "" → noLineTerminator k' = true →
                  ∃ pre'', pre' = String c pre'' ∧ r = pre'' +:+ ".com/" +:+ k')
          as Hstep.
        { intros [|x pre''] k' Hk Hne Hlt.
          - rewrite sapp_nil_l, Er in Hk.
            apply (f_equal (Str.drop 5)) in Hk. rewrite !drop_com in Hk.
            congruence.
          - rewrite sapp_cons in Hk. injection Hk as -> ->. eauto. }
        destruct (matchComPath r) as [k|].
        -- destruct IH as (pre & -> & Hne & Hlt & Hmin).
           exists (String c pre). rewrite sapp_cons. repeat split; try done.
           intros pre' k' Hk Hne' Hlt'.
           destruct (Hstep _ _ Hk Hne' Hlt') as (pre'' & -> & Hr).
           specialize (Hmin _ _ Hr Hne' Hlt'). cbn. lia.
        -- intros pre' k' Hk.
           destruct (decide (k' = "")) as [|Hne']; [by left|].
           destruct (noLineTerminator k') eqn:Hlt'; [|by right].
           destruct (Hstep _ _ Hk Hne' Hlt') as (pre'' & -> & Hr).
           destruct (IH _ _ Hr); congruence.
      * rewrite <- Er.
        assert (rest = "") as -> by (by destruct rest).
        assert (∀ pre' k', String c r = pre' +:+ ".com/" +:+ k' → k' ≠ "" →
                  ∃ pre'', pre' = String c pre'' ∧ r = pre'' +:+ ".com/" +:+ k')
          as Hstep.
        { intros [|x pre''] k' Hk Hne.
          - rewrite sapp_nil_l, Er in Hk.
            apply (f_equal (Str.drop 5)) in Hk. rewrite !drop_com in Hk.
            congruence.
          - rewrite sapp_cons in Hk. injection Hk as -> ->. eauto. }
        destruct (matchComPath r) as [k|].
        -- destruct IH as (pre & -> & Hne & Hlt & Hmin).
           exists (String c pre). rewrite sapp_cons. repeat split; try done.
           intros pre' k' Hk Hne' Hlt'.
           destruct (Hstep _ _ Hk Hne') as (pre'' & -> & Hr).
           specialize (Hmin _ _ Hr Hne' Hlt'). cbn. lia.
        -- intros pre' k' Hk.
           destruct (decide (k' = "")) as [|Hne']; [by left|].
           destruct (Hstep _ _ Hk Hne') as (pre'' & -> & Hr).
           by apply IH in Hr.
    + assert (∀ pre' k', String c r = pre' +:+ ".com/" +:+ k' →
                ∃ pre'', pre' = String c pre'' ∧ r = pre'' +:+ ".com/" +:+ k')
        as Hstep.
      { intros [|x pre''] k' Hk.
        - rewrite sapp_nil_l in Hk. rewrite Hk in Es.
          by rewrite (prefix_app ".com/" k') in Es.
        - rewrite sapp_cons in Hk. injection Hk as -> ->. eauto. }
      destruct (matchComPath r) as [k|].
      * destruct IH as (pre & -> & Hne & Hlt & Hmin).
        exists (String c pre). rewrite sapp_cons. repeat split; try done.
        intros pre' k' Hk Hne' Hlt'.
        destruct (Hstep _ _ Hk) as (pre'' & -> & Hr).
        specialize (Hmin _ _ Hr Hne' Hlt'). cbn. lia.
      * intros pre' k' Hk.
        destruct (Hstep _ _ Hk) as (pre'' & -> & Hr). by apply IH in Hr.
Qed.

End KeyExtraction.

Section Successive.
Context {B : Type} `{BlobStore B} `{UrlParser}.
Variable process : Process.

Implicit Types (a : Asset) (this : UploadService) (w : World B).

Lemma sapp_inj_length s1 s2 t1 t2 :
  String.length s1 = String.length s2 →
  s1 +:+ t1 = s2 +:+ t2 → s1 = s2.
Proof.
  revert s2. induction s1 as [|x s1 IH]; intros [|y s2]; try done.
  rewrite !sapp_cons. intros [= Hl] [= -> Hs]. f_equal. by apply IH.
Qed.

Lemma uuid_names_differ uuid1 uuid2 e1 e2 :
  validUuid uuid1 = true → validUuid uuid2 = true → uuid1 ≠ uuid2 →
  uuid1 +:+ e1 ≠ uuid2 +:+ e2.
Proof.
  unfold validUuid. intros [Hl1 _]%andb_prop [Hl2 _]%andb_prop Hne Heq.
  apply Nat.eqb_eq in Hl1, Hl2. apply Hne.
  eapply sapp_inj_length; [|exact Heq]. congruence.
Qed.

Lemma keyOf_last a ownerId f :
  Str.mem Path.sep f = false →
  last (Str.split Path.sep ("uploads/" +:+ keyOf a ownerId f)) = Some f.
Proof. intros Hf. by rewrite split_rooted_key, last_snoc. Qed.

Lemma keyOf_names_differ a1 a2 owner1 owner2 f1 f2 :
  Str.mem Path.sep f1 = false → Str.mem Path.sep f2 = false → f1 ≠ f2 →
  keyOf a1 owner1 f1 ≠ keyOf a2 owner2 f2.
Proof.
  intros H1 H2 Hne Heq. apply Hne.
  pose proof (keyOf_last a1 owner1 f1 H1) as Hl.
  rewrite Heq, keyOf_last in Hl by done. congruence.
Qed.

(** X9: two saves with different identifiers never meet.  On the local
    backend the two references differ and, after the second save, each
    file is there with its own content, whatever the categories, owners
    and file names; on the remote backend the two keys handed to [put]
    differ. *)
Theorem saves_with_distinct_ids a1 a2 this file1 file2 owner1 owner2
  uuid1 uuid2 w ref1 w1 ref2 w2 :
  validUuid uuid1 = true → validUuid uuid2 = true → uuid1 ≠ uuid2 →
  (isVercel this = false → Path.isAbsolute (cwd process) = true) →
  Save process a1 this (Some file1) owner1 uuid1 w = (Returned ref1, w1) →
  Save process a2 this (Some file2) owner2 uuid2 w1 = (Returned ref2, w2) →
  if isVercel this then
    ∃ key1 key2,
      calls w2 = calls w ++ [CallPut key1 (buffer file1) (putOptions file1);
                             CallPut key2 (buffer file2) (putOptions file2)]
      ∧ key1 ≠ key2
  else
    ref1 ≠ ref2
    ∧ files w2 !! (Fs.resolve (ownerDir process a1 owner1)
                     ++ [uuid1 +:+ localExt a1 file1])
      = Some (File (buffer file1))
    ∧ files w2 !! (Fs.resolve (ownerDir process a2 owner2)
                     ++ [uuid2 +:+ localExt a2 file2])
      = Some (File (buffer file2)).
Proof.
  intros Hu1 Hu2 Hne Hc. destruct (isVercel this) eqn:Hv.
  - rewrite !(Save_remote process) by done. cbv zeta.
    destruct (blobPut _ _ _ (store w)) as [[blob1|e1] b1]; [|done].
    intros [= <- <-]. cbn [store calls].
    destruct (blobPut _ _ _ b1) as [[blob2|e2] b2]; [|done].
    intros [= <- <-]. cbn [calls]. rewrite <- app_assoc.
    do 2 eexists. split; [done|]. unfold remoteExt.
    pose proof (validUuid_plain _ _ Hu1 (extname_no_sep (originalname file1)))
      as (_ & _ & _ & Hm1).
    pose proof (validUuid_plain _ _ Hu2 (extname_no_sep (originalname file2)))
      as (_ & _ & _ & Hm2).
    apply keyOf_names_differ; try done. by apply uuid_names_differ.
  - specialize (Hc eq_refl). rewrite !(Save_local process) by done. cbv zeta.
    set (f1 := uuid1 +:+ localExt a1 file1).
    set (f2 := uuid2 +:+ localExt a2 file2).
    assert (plainName f1) as Hf1
      by apply (validUuid_plain _ _ Hu1 (localExt_no_sep a1 file1)).
    assert (plainName f2) as Hf2
      by apply (validUuid_plain _ _ Hu2 (localExt_no_sep a2 file2)).
    assert (f1 ≠ f2) as Hf by by apply uuid_names_differ.
    destruct (ensureDir (files w) _) as [[[]|e1] fs1]; [|done].
    destruct (Fs.write fs1 _ _) as [[[]|e2] fs2] eqn:Ew1; [|done].
    intros [= <- <-]. cbn [files store calls].
    destruct (ensureDir fs2 _) as [[[]|e3] fs3] eqn:E3; [|done].
    destruct (Fs.write fs3 _ _) as [[[]|e4] fs4] eqn:Ew2; [|done].
    intros [= <- <-]. cbn [files].
    apply write_returned in Ew1 as (-> & _), Ew2 as (-> & _).
    rewrite (resolve_join_file _ f1 (ownerDir_absolute process a1 owner1 Hc) Hf1)
      in *.
    rewrite (resolve_join_file _ f2 (ownerDir_absolute process a2 owner2 Hc) Hf2).
    destruct Hf1 as (_ & _ & _ & Hm1), Hf2 as (_ & _ & _ & Hm2).
    split; [by apply keyOf_names_differ|]. split.
    + rewrite lookup_insert_ne.
      * eapply ensureDir_mono; [exact E3|]. apply lookup_insert_eq.
      * intros Heq. apply Hf. apply (f_equal last) in Heq.
        rewrite !last_snoc in Heq. congruence.
    + apply lookup_insert_eq.
Qed.

End Successive.

Section SavedSpellings.
Context {B : Type} `{BlobStore B} `{UrlParser}.
Variable process : Process.

Implicit Types (a : Asset) (this : UploadService) (w : World B).

Lemma keyOf_in_category a ownerId f :
  Str.startsWith (keyOf a ownerId f) (categoryRoot a +:+ "/") = true.
Proof.
  destruct a; cbn [keyOf categoryRoot].
  - exact (prefix_app "profile-images/" _).
  - exact (prefix_app "property-images/" _).
  - exact (prefix_app "instagram-media/" _).
Qed.

Lemma keyOf_not_url a ownerId f :
  Str.startsWith (keyOf a ownerId f) "http" = false.
Proof. by destruct a. Qed.

Lemma spelling_plain ref given :
  ref ≠ "" → Str.startsWith ref "http" = false → given ∈ spellings ref →
  given ≠ "" ∧ Str.startsWith given "http" = false.
Proof.
  intros Hne Hh. unfold spellings. rewrite !elem_of_cons.
  intros [->|[->|[->|[->|Hg]]]]; try done. by apply elem_of_nil in Hg.
Qed.

Lemma deleteIn_spelling a this ownerId f given w :
  isVercel this = false →
  given ∈ spellings (keyOf a ownerId f) →
  deleteIn process (categoryRoot a) this (Some given) w
  = deleteIn process (categoryRoot a) this (Some (keyOf a ownerId f)) w.
Proof.
  intros Hv. unfold spellings. rewrite !elem_of_cons.
  destruct (keyOf_not_rooted a ownerId f) as [_ Hs].
  pose proof (keyOf_nonempty a ownerId f) as Hne.
  pose proof (keyOf_not_url a ownerId f) as Hh.
  pose proof (keyOf_in_category a ownerId f) as Hc.
  intros [->|[->|[->|[->|Hg]]]]; [done| | | |by apply elem_of_nil in Hg].
  - by apply deleteIn_leading_slash.
  - by apply deleteIn_root_spelling.
  - change ("/uploads/" +:+ ?k) with ("/" +:+ ("uploads/" +:+ k)).
    rewrite deleteIn_leading_slash by done.
    by apply deleteIn_root_spelling.
Qed.

Lemma save_local_reference a this file ownerId uuid w ref w1 :
  isVercel this = false →
  Save process a this (Some file) ownerId uuid w = (Returned ref, w1) →
  ref = keyOf a ownerId (uuid +:+ localExt a file).
Proof.
  intros Hv. rewrite (Save_local process) by done. cbv zeta.
  destruct (ensureDir _ _) as [[[]|e1] fs1]; [|done].
  destruct (Fs.write _ _ _) as [[[]|e2] fs2]; [|done].
  by intros [= <- _].
Qed.

(** X10: on the local backend a saved file is deleted by its reference
    however that reference is spelled: as the save answered it, with the
    storage root in front, with a slash in front of either, or as a URL
    whose path is one of these.  The delete answers [true], and the same
    delete once more answers [false]. *)
Theorem delete_saved_any_spelling a this file ownerId uuid w ref w1 given :
  isVercel this = false →
  Path.isAbsolute (cwd process) = true → validUuid uuid = true →
  freshUuid uuid (files w) →
  Save process a this (Some file) ownerId uuid w = (Returned ref, w1) →
  given ∈ spellings ref
  ∨ (Str.startsWith given "http" = true
     ∧ ∃ pathname, urlPathname given = Some pathname
                   ∧ pathname ∈ spellings ref) →
  ∃ w2, Delete process a this (Some given) w1 = (Returned true, w2)
        ∧ ∃ w3, Delete process a this (Some given) w2 = (Returned false, w3).
Proof.
  intros Hv Hc Hu Hfresh Hs Hgiven.
  destruct (save_delete_local process a this file ownerId uuid w ref w1
              Hv Hc Hu Hfresh Hs) as (w2 & Hd1 & w3 & Hd2).
  pose proof (save_local_reference _ _ _ _ _ _ _ _ Hv Hs) as ->.
  set (k := keyOf a ownerId (uuid +:+ localExt a file)) in *.
  assert (∀ w', Delete process a this (Some given) w'
                = Delete process a this (Some k) w') as Heq.
  { intros w'. rewrite !Delete_unfold.
    destruct Hgiven as [Hg|(Hh & pathname & Hp & Hg)].
    - by apply deleteIn_spelling.
    - destruct (spelling_plain k pathname) as [Hne Hph];
        [apply keyOf_nonempty|apply keyOf_not_url|done|].
      rewrite (deleteIn_url_as_path process _ this given pathname) by done.
      by apply deleteIn_spelling. }
  exists w2. rewrite Heq. split; [done|]. exists w3. by rewrite Heq.
Qed.

End SavedSpellings.

Section Categories.
Context {B : Type} `{BlobStore B} `{UrlParser}.
Variable process : Process.

Implicit Types (a : Asset) (this : UploadService) (w : World B).

Lemma namingSegs_cons x l :
  x ≠ "" → x ≠ "." → namingSegs (x :: l) = x :: namingSegs l.
Proof. intros. unfold namingSegs. by rewrite filter_cons_True. Qed.

Lemma namingSegs_snoc l f :
  plainName f → namingSegs (l ++ [f]) = namingSegs l ++ [f].
Proof.
  intros (? & ? & _). unfold namingSegs.
  by rewrite filter_app, filter_cons_True, filter_nil.
Qed.

Lemma keyOf_split a ownerId f :
  Path.isAbsolute (cwd process) = true →
  noDotDot ownerId → subKindNoDotDot a → plainName f →
  ∃ tail, Str.split Path.sep (keyOf a ownerId f)
          = (categoryRoot a :: tail ++ [f])
          ∧ (".." ∉ categoryRoot a :: tail ++ [f])
          ∧ Fs.resolve (ownerDir process a ownerId)
            = Fs.resolve (cwd process)
                ++ "uploads" :: categoryRoot a :: namingSegs tail.
Proof.
  intros Hc Ho Ha Hf. pose proof Hf as (_ & _ & Hdd & Hm).
  destruct (dirArgs_split a ownerId Ho Ha) as (tail & Hsplit & Hnd).
  destruct (categoryRoot_split a) as (_ & _ & Hc2 & Hc3).
  exists tail. repeat split.
  - pose proof (split_rooted_key a ownerId f Hm) as Hk.
    rewrite split_uploads, Hsplit in Hk. by injection Hk.
  - apply not_elem_of_cons in Hnd as [_ Hnd].
    apply not_elem_of_cons in Hnd as [Hca Hnd].
    rewrite not_elem_of_cons, not_elem_of_app, not_elem_of_cons.
    repeat split; try done. apply not_elem_of_nil.
  - rewrite ownerDir_join, resolve_join_no_dotdot by (done || by rewrite Hsplit).
    by rewrite Hsplit, !namingSegs_cons.
Qed.

Lemma keyOf_other_category a a' ownerId f :
  categoryRoot a' ≠ categoryRoot a →
  localNormalize (categoryRoot a') (keyOf a ownerId f)
  = Some ("uploads/" +:+ categoryRoot a' +:+ "/" +:+ keyOf a ownerId f).
Proof.
  intros Hcat. unfold localNormalize, urlToPath, stripLeadingSlash, rootQualify.
  rewrite keyOf_not_url. destruct (keyOf_not_rooted a ownerId f) as [Hu Hs].
  cbn [fmap option_fmap option_map compose]. rewrite Hs, Hu. cbn [negb].
  assert (Str.startsWith (keyOf a ownerId f) (categoryRoot a' +:+ "/") = false)
    as ->; [|done].
  by destruct a, a'.
Qed.

(** Where the delete of another category looks for a saved reference:
    every place bears the saved file's name, and none is the place the
    save wrote to. *)
Lemma other_category_candidates a a' ownerId f p :
  Path.isAbsolute (cwd process) = true →
  noDotDot ownerId → subKindNoDotDot a → plainName f →
  categoryRoot a' ≠ categoryRoot a →
  p ∈ candidatePaths process (categoryRoot a')
        ("uploads/" +:+ categoryRoot a' +:+ "/" +:+ keyOf a ownerId f) →
  last (Fs.resolve p) = Some f
  ∧ Fs.resolve p ≠ Fs.resolve (ownerDir process a ownerId) ++ [f].
Proof.
  intros Hc Ho Ha Hf Hcat Hp. pose proof Hf as (Hfne & Hfd & Hfdd & Hm).
  destruct (keyOf_split a ownerId f Hc Ho Ha Hf) as (tail & Hk & Hnd & ->).
  destruct (categoryRoot_split a) as (_ & Ha1 & Ha2 & Ha3).
  destruct (categoryRoot_split a') as (Hs' & Hb1 & Hb2 & Hb3).
  set (lp := "uploads/" +:+ categoryRoot a' +:+ "/" +:+ keyOf a ownerId f) in *.
  assert (Str.split Path.sep lp
          = "uploads" :: categoryRoot a' :: categoryRoot a :: tail ++ [f]) as Hlp.
  { unfold lp.
    change ("uploads/" +:+ ?c +:+ "/" +:+ ?k)
      with ("uploads" +:+ String Path.sep (c +:+ String Path.sep k)).
    by rewrite !split_app, Hs', Hk. }
  assert (basenameOf lp = f) as Hb.
  { unfold basenameOf, Str.pop.
    change (Str.split "/" ?x) with (Str.split Path.sep x).
    rewrite Hlp.
    change ("uploads" :: categoryRoot a' :: categoryRoot a :: tail ++ [f])
      with (("uploads" :: categoryRoot a' :: categoryRoot a :: tail) ++ [f]).
    rewrite last_snoc. by destruct f. }
  assert (".." ∉ "uploads" :: categoryRoot a' :: categoryRoot a :: tail ++ [f])
    as Hnd' by (do 2 (apply not_elem_of_cons; split; [done|]); exact Hnd).
  unfold candidatePaths in Hp. rewrite Hb in Hp. rewrite !elem_of_cons in Hp.
  rewrite <- !app_assoc. cbn [app].
  destruct Hp as [->|[->|[->|[->|Hp]]]]; [..|by apply elem_of_nil in Hp].
  - rewrite resolve_join_no_dotdot;
      cbn [flat_map]; rewrite ?List.app_nil_r, ?Hlp; try done.
    rewrite !namingSegs_cons, namingSegs_snoc by done. split.
    + by rewrite !app_comm_cons, app_assoc, last_snoc.
    + intros Heq. apply app_inv_head in Heq. congruence.
  - rewrite resolve_join_no_dotdot;
      cbn [flat_map]; change (Str.split Path.sep "uploads") with ["uploads"];
      cbn [app]; rewrite ?List.app_nil_r, ?Hlp;
      try (done || by apply not_elem_of_cons).
    rewrite !namingSegs_cons, namingSegs_snoc by done. split.
    + by rewrite !app_comm_cons, app_assoc, last_snoc.
    + intros Heq. apply app_inv_head in Heq.
      apply (f_equal (λ l, l !! 1%nat)) in Heq. cbn in Heq.
      injection Heq as Heq. by destruct a.
  - rewrite resolve_join_no_dotdot;
      cbn [flat_map]; rewrite ?List.app_nil_r, ?Hlp; try done.
    rewrite !namingSegs_cons, namingSegs_snoc by done. split.
    + by rewrite !app_comm_cons, app_assoc, last_snoc.
    + intros Heq. apply app_inv_head in Heq. congruence.
  - rewrite resolve_join_no_dotdot;
      cbn [flat_map]; change (Str.split Path.sep "uploads") with ["uploads"];
      rewrite ?Hs', ?(split_plain _ f Hm); cbn [app]; try done;
      [|rewrite !not_elem_of_cons; repeat split; try done;
        apply not_elem_of_nil].
    rewrite !namingSegs_cons by done. unfold namingSegs at 1.
    rewrite filter_nil. split.
    + by rewrite last_app.
    + intros Heq. apply app_inv_head in Heq. congruence.
Qed.

(** X11: the categories are kept apart on the local backend.  The
    bare reference that a save of one category answered is not found by
    the delete of another category: that delete answers [false] and
    leaves everything as it is.  (The owner id and the sub-kind hold no
    [..] segment, and the identifier is fresh.) *)
Theorem delete_other_category_misses a a' this file ownerId uuid w ref w1 :
  isVercel this = false →
  Path.isAbsolute (cwd process) = true → validUuid uuid = true →
  freshUuid uuid (files w) →
  noDotDot ownerId → subKindNoDotDot a →
  categoryRoot a' ≠ categoryRoot a →
  Save process a this (Some file) ownerId uuid w = (Returned ref, w1) →
  Delete process a' this (Some ref) w1 = (Returned false, w1).
Proof.
  intros Hv Hc Hu Hfresh Ho Ha Hcat Hs.
  pose proof (save_local_reference process _ _ _ _ _ _ _ _ Hv Hs) as ->.
  rewrite (Save_local process) in Hs by done. cbv zeta in Hs.
  set (f := uuid +:+ localExt a file) in *.
  assert (plainName f) as Hf
    by apply (validUuid_plain _ _ Hu (localExt_no_sep a file)).
  destruct (ensureDir _ _) as [[[]|e1] fs1] eqn:E1; [|done].
  destruct (Fs.write _ _ _) as [[[]|e2] fs2] eqn:Ew; [|done].
  injection Hs as <-.
  apply write_returned in Ew as (-> & _).
  rewrite (resolve_join_file _ f (ownerDir_absolute process a ownerId Hc) Hf).
  set (w1 := mkWorld _ _ _).
  destruct (Delete_returns process a' this (Some (keyOf a ownerId f)) w1)
    as (deleted & w' & Hd).
  rewrite Hd. rewrite Delete_unfold in Hd.
  pose proof (deleteIn_local_outcome process _ _ _ _ _ _ Hv Hd) as Hout.
  destruct deleted; [exfalso|by rewrite Hout].
  destruct Hout as (r & lp & p & data & [= <-] & Hn & Hp & Hfile & _).
  rewrite keyOf_other_category in Hn by done. injection Hn as <-.
  destruct (other_category_candidates a a' ownerId f p Hc Ho Ha Hf Hcat Hp)
    as [Hlast Hne].
  unfold w1 in Hfile. cbn [files] in Hfile.
  rewrite lookup_insert_ne in Hfile by done.
  eapply ensureDir_files in Hfile; [|exact E1].
  specialize (Hfresh _ _ f Hfile Hlast). unfold f in Hfresh.
  by rewrite prefix_app in Hfresh.
Qed.

Lemma deleteIn_rooted_saved a category this file ownerId uuid w ref w1 :
  isVercel this = false →
  Path.isAbsolute (cwd process) = true → validUuid uuid = true →
  Save process a this (Some file) ownerId uuid w = (Returned ref, w1) →
  deleteIn process category this (Some ("uploads/" +:+ ref)) w1
  = (Returned true,
     mkWorld (delete (Fs.resolve (ownerDir process a ownerId)
                        ++ [uuid +:+ localExt a file]) (files w1))
       (store w1) (calls w1)).
Proof.
  intros Hv Hc Hu Hs.
  pose proof (save_local_reference process _ _ _ _ _ _ _ _ Hv Hs) as ->.
  rewrite (Save_local process) in Hs by done. cbv zeta in Hs.
  set (f := uuid +:+ localExt a file) in *.
  assert (plainName f) as Hf
    by apply (validUuid_plain _ _ Hu (localExt_no_sep a file)).
  destruct (ensureDir _ _) as [[[]|e1] fs1] eqn:E1; [|done].
  destruct (Fs.write _ _ _) as [[[]|e2] fs2] eqn:Ew; [|done].
  injection Hs as <-.
  apply write_returned in Ew as (Hfs2 & Hstat & _).
  rewrite <- (resolve_join_file _ f (ownerDir_absolute process a ownerId Hc) Hf).
  set (P := Path.join [ownerDir process a ownerId; f]) in *.
  rewrite (deleteIn_local process) by done.
  assert (localNormalize category ("uploads/" +:+ keyOf a ownerId f)
          = Some ("uploads/" +:+ keyOf a ownerId f)) as ->.
  { unfold localNormalize, urlToPath, stripLeadingSlash, rootQualify.
    assert (Str.startsWith ("uploads/" +:+ keyOf a ownerId f) "http" = false)
      as -> by done.
    cbn [fmap option_fmap option_map compose].
    assert (Str.startsWith ("uploads/" +:+ keyOf a ownerId f) "/" = false)
      as -> by done.
    by rewrite (prefix_app "uploads/" _). }
  cbn [files store calls].
  unfold unlinkFirst, candidatePaths. cbn [List.find].
  rewrite (local_paths_agree process) by done. fold P.
  assert (Fs.exists_ fs2 P = true) as -> by (unfold Fs.exists_; by rewrite Hstat).
  cbn [fmap option_fmap option_map]. unfold Fs.unlink. by rewrite Hstat.
Qed.

(** What the delete of a saved reference leaves: the file the save wrote
    is gone, and nothing else has changed. *)
Lemma delete_saved_exact a this file ownerId uuid w ref w1 :
  isVercel this = false →
  Path.isAbsolute (cwd process) = true → validUuid uuid = true →
  Save process a this (Some file) ownerId uuid w = (Returned ref, w1) →
  Delete process a this (Some ref) w1
  = (Returned true,
     mkWorld (delete (Fs.resolve (ownerDir process a ownerId)
                        ++ [uuid +:+ localExt a file]) (files w1))
       (store w1) (calls w1)).
Proof.
  intros Hv Hc Hu Hs. rewrite Delete_unfold.
  rewrite <- (deleteIn_rooted_saved a (categoryRoot a) this file ownerId uuid
                w ref w1 Hv Hc Hu Hs).
  symmetry. apply (deleteIn_root_spelling process); [done|].
  rewrite (save_local_reference process _ _ _ _ _ _ _ _ Hv Hs).
  apply keyOf_in_category.
Qed.

(** X12: with the storage root in front, the reference of a saved
    file is deleted by the delete of any category: the first place every
    delete looks at is the path below the working directory, whatever
    the category. *)
Theorem delete_rooted_any_category a a' this file ownerId uuid w ref w1 :
  isVercel this = false →
  Path.isAbsolute (cwd process) = true → validUuid uuid = true →
  Save process a this (Some file) ownerId uuid w = (Returned ref, w1) →
  Delete process a' this (Some ("uploads/" +:+ ref)) w1
  = (Returned true,
     mkWorld (delete (Fs.resolve (ownerDir process a ownerId)
                        ++ [uuid +:+ localExt a file]) (files w1))
       (store w1) (calls w1)).
Proof.
  intros. rewrite Delete_unfold. by eapply deleteIn_rooted_saved.
Qed.

End Categories.

Section CallerFacts.
Context {D B : Type} `{Database D} `{BlobStore B} `{UrlParser}.
Variable process : Process.
Variable platformMessage : JsError → string.

Implicit Types (this : UploadService) (s : App D B).

Ltac unfoldN :=
  unfold attempt, andThen, findUser, findProfile, saveProfile, findMedia,
    deleteMedia, model, fulfil, reject.

(** A delete called from a service never rejects. *)
Lemma gateway_delete a this ref s :
  ∃ deleted w',
    Delete process a this ref (world s) = (Returned deleted, w')
    ∧ gateway platformMessage (Delete process a this ref) s
      = (Fulfilled deleted, mkApp (db s) (dbCalls s) w').
Proof.
  unfold gateway.
  destruct (Delete_returns process a this ref (world s)) as (deleted & w' & ->).
  eauto.
Qed.

(** X13: [UserProfileService.deleteProfileImage] never throws, and it
    clears the reference of a profile only after the gateway answered
    [true]: a profile is handed to [save] only if it is the profile
    found for the user with its image set to [null], and the delete of
    the image that profile named answered [true]. *)
Theorem profile_cleared_only_after_delete this userId now s r s' :
  UserProfileService.deleteProfileImage process platformMessage this
    userId now s = (r, s') →
  (∃ response, r = Fulfilled response)
  ∧ ∃ new, dbCalls s' = dbCalls s ++ new
      ∧ ∀ saved, ProfileSave saved ∈ new →
          ∃ profile d1,
            userProfileModel_findOne userId (db s)
            = (Fulfilled (Some profile), d1)
            ∧ saved = {| user_id := user_id profile; profile_image := None |}
            ∧ deleteProfileImage process this (profile_image profile) (world s)
              = (Returned true, world s').
Proof.
  unfold UserProfileService.deleteProfileImage. unfoldN.
  destruct (userProfileModel_findOne userId (db s)) as [[[profile|]|e] d1] eqn:Ef;
    cbn [db dbCalls world].
  2,3: intros [= <- <-]; (split; [eauto|]); exists [ProfileFindOne userId];
       (split; [done|]); intros saved Hin;
       by apply list_elem_of_singleton in Hin.
  destruct (falsy (profile_image profile)).
  { intros [= <- <-]. split; [eauto|]. exists [ProfileFindOne userId].
    split; [done|]. intros saved Hin. by apply list_elem_of_singleton in Hin. }
  destruct (gateway_delete ProfileImage this (profile_image profile)
              (mkApp d1 (dbCalls s ++ [ProfileFindOne userId]) (world s)))
    as (deleted & w' & Hd & Hg).
  cbn [Delete db dbCalls world] in Hd, Hg. rewrite Hg. cbn [db dbCalls world].
  destruct deleted.
  - set (cleared := {| user_id := user_id profile; profile_image := None |}).
    cbn [db dbCalls world].
    destruct (userProfileModel_save cleared d1) as [[[]|e] d2];
      intros [= <- <-]; (split; [eauto|]);
      exists [ProfileFindOne userId; ProfileSave cleared];
      (split; [by rewrite <- app_assoc|]); intros saved Hin;
      apply elem_of_cons in Hin as [[=]|Hin];
      apply list_elem_of_singleton in Hin; injection Hin as ->;
      exists profile, d1; done.
  - intros [= <- <-]. split; [eauto|]. exists [ProfileFindOne userId].
    split; [done|]. intros saved Hin. by apply list_elem_of_singleton in Hin.
Qed.

(** X14: on the local backend [UserProfileService.deleteProfileImage]
    either leaves the world as it is and asks the profile model for the
    profile only, or removes exactly one file, the one a delete of the
    stored reference finds, and then hands the profile to [save]. *)
Theorem profile_delete_local_footprint this userId now s r s' :
  isVercel this = false →
  UserProfileService.deleteProfileImage process platformMessage this
    userId now s = (r, s') →
  (dbCalls s' = dbCalls s ++ [ProfileFindOne userId] ∧ world s' = world s)
  ∨ ∃ profile ref localPath p data,
      dbCalls s' = dbCalls s ++ [ ProfileFindOne userId;
                                  ProfileSave {| user_id := user_id profile;
                                                 profile_image := None |} ]
      ∧ profile_image profile = Some ref
      ∧ localNormalize "profile-images" ref = Some localPath
      ∧ p ∈ candidatePaths process "profile-images" localPath
      ∧ files (world s) !! Fs.resolve p = Some (File data)
      ∧ world s' = mkWorld (delete (Fs.resolve p) (files (world s)))
                     (store (world s)) (calls (world s)).
Proof.
  intros Hv. unfold UserProfileService.deleteProfileImage. unfoldN.
  destruct (userProfileModel_findOne userId (db s)) as [[[profile|]|e] d1] eqn:Ef;
    cbn [db dbCalls world].
  2,3: by intros [= <- <-]; left.
  destruct (falsy (profile_image profile)); [by intros [= <- <-]; left|].
  destruct (gateway_delete ProfileImage this (profile_image profile)
              (mkApp d1 (dbCalls s ++ [ProfileFindOne userId]) (world s)))
    as (deleted & w' & Hd & Hg).
  cbn [Delete db dbCalls world] in Hd, Hg. rewrite Hg. cbn [db dbCalls world].
  pose proof (deleteIn_local_outcome process "profile-images" this _ _ _ _ Hv Hd)
    as Hout.
  destruct deleted.
  - destruct Hout as (ref & localPath & p & data & Href & Hn & Hp & Hf & ->).
    cbn [db dbCalls world].
    destruct (userProfileModel_save
                {| user_id := user_id profile; profile_image := None |} d1)
      as [[[]|e] d2];
      intros [= <- <-]; right; exists profile, ref, localPath, p, data;
      cbn [dbCalls world]; by rewrite <- app_assoc.
  - intros [= <- <-]. left. by rewrite Hout.
Qed.

(** X15: [MediaService.remove] deletes the record whatever the gateway
    answered.  Once [findOne] has answered a document, the delete of its
    file is run and [deleteOne] is called for the id, whether or not the
    file was found; the answer is [{ deleted: true }] exactly when
    [deleteOne] returned. *)
Theorem media_record_deleted_whatever_storage_answers
  this id userId isAdmin media d1 s :
  mediaModel_findOne id (if negb isAdmin then Some userId else None) (db s)
  = (Fulfilled (Some media), d1) →
  ∃ deleted w',
    deleteInstagramMedia process this (Some (m_url media)) (world s)
    = (Returned deleted, w')
    ∧ MediaService.remove process platformMessage this id userId isAdmin s
      = (match (mediaModel_deleteOne id d1).1 with
         | Fulfilled _ => Fulfilled (JObject [("deleted", JBool true)])
         | Rejected (NotFoundException message) =>
             Rejected (NotFoundException message)
         | Rejected error =>
             Rejected (BadRequestException
                         ("Failed to delete media: " +:+ messageOf error))
         end,
         mkApp (mediaModel_deleteOne id d1).2
           (dbCalls s ++ [ MediaFindOne id
                             (if negb isAdmin then Some userId else None);
                           MediaDeleteOne id ])
           w').
Proof.
  intros Hfind. unfold MediaService.remove. unfoldN. cbv zeta.
  rewrite Hfind. cbn [db dbCalls world].
  destruct (gateway_delete (InstagramMedia "" "") this (Some (m_url media))
              (mkApp d1 (dbCalls s
                           ++ [MediaFindOne id
                                 (if negb isAdmin then Some userId else None)])
                 (world s)))
    as (deleted & w' & Hd & Hg).
  cbn [Delete db dbCalls world] in Hd, Hg. exists deleted, w'.
  split; [done|]. rewrite Hg. cbn [db dbCalls world]. rewrite <- app_assoc.
  by destruct (mediaModel_deleteOne id d1) as [[[]|[m|m|m]] d2].
Qed.

(** X16: what [MediaService.remove] lets out.  It answers
    [{ deleted: true }] or throws one of the two HTTP exceptions, a bad
    request bearing the message of what went wrong; no other error
    escapes.  When [findOne] answers no document it throws
    [Media not found] and has touched neither the record nor the
    storage. *)
Theorem media_remove_outcomes this id userId isAdmin s :
  let query := if negb isAdmin then Some userId else None in
  let (r, s') :=
    MediaService.remove process platformMessage this id userId isAdmin s in
  match r with
  | Fulfilled response => response = JObject [("deleted", JBool true)]
  | Rejected (NotFoundException _) => True
  | Rejected (BadRequestException message) =>
      ∃ cause, message = "Failed to delete media: " +:+ cause
  | Rejected (OtherError _) => False
  end
  ∧ ∀ d1, mediaModel_findOne id query (db s) = (Fulfilled None, d1) →
      r = Rejected (NotFoundException "Media not found")
      ∧ s' = mkApp d1 (dbCalls s ++ [MediaFindOne id query]) (world s).
Proof.
  cbv zeta. unfold MediaService.remove. unfoldN. cbv zeta.
  destruct (mediaModel_findOne id _ (db s)) as [[[media|]|[m|m|m]] d1] eqn:Ef;
    cbn [db dbCalls world]; try (split; [eauto|]; by intros ? [= <-]).
  destruct (gateway_delete (InstagramMedia "" "") this (Some (m_url media))
              (mkApp d1 (dbCalls s
                           ++ [MediaFindOne id
                                 (if negb isAdmin then Some userId else None)])
                 (world s)))
    as (deleted & w' & Hd & Hg).
  cbn [Delete db dbCalls world] in Hd, Hg. rewrite Hg. cbn [db dbCalls world].
  destruct (mediaModel_deleteOne id d1) as [[[]|[m|m|m]] d2];
    (split; [eauto|]; by intros ? [=]).
Qed.

(** X17: [AdminProfileService.deleteUserProfileImage] asks first
    whether the user was created by the admin, and unless that question
    is answered with a user it does nothing else: no other model is
    called and the world is as it was. *)
Theorem admin_delete_needs_created_user this adminId userId now s r s' :
  AdminProfileService.deleteUserProfileImage process platformMessage this
    adminId userId now s = (r, s') →
  (∃ user d1, userModel_findOne userId adminId (db s)
              = (Fulfilled (Some user), d1))
  ∨ (dbCalls s' = dbCalls s ++ [UserFindOne userId adminId]
     ∧ world s' = world s
     ∧ db s' = (userModel_findOne userId adminId (db s)).2
     ∧ ∀ response, r = Fulfilled response →
         field "success" response = Some (JBool false)).
Proof.
  unfold AdminProfileService.deleteUserProfileImage. unfoldN.
  destruct (userModel_findOne userId adminId (db s))
    as [[[user|]|[m|m|m]] d1] eqn:Ef; cbn [db dbCalls world]; [by eauto|..];
    intros [= <- <-]; right; repeat split; try done; by intros ? [= <-].
Qed.

(** X18: once the admin's question is answered with a user,
    [AdminProfileService.deleteUserProfileImage] does to the database
    and to the world exactly what [UserProfileService.deleteProfileImage]
    does for that user, and reports success in the same cases; the one
    difference is that a [NotFoundException] thrown by a model is thrown
    on by the admin's method and answered with a failure by the user's. *)
Theorem admin_delete_acts_as_user_delete this adminId userId now user d1 s :
  userModel_findOne userId adminId (db s) = (Fulfilled (Some user), d1) →
  let s1 := mkApp d1 (dbCalls s ++ [UserFindOne userId adminId]) (world s) in
  let (ra, sa) :=
    AdminProfileService.deleteUserProfileImage process platformMessage this
      adminId userId now s in
  let (ru, su) :=
    UserProfileService.deleteProfileImage process platformMessage this
      userId now s1 in
  sa = su
  ∧ ∃ response, ru = Fulfilled response
      ∧ match ra with
        | Fulfilled response' =>
            field "success" response' = field "success" response
        | Rejected error =>
            (∃ message, error = NotFoundException message)
            ∧ field "success" response = Some (JBool false)
        end.
Proof.
  intros Hu. cbv zeta.
  unfold AdminProfileService.deleteUserProfileImage,
    UserProfileService.deleteProfileImage. unfoldN.
  rewrite Hu. cbn [db dbCalls world].
  destruct (userProfileModel_findOne userId d1) as [[[profile|]|[m|m|m]] d2];
    cbn [db dbCalls world]; try (split; [done|]; by eauto).
  destruct (falsy (profile_image profile)); [split; [done|]; by eauto|].
  destruct (gateway_delete ProfileImage this (profile_image profile)
              (mkApp d2 ((dbCalls s ++ [UserFindOne userId adminId])
                           ++ [ProfileFindOne userId]) (world s)))
    as (deleted & w' & Hd & Hg).
  cbn [Delete db dbCalls world] in Hd, Hg. rewrite Hg. cbn [db dbCalls world].
  destruct deleted; [|split; [done|]; by eauto].
  cbn [db dbCalls world].
  destruct (userProfileModel_save
              {| user_id := user_id profile; profile_image := None |} d2)
    as [[[]|[m|m|m]] d3];
    split; try done; by eauto.
Qed.

(** X19: a profile image goes the whole way round on the local
    backend.  When the gateway has saved an image for a user and the
    user's profile holds the reference it answered, then
    [UserProfileService.deleteProfileImage] removes the file the save
    wrote and nothing else, hands the profile with its image set to
    [null] to [save], and, [save] returning, answers success. *)
Theorem profile_image_round_trip this file userId uuid now w ref w1
  d log profile d1 d2 :
  isVercel this = false →
  Path.isAbsolute (cwd process) = true → validUuid uuid = true →
  Save process ProfileImage this (Some file) userId uuid w = (Returned ref, w1) →
  userProfileModel_findOne userId d = (Fulfilled (Some profile), d1) →
  profile_image profile = Some ref →
  userProfileModel_save {| user_id := user_id profile; profile_image := None |}
    d1 = (Fulfilled tt, d2) →
  UserProfileService.deleteProfileImage process platformMessage this
    userId now (mkApp d log w1)
  = (Fulfilled (JObject [ ("success", JBool true);
                          ("message",
                           JString "Profile image deleted successfully");
                          ("timestamp", JString now) ]),
     mkApp d2
       (log ++ [ ProfileFindOne userId;
                   ProfileSave {| user_id := user_id profile;
                                  profile_image := None |} ])
       (mkWorld
          (delete (Fs.resolve (ownerDir process ProfileImage userId)
                     ++ [uuid +:+ localExt ProfileImage file]) (files w1))
          (store w1) (calls w1))).
Proof.
  intros Hv Hc Hu Hs Hfind Himg Hsave.
  pose proof (delete_saved_exact process ProfileImage this file userId uuid
                w ref w1 Hv Hc Hu Hs) as Hd.
  cbn [Delete] in Hd.
  unfold UserProfileService.deleteProfileImage. unfoldN.
  cbn [db dbCalls world]. rewrite Hfind. cbn [db dbCalls world].
  rewrite Himg.
  assert (falsy (Some ref) = false) as ->.
  { rewrite (save_local_reference process _ _ _ _ _ _ _ _ Hv Hs). done. }
  unfold gateway. cbn [db dbCalls world]. rewrite Hd. cbn [db dbCalls world].
  rewrite Hsave. by rewrite <- app_assoc.
Qed.

(** X20: a medium goes the whole way round on the local backend.  When
    the gateway has saved a medium and the record found for the id holds
    the reference it answered, [MediaService.remove] removes the file the
    save wrote and nothing else, calls [deleteOne] for the id and,
    [deleteOne] returning, answers [{ deleted: true }]. *)
Theorem media_round_trip this file id userId isAdmin mediaType fileType uuid
  w ref w1 d log media d1 d2 :
  isVercel this = false →
  Path.isAbsolute (cwd process) = true → validUuid uuid = true →
  Save process (InstagramMedia mediaType fileType) this (Some file) userId uuid w
  = (Returned ref, w1) →
  mediaModel_findOne id (if negb isAdmin then Some userId else None) d
  = (Fulfilled (Some media), d1) →
  m_url media = ref →
  mediaModel_deleteOne id d1 = (Fulfilled tt, d2) →
  MediaService.remove process platformMessage this id userId isAdmin
    (mkApp d log w1)
  = (Fulfilled (JObject [("deleted", JBool true)]),
     mkApp d2
       (log ++ [ MediaFindOne id (if negb isAdmin then Some userId else None);
                   MediaDeleteOne id ])
       (mkWorld
          (delete (Fs.resolve (ownerDir process
                                 (InstagramMedia mediaType fileType) userId)
                     ++ [uuid +:+ localExt (InstagramMedia mediaType fileType)
                                    file]) (files w1))
          (store w1) (calls w1))).
Proof.
  intros Hv Hc Hu Hs Hfind Hurl Hdel.
  pose proof (delete_saved_exact process (InstagramMedia mediaType fileType)
                this file userId uuid w ref w1 Hv Hc Hu Hs) as Hd.
  cbn [Delete] in Hd.
  unfold MediaService.remove. unfoldN. cbv zeta.
  cbn [db dbCalls world]. rewrite Hfind. cbn [db dbCalls world].
  rewrite Hurl. unfold gateway. cbn [db dbCalls world]. rewrite Hd.
  cbn [db dbCalls world]. rewrite Hdel. by rewrite <- app_assoc.
Qed.

End CallerFacts.

Section MoreWitnesses.
#[local] Existing Instances Demo.memStore Demo.plainUrls DemoDb.memDb
  DemoDb.down.

Lemma delete_leading_slash_witness :
  Delete (Demo.proc None) ProfileImage (Demo.service false)
    (Some ("/" +:+ "profile-images/u1/old.jpg")) Demo.world
  = Delete (Demo.proc None) ProfileImage (Demo.service false)
      (Some "profile-images/u1/old.jpg") Demo.world.
Proof.
  apply (delete_leading_slash (Demo.proc None) ProfileImage
           (Demo.service false) "profile-images/u1/old.jpg" Demo.world);
    [discriminate|by_evaluation..].
Defined.

Lemma delete_url_as_path_witness :
  Delete (Demo.proc None) ProfileImage (Demo.service false)
    (Some "http://localhost:3000/profile-images/u1/old.jpg") Demo.world
  = Delete (Demo.proc None) ProfileImage (Demo.service false)
      (Some "/profile-images/u1/old.jpg") Demo.world.
Proof.
  apply (delete_url_as_path (Demo.proc None) ProfileImage (Demo.service false)
           "http://localhost:3000/profile-images/u1/old.jpg"
           "/profile-images/u1/old.jpg" Demo.world);
    [by_evaluation..|discriminate|by_evaluation].
Defined.

Lemma delete_root_spelling_witness :
  Delete (Demo.proc None) ProfileImage (Demo.service false)
    (Some ("uploads/" +:+ "profile-images/u1/old.jpg")) Demo.world
  = Delete (Demo.proc None) ProfileImage (Demo.service false)
      (Some "profile-images/u1/old.jpg") Demo.world.
Proof.
  apply (delete_root_spelling (Demo.proc None) ProfileImage
           (Demo.service false) "profile-images/u1/old.jpg" Demo.world);
    by_evaluation.
Defined.

Lemma delete_local_footprint_witness :
  ∃ r localPath p data,
    Some "/profile-images/u1/old.jpg" = Some r
    ∧ localNormalize (categoryRoot ProfileImage) r = Some localPath
    ∧ p ∈ candidatePaths (Demo.proc None) (categoryRoot ProfileImage) localPath
    ∧ files Demo.world !! Fs.resolve p = Some (File data)
    ∧ files (Delete (Demo.proc None) ProfileImage (Demo.service false)
               (Some "/profile-images/u1/old.jpg") Demo.world).2
      = delete (Fs.resolve p) (files Demo.world)
    ∧ store (Delete (Demo.proc None) ProfileImage (Demo.service false)
               (Some "/profile-images/u1/old.jpg") Demo.world).2
      = store Demo.world
    ∧ calls (Delete (Demo.proc None) ProfileImage (Demo.service false)
               (Some "/profile-images/u1/old.jpg") Demo.world).2
      = calls Demo.world.
Proof.
  apply (delete_local_footprint (Demo.proc None) ProfileImage
           (Demo.service false) (Some "/profile-images/u1/old.jpg") true
           Demo.world); by_evaluation.
Defined.

Lemma save_local_footprint_witness :
  files (Save (Demo.proc None) ProfileImage (Demo.service false)
           (Some (Demo.jpeg "me.jpg")) "u1" Demo.uuid1 Demo.world).2
    !! ["srv"; "app"; "uploads"; "x.jpg"] = Some (File [Byte.x02]).
Proof.
  apply (save_local_footprint (Demo.proc None) ProfileImage
           (Demo.service false) (Demo.jpeg "me.jpg") "u1" Demo.uuid1
           Demo.world
           (Save (Demo.proc None) ProfileImage (Demo.service false)
              (Some (Demo.jpeg "me.jpg")) "u1" Demo.uuid1 Demo.world).1);
    [by_evaluation..|exact demo_world_fresh|by_evaluation|by_evaluation].
Defined.

Lemma delete_stays_under_uploads_witness :
  ∃ k data,
    (Fs.resolve (cwd (Demo.proc None)) ++ ["uploads"]) `prefix_of` k
    ∧ files Demo.world !! k = Some (File data)
    ∧ files (Delete (Demo.proc None) ProfileImage (Demo.service false)
               (Some "profile-images/u1/old.jpg") Demo.world).2
      = delete k (files Demo.world).
Proof.
  apply (delete_stays_under_uploads (Demo.proc None) ProfileImage
           (Demo.service false) "profile-images/u1/old.jpg"
           "uploads/profile-images/u1/old.jpg" Demo.world);
    [by_evaluation..| |by_evaluation].
  apply (bool_decide_unpack _). by_evaluation_true.
Defined.

Lemma save_stays_under_category_witness :
  ∃ k,
    (Fs.resolve (cwd (Demo.proc None))
       ++ ["uploads"; categoryRoot (InstagramMedia "reel" "video")])
      `prefix_of` k
    ∧ last k = Some (Demo.uuid1
                       +:+ localExt (InstagramMedia "reel" "video")
                             (Demo.jpeg "clip.mp4"))
    ∧ files (Save (Demo.proc None) (InstagramMedia "reel" "video")
               (Demo.service false) (Some (Demo.jpeg "clip.mp4")) "u1"
               Demo.uuid1 Demo.world).2 !! k
      = Some (File (buffer (Demo.jpeg "clip.mp4"))).
Proof.
  apply (save_stays_under_category (Demo.proc None)
           (InstagramMedia "reel" "video") (Demo.service false)
           (Demo.jpeg "clip.mp4") "u1" Demo.uuid1 Demo.world
           "instagram-media/reel/u1/9b2f6c1e-3a4d-4f70-8c21-5d6e7f8a9b0c.mp4");
    [by_evaluation..| | |by_evaluation];
    apply (bool_decide_unpack _); by_evaluation_true.
Defined.

Lemma saves_with_distinct_ids_witness :
  let w1 := (Save (Demo.proc None) ProfileImage (Demo.service false)
               (Some (Demo.jpeg "me.jpg")) "u1" Demo.uuid1 Demo.world).2 in
  let w2 := (Save (Demo.proc None) (PropertyImage "post") (Demo.service false)
               (Some (Demo.jpeg "house.jpg")) "p3"
               "0a1b2c3d-4e5f-4a6b-8c7d-9e0f1a2b3c4d" w1).2 in
  "profile-images/u1/9b2f6c1e-3a4d-4f70-8c21-5d6e7f8a9b0c.jpg"
  ≠ "property-images/p3/0a1b2c3d-4e5f-4a6b-8c7d-9e0f1a2b3c4d.jpg"
  ∧ files w2 !! (Fs.resolve (ownerDir (Demo.proc None) ProfileImage "u1")
                   ++ [Demo.uuid1 +:+ localExt ProfileImage (Demo.jpeg "me.jpg")])
    = Some (File (buffer (Demo.jpeg "me.jpg")))
  ∧ files w2 !! (Fs.resolve (ownerDir (Demo.proc None) (PropertyImage "post") "p3")
                   ++ ["0a1b2c3d-4e5f-4a6b-8c7d-9e0f1a2b3c4d"
                         +:+ localExt (PropertyImage "post") (Demo.jpeg "house.jpg")])
    = Some (File (buffer (Demo.jpeg "house.jpg"))).
Proof.
  cbv zeta.
  apply (saves_with_distinct_ids (Demo.proc None) ProfileImage
           (PropertyImage "post") (Demo.service false) (Demo.jpeg "me.jpg")
           (Demo.jpeg "house.jpg") "u1" "p3" Demo.uuid1
           "0a1b2c3d-4e5f-4a6b-8c7d-9e0f1a2b3c4d" Demo.world
           "profile-images/u1/9b2f6c1e-3a4d-4f70-8c21-5d6e7f8a9b0c.jpg"
           (Save (Demo.proc None) ProfileImage (Demo.service false)
              (Some (Demo.jpeg "me.jpg")) "u1" Demo.uuid1 Demo.world).2
           "property-images/p3/0a1b2c3d-4e5f-4a6b-8c7d-9e0f1a2b3c4d.jpg");
    [by_evaluation|by_evaluation|discriminate|intros _; by_evaluation
    |by_evaluation|by_evaluation].
Defined.

Lemma delete_saved_any_spelling_witness :
  let w1 := (Save (Demo.proc None) ProfileImage (Demo.service false)
               (Some (Demo.jpeg "me.jpg")) "u1" Demo.uuid1 Demo.world).2 in
  ∃ w2, Delete (Demo.proc None) ProfileImage (Demo.service false)
          (Some "http://localhost:3000/uploads/profile-images/u1/9b2f6c1e-3a4d-4f70-8c21-5d6e7f8a9b0c.jpg")
          w1 = (Returned true, w2)
        ∧ ∃ w3, Delete (Demo.proc None) ProfileImage (Demo.service false)
                  (Some "http://localhost:3000/uploads/profile-images/u1/9b2f6c1e-3a4d-4f70-8c21-5d6e7f8a9b0c.jpg")
                  w2 = (Returned false, w3).
Proof.
  cbv zeta.
  apply (delete_saved_any_spelling (Demo.proc None) ProfileImage
           (Demo.service false) (Demo.jpeg "me.jpg") "u1" Demo.uuid1
           Demo.world
           "profile-images/u1/9b2f6c1e-3a4d-4f70-8c21-5d6e7f8a9b0c.jpg");
    [by_evaluation|by_evaluation|by_evaluation|exact demo_world_fresh
    |by_evaluation|].
  right. split; [by_evaluation|].
  exists "/uploads/profile-images/u1/9b2f6c1e-3a4d-4f70-8c21-5d6e7f8a9b0c.jpg".
  split; [by_evaluation|].
  apply (bool_decide_unpack _). by_evaluation_true.
Defined.

Lemma delete_other_category_misses_witness :
  let w1 := (Save (Demo.proc None) ProfileImage (Demo.service false)
               (Some (Demo.jpeg "me.jpg")) "u1" Demo.uuid1 Demo.world).2 in
  Delete (Demo.proc None) (PropertyImage "post") (Demo.service false)
    (Some "profile-images/u1/9b2f6c1e-3a4d-4f70-8c21-5d6e7f8a9b0c.jpg") w1
  = (Returned false, w1).
Proof.
  cbv zeta.
  apply (delete_other_category_misses (Demo.proc None) ProfileImage
           (PropertyImage "post") (Demo.service false) (Demo.jpeg "me.jpg")
           "u1" Demo.uuid1 Demo.world);
    [by_evaluation|by_evaluation|by_evaluation|exact demo_world_fresh
    |apply (bool_decide_unpack _); by_evaluation_true|exact I|discriminate
    |by_evaluation].
Defined.

Lemma delete_rooted_any_category_witness :
  let w1 := (Save (Demo.proc None) ProfileImage (Demo.service false)
               (Some (Demo.jpeg "me.jpg")) "u1" Demo.uuid1 Demo.world).2 in
  Delete (Demo.proc None) (PropertyImage "post") (Demo.service false)
    (Some ("uploads/"
             +:+ "profile-images/u1/9b2f6c1e-3a4d-4f70-8c21-5d6e7f8a9b0c.jpg"))
    w1
  = (Returned true,
     mkWorld (delete (Fs.resolve (ownerDir (Demo.proc None) ProfileImage "u1")
                        ++ [Demo.uuid1
                              +:+ localExt ProfileImage (Demo.jpeg "me.jpg")])
                (files w1))
       (store w1) (calls w1)).
Proof.
  cbv zeta.
  apply (delete_rooted_any_category (Demo.proc None) ProfileImage
           (PropertyImage "post") (Demo.service false) (Demo.jpeg "me.jpg")
           "u1" Demo.uuid1 Demo.world); by_evaluation.
Defined.

Lemma profile_cleared_only_after_delete_witness :
  let s := mkApp DemoDb.db0 [] DemoDb.savedImage in
  let out := UserProfileService.deleteProfileImage (Demo.proc None)
               DemoDb.platformMessage (Demo.service false)
               "u1" "2026-01-01T00:00:00.000Z" s in
  (∃ response, out.1 = Fulfilled response)
  ∧ ∃ new, dbCalls out.2 = dbCalls s ++ new
      ∧ ∀ saved, ProfileSave saved ∈ new →
          ∃ profile d1,
            userProfileModel_findOne "u1" (db s)
            = (Fulfilled (Some profile), d1)
            ∧ saved = {| user_id := user_id profile; profile_image := None |}
            ∧ deleteProfileImage (Demo.proc None) (Demo.service false)
                (profile_image profile) (world s)
              = (Returned true, world out.2).
Proof.
  cbv zeta.
  apply (profile_cleared_only_after_delete (Demo.proc None)
           DemoDb.platformMessage (Demo.service false) "u1"
           "2026-01-01T00:00:00.000Z" (mkApp DemoDb.db0 [] DemoDb.savedImage)).
  by_evaluation.
Defined.

Lemma profile_delete_local_footprint_witness :
  let s := mkApp DemoDb.db0 [] DemoDb.savedImage in
  let out := UserProfileService.deleteProfileImage (Demo.proc None)
               DemoDb.platformMessage (Demo.service false)
               "u1" "2026-01-01T00:00:00.000Z" s in
  (dbCalls out.2 = dbCalls s ++ [ProfileFindOne "u1"] ∧ world out.2 = world s)
  ∨ ∃ profile ref localPath p data,
      dbCalls out.2 = dbCalls s ++ [ ProfileFindOne "u1";
                                     ProfileSave {| user_id := user_id profile;
                                                    profile_image := None |} ]
      ∧ profile_image profile = Some ref
      ∧ localNormalize "profile-images" ref = Some localPath
      ∧ p ∈ candidatePaths (Demo.proc None) "profile-images" localPath
      ∧ files (world s) !! Fs.resolve p = Some (File data)
      ∧ world out.2 = mkWorld (delete (Fs.resolve p) (files (world s)))
                        (store (world s)) (calls (world s)).
Proof.
  cbv zeta.
  apply (profile_delete_local_footprint (Demo.proc None)
           DemoDb.platformMessage (Demo.service false) "u1"
           "2026-01-01T00:00:00.000Z" (mkApp DemoDb.db0 [] DemoDb.savedImage)
           (UserProfileService.deleteProfileImage (Demo.proc None)
              DemoDb.platformMessage (Demo.service false)
              "u1" "2026-01-01T00:00:00.000Z"
              (mkApp DemoDb.db0 [] DemoDb.savedImage)).1);
    by_evaluation.
Defined.

Lemma media_record_deleted_whatever_storage_answers_witness :
  let s := mkApp DemoDb.db0 [] Demo.world in
  ∃ deleted w',
    deleteInstagramMedia (Demo.proc None) (Demo.service false)
      (Some "instagram-media/reel/u1/9b2f6c1e-3a4d-4f70-8c21-5d6e7f8a9b0c.mp4")
      (world s)
    = (Returned deleted, w')
    ∧ MediaService.remove (Demo.proc None) DemoDb.platformMessage
        (Demo.service false) "m1" "u1" false s
      = (match (mediaModel_deleteOne "m1" DemoDb.db0).1 with
         | Fulfilled _ => Fulfilled (JObject [("deleted", JBool true)])
         | Rejected (NotFoundException message) =>
             Rejected (NotFoundException message)
         | Rejected error =>
             Rejected (BadRequestException
                         ("Failed to delete media: " +:+ messageOf error))
         end,
         mkApp (mediaModel_deleteOne "m1" DemoDb.db0).2
           (dbCalls s ++ [ MediaFindOne "m1"
                             (if negb false then Some "u1" else None);
                           MediaDeleteOne "m1" ])
           w').
Proof.
  cbv zeta.
  apply (media_record_deleted_whatever_storage_answers (Demo.proc None)
           DemoDb.platformMessage (Demo.service false) "m1" "u1" false
           {| m_id := "m1"; m_user_id := "u1";
              m_url := "instagram-media/reel/u1/9b2f6c1e-3a4d-4f70-8c21-5d6e7f8a9b0c.mp4" |}
           DemoDb.db0 (mkApp DemoDb.db0 [] Demo.world)).
  by_evaluation.
Defined.

Lemma admin_delete_needs_created_user_witness :
  let s := mkApp DemoDb.db0 [] DemoDb.savedImage in
  let out := AdminProfileService.deleteUserProfileImage (Demo.proc None)
               DemoDb.platformMessage (Demo.service false)
               "admin2" "u1" "2026-01-01T00:00:00.000Z" s in
  (∃ user d1, userModel_findOne "u1" "admin2" (db s)
              = (Fulfilled (Some user), d1))
  ∨ (dbCalls out.2 = dbCalls s ++ [UserFindOne "u1" "admin2"]
     ∧ world out.2 = world s
     ∧ db out.2 = (userModel_findOne "u1" "admin2" (db s)).2
     ∧ ∀ response, out.1 = Fulfilled response →
         field "success" response = Some (JBool false)).
Proof.
  cbv zeta.
  apply (admin_delete_needs_created_user (Demo.proc None)
           DemoDb.platformMessage (Demo.service false) "admin2" "u1"
           "2026-01-01T00:00:00.000Z" (mkApp DemoDb.db0 [] DemoDb.savedImage)).
  by_evaluation.
Defined.

Lemma admin_delete_acts_as_user_delete_witness :
  let s := mkApp DemoDb.db0 [] DemoDb.savedImage in
  let s1 := mkApp DemoDb.db0 (dbCalls s ++ [UserFindOne "u1" "admin1"])
              (world s) in
  let (ra, sa) :=
    AdminProfileService.deleteUserProfileImage (Demo.proc None)
      DemoDb.platformMessage (Demo.service false)
      "admin1" "u1" "2026-01-01T00:00:00.000Z" s in
  let (ru, su) :=
    UserProfileService.deleteProfileImage (Demo.proc None)
      DemoDb.platformMessage (Demo.service false)
      "u1" "2026-01-01T00:00:00.000Z" s1 in
  sa = su
  ∧ ∃ response, ru = Fulfilled response
      ∧ match ra with
        | Fulfilled response' =>
            field "success" response' = field "success" response
        | Rejected error =>
            (∃ message, error = NotFoundException message)
            ∧ field "success" response = Some (JBool false)
        end.
Proof.
  cbv zeta.
  apply (admin_delete_acts_as_user_delete (Demo.proc None)
           DemoDb.platformMessage (Demo.service false) "admin1" "u1"
           "2026-01-01T00:00:00.000Z"
           {| u_id := "u1"; created_by := Some "admin1" |} DemoDb.db0
           (mkApp DemoDb.db0 [] DemoDb.savedImage)).
  by_evaluation.
Defined.

Lemma profile_image_round_trip_witness :
  UserProfileService.deleteProfileImage (Demo.proc None)
    DemoDb.platformMessage (Demo.service false)
    "u1" "2026-01-01T00:00:00.000Z" (mkApp DemoDb.db0 [] DemoDb.savedImage)
  = (Fulfilled (JObject [ ("success", JBool true);
                          ("message",
                           JString "Profile image deleted successfully");
                          ("timestamp", JString "2026-01-01T00:00:00.000Z") ]),
     mkApp
       (userProfileModel_save {| user_id := "u1"; profile_image := None |}
          DemoDb.db0).2
       ([] ++ [ ProfileFindOne "u1";
                ProfileSave {| user_id := "u1"; profile_image := None |} ])
       (mkWorld
          (delete (Fs.resolve (ownerDir (Demo.proc None) ProfileImage "u1")
                     ++ [Demo.uuid1
                           +:+ localExt ProfileImage (Demo.jpeg "me.jpg")])
             (files DemoDb.savedImage))
          (store DemoDb.savedImage) (calls DemoDb.savedImage))).
Proof.
  apply (profile_image_round_trip (Demo.proc None) DemoDb.platformMessage
           (Demo.service false) (Demo.jpeg "me.jpg") "u1" Demo.uuid1
           "2026-01-01T00:00:00.000Z" Demo.world
           "profile-images/u1/9b2f6c1e-3a4d-4f70-8c21-5d6e7f8a9b0c.jpg"
           DemoDb.savedImage DemoDb.db0 []
           {| user_id := "u1";
              profile_image :=
                Some "profile-images/u1/9b2f6c1e-3a4d-4f70-8c21-5d6e7f8a9b0c.jpg" |}
           DemoDb.db0); by_evaluation.
Defined.

Lemma media_round_trip_witness :
  MediaService.remove (Demo.proc None) DemoDb.platformMessage
    (Demo.service false) "m1" "u1" false (mkApp DemoDb.db0 [] DemoDb.savedClip)
  = (Fulfilled (JObject [("deleted", JBool true)]),
     mkApp (mediaModel_deleteOne "m1" DemoDb.db0).2
       ([] ++ [ MediaFindOne "m1" (if negb false then Some "u1" else None);
                MediaDeleteOne "m1" ])
       (mkWorld
          (delete (Fs.resolve (ownerDir (Demo.proc None)
                                 (InstagramMedia "reel" "video") "u1")
                     ++ [Demo.uuid1
                           +:+ localExt (InstagramMedia "reel" "video")
                                 (Demo.jpeg "clip.mp4")])
             (files DemoDb.savedClip))
          (store DemoDb.savedClip) (calls DemoDb.savedClip))).
Proof.
  apply (media_round_trip (Demo.proc None) DemoDb.platformMessage
           (Demo.service false) (Demo.jpeg "clip.mp4") "m1" "u1" false
           "reel" "video" Demo.uuid1 Demo.world
           "instagram-media/reel/u1/9b2f6c1e-3a4d-4f70-8c21-5d6e7f8a9b0c.mp4"
           DemoDb.savedClip DemoDb.db0 []
           {| m_id := "m1"; m_user_id := "u1";
              m_url := "instagram-media/reel/u1/9b2f6c1e-3a4d-4f70-8c21-5d6e7f8a9b0c.mp4" |}
           DemoDb.db0); by_evaluation.
Defined.

(** With the database out of reach the user's method answers a failure
    that bears the message, and [remove] throws a bad request; for an id
    that names no medium [remove] throws [Media not found]. *)
Example profile_delete_database_down :
  UserProfileService.deleteProfileImage (Demo.proc None)
    DemoDb.platformMessage (Demo.service false)
    "u1" "2026-01-01T00:00:00.000Z" (mkApp tt [] Demo.world)
  = (Fulfilled
       (JObject [ ("success", JBool false);
                  ("error", JString "Failed to delete profile image");
                  ("details",
                   JObject [ ("message", JString "connection lost");
                             ("user_id", JString "u1") ]);
                  ("timestamp", JString "2026-01-01T00:00:00.000Z") ]),
     mkApp tt [ProfileFindOne "u1"] Demo.world).
Proof. by_evaluation. Qed.

Example media_remove_failures :
  ((MediaService.remove (Demo.proc None) DemoDb.platformMessage
      (Demo.service false) "m1" "u1" false (mkApp tt [] Demo.world)).1,
   MediaService.remove (Demo.proc None) DemoDb.platformMessage
      (Demo.service false) "m1" "u2" false (mkApp DemoDb.db0 [] Demo.world))
  = (Rejected (BadRequestException "Failed to delete media: connection lost"),
     (Rejected (NotFoundException "Media not found"),
      mkApp DemoDb.db0 [MediaFindOne "m1" (Some "u2")] Demo.world)).
Proof. by_evaluation. Qed.

End MoreWitnesses.
